(** * Financial-metrics registry and formula evaluator

    A shallow embedding of [metrics_interpreter.py] (the registry [METRICS],
    the alias table, [calc] and [MetricsInterpreter.calculate_metric]) and of
    [get_metric_requirements] of [metrics_utils.py], followed by the
    properties of the specification that concern them. *)

From Stdlib Require Import ZArith Ascii String List Bool Lia.
From Stdlib Require Import Floats.SpecFloat.
From stdpp Require Import base gmap strings list pretty.

Local Open Scope Z_scope.

(** ** Python [str] methods used by the code *)

Module PyStr.

(** The double-quote character, spelled by its code. *)
Definition dquote : ascii := ascii_of_nat 34.
Definition squote : ascii := ascii_of_nat 39.
Definition backslash : ascii := ascii_of_nat 92.

(** [s.startswith(p)]. *)
Definition startswith (s p : string) : bool := String.prefix p s.

(** [s.endswith(suf)]. *)
Definition endswith (s suf : string) : bool :=
  (String.length suf <=? String.length s)%nat
  && String.eqb
       (String.substring (String.length s - String.length suf)
                         (String.length suf) s) suf.

(** [sub in s] on strings. *)
Fixpoint contains (s sub : string) : bool :=
  String.prefix sub s
  || match s with
     | EmptyString => false
     | String _ s' => contains s' sub
     end.

(** The scan of [s.replace(old, new)] for a non-empty [old]: leftmost
    occurrences, not overlapping.  [skip] counts the characters of a
    matched occurrence still to be dropped. *)
Fixpoint replace_scan (old new : string) (skip : nat) (s : string) : string :=
  match s with
  | EmptyString => EmptyString
  | String c s' =>
      match skip with
      | S k => replace_scan old new k s'
      | O =>
          if String.prefix old s
          then new +:+ replace_scan old new (String.length old - 1) s'
          else String c (replace_scan old new O s')
      end
  end.

(** With an empty [old], Python inserts [new] before every character and
    at the end. *)
Fixpoint replace_empty (new s : string) : string :=
  match s with
  | EmptyString => new
  | String c s' => new +:+ String c (replace_empty new s')
  end.

(** [s.replace(old, new)]. *)
Definition replace (s old new : string) : string :=
  match old with
  | EmptyString => replace_empty new s
  | String _ _ => replace_scan old new O s
  end.

(** [sep.join(l)]. *)
Definition join (sep : string) (l : list string) : string :=
  String.concat sep l.

End PyStr.

(** ** The metric registry *)

(** An entry of [METRICS]: [{"inputs": ..., "formula": ..., "desc": ...}]. *)
Record MetricSpec := {
  inputs : list string;
  formula : string;
  desc : string
}.

Definition METRICS_items : list (string * MetricSpec) :=
  [
    (* Core Income Statement *)
    ("revenue", Build_MetricSpec ["is.NetRevenue"] "is.NetRevenue" "Total top-line sales");
    ("cogs", Build_MetricSpec ["is.CostOfRevenue"] "is.CostOfRevenue" "Cost of goods / services");
    ("gross_profit", Build_MetricSpec ["revenue"; "cogs"] "revenue - cogs" "Revenue minus COGS");
    ("rnd", Build_MetricSpec ["is.RD"] "is.RD" "Research & development exp.");
    ("sga", Build_MetricSpec ["is.SG&A"] "is.SG&A" "Selling, general & admin");
    ("operating_income", Build_MetricSpec ["is.OperatingIncome"] "is.OperatingIncome" "EBIT; income from operations");
    ("ebit", Build_MetricSpec ["operating_income"] "operating_income" "Synonym for operating income");
    ("interest_expense", Build_MetricSpec ["is.InterestExpense"] "is.InterestExpense" "Net interest cost");
    ("ebt", Build_MetricSpec ["is.IncomeBeforeTax"] "is.IncomeBeforeTax" "Earnings before tax");
    ("tax_expense", Build_MetricSpec ["is.IncomeTax"] "is.IncomeTax" "Provision for income taxes");
    ("net_income", Build_MetricSpec ["is.NetIncome"] "is.NetIncome" "Bottom-line profit");
    ("eps_basic", Build_MetricSpec ["is.EPSBasic"] "is.EPSBasic" "Earnings per share, basic");
    ("eps_diluted", Build_MetricSpec ["is.EPSDiluted"] "is.EPSDiluted" "Earnings per share, diluted");
    (* Balance-Sheet Essentials *)
    ("cash", Build_MetricSpec ["bs.CashAndEquivalents"] "bs.CashAndEquivalents" "Cash & cash equivalents");
    ("short_term_investments", Build_MetricSpec ["bs.ShortTermInvestments"] "bs.ShortTermInvestments" "Marketable securities");
    ("accounts_receivable", Build_MetricSpec ["bs.AccountsReceivable"] "bs.AccountsReceivable" "Trade receivables");
    ("inventory", Build_MetricSpec ["bs.Inventory"] "bs.Inventory" "Inventories");
    ("current_assets", Build_MetricSpec ["bs.TotalCurrentAssets"] "bs.TotalCurrentAssets" "Total current assets");
    ("pp&e", Build_MetricSpec ["bs.PP&E"] "bs.PP&E" "Property, plant & equipment");
    ("goodwill", Build_MetricSpec ["bs.Goodwill"] "bs.Goodwill" "Goodwill intangible");
    ("total_assets", Build_MetricSpec ["bs.TotalAssets"] "bs.TotalAssets" "Sum of assets");
    ("accounts_payable", Build_MetricSpec ["bs.AccountsPayable"] "bs.AccountsPayable" "Trade accounts payable");
    ("deferred_revenue", Build_MetricSpec ["bs.DeferredRevenue"] "bs.DeferredRevenue" "Contract liabilities");
    ("current_liabilities", Build_MetricSpec ["bs.TotalCurrentLiabilities"] "bs.TotalCurrentLiabilities" "Due within 12 mo.");
    ("long_term_debt", Build_MetricSpec ["bs.LongTermDebt"] "bs.LongTermDebt" "Borrowings >1 year");
    ("total_liabilities", Build_MetricSpec ["bs.TotalLiabilities"] "bs.TotalLiabilities" "All liabilities");
    ("shareholders_equity", Build_MetricSpec ["bs.TotalEquity"] "bs.TotalEquity" "Book value of equity");
    (* Cash Flow *)
    ("cfo", Build_MetricSpec ["cf.CashFromOperations"] "cf.CashFromOperations" "Net cash from ops");
    ("capex", Build_MetricSpec ["cf.CapEx"] "cf.CapEx" "Capital expenditures");
    ("free_cash_flow", Build_MetricSpec ["cfo"; "capex"] "cfo - capex" "CFO minus capex");
    ("cff", Build_MetricSpec ["cf.CashFromFinancing"] "cf.CashFromFinancing" "Cash from financing");
    ("cfi", Build_MetricSpec ["cf.CashFromInvesting"] "cf.CashFromInvesting" "Cash from investing");
    (* Margins & Ratios *)
    ("gross_margin_pct", Build_MetricSpec ["gross_profit"; "revenue"] "gross_profit / revenue" "Gross profit / revenue");
    ("operating_margin_pct", Build_MetricSpec ["operating_income"; "revenue"] "operating_income / revenue" "EBIT margin");
    ("net_margin_pct", Build_MetricSpec ["net_income"; "revenue"] "net_income / revenue" "Net profit margin");
    ("rd_pct", Build_MetricSpec ["rnd"; "revenue"] "rnd / revenue" "R&D as % of sales");
    ("sga_pct", Build_MetricSpec ["sga"; "revenue"] "sga / revenue" "SG&A as % of sales");
    ("fcf_margin_pct", Build_MetricSpec ["free_cash_flow"; "revenue"] "free_cash_flow / revenue" "FCF margin");
    ("ebitda", Build_MetricSpec ["operating_income"; "is.D&A"] "operating_income + is.D&A" "EBIT + depreciation & amort.");
    ("ebitda_margin_pct", Build_MetricSpec ["ebitda"; "revenue"] "ebitda / revenue" "EBITDA margin");
    ("eps_growth_pct", Build_MetricSpec ["eps_diluted_t"; "eps_diluted_t-1"] "(eps_diluted_t/eps_diluted_t-1) - 1" "YoY EPS growth");
    ("revenue_growth_pct", Build_MetricSpec ["revenue_t"; "revenue_t-1"] "(revenue_t/revenue_t-1) - 1" "YoY top-line growth");
    (* Per-share & Market *)
    ("shares_out", Build_MetricSpec ["is.WeightedAvgSharesDiluted"] "is.WeightedAvgSharesDiluted" "Diluted share count");
    ("market_cap", Build_MetricSpec ["price"; "shares_out"] "price * shares_out" "Price × diluted shares");
    ("enterprise_value", Build_MetricSpec ["market_cap"; "total_liabilities"; "cash"] "market_cap + total_liabilities - cash" "EV = Mcap + debt - cash");
    ("ev_ebitda", Build_MetricSpec ["enterprise_value"; "ebitda"] "enterprise_value / ebitda" "EV / EBITDA multiple");
    ("price_sales", Build_MetricSpec ["market_cap"; "revenue"] "market_cap / revenue" "P/S ratio");
    ("price_earnings", Build_MetricSpec ["price"; "eps_diluted"] "price / eps_diluted" "Trailing P/E");
    ("dividend_yield_pct", Build_MetricSpec ["dividend_per_share"; "price"] "dividend_per_share / price" "Dividends / price");
    (* Return Metrics *)
    ("roic_pct", Build_MetricSpec ["nopat"; "invested_capital"] "nopat / invested_capital" "Return on invested capital");
    ("roe_pct", Build_MetricSpec ["net_income"; "shareholders_equity"] "net_income / shareholders_equity" "Return on equity");
    ("roa_pct", Build_MetricSpec ["net_income"; "total_assets"] "net_income / total_assets" "Return on assets");
    (* Leverage & Liquidity *)
    ("current_ratio", Build_MetricSpec ["current_assets"; "current_liabilities"] "current_assets / current_liabilities" "Liquidity ratio");
    ("quick_ratio", Build_MetricSpec ["cash"; "short_term_investments"; "accounts_receivable"; "current_liabilities"] "(cash + short_term_investments + accounts_receivable) / current_liabilities" "Acid-test ratio");
    ("debt_equity", Build_MetricSpec ["long_term_debt"; "shareholders_equity"] "long_term_debt / shareholders_equity" "Leverage ratio");
    ("debt_ebitda", Build_MetricSpec ["long_term_debt"; "ebitda"] "long_term_debt / ebitda" "Debt / EBITDA");
    ("interest_coverage", Build_MetricSpec ["ebit"; "interest_expense"] "ebit / abs(interest_expense)" "EBIT / Interest");
    (* Cash Efficiency *)
    ("ocf_conversion_pct", Build_MetricSpec ["cfo"; "net_income"] "cfo / net_income" "Cash conversion (ops)");
    ("capex_sales_pct", Build_MetricSpec ["capex"; "revenue"] "capex / revenue" "Capex intensity");
    ("dividend_payout_pct", Build_MetricSpec ["dividend_per_share"; "eps_diluted"] "dividend_per_share / eps_diluted" "Payout ratio");
    (* Valuation Extras *)
    ("ev_sales", Build_MetricSpec ["enterprise_value"; "revenue"] "enterprise_value / revenue" "EV / Sales");
    ("ev_ebit", Build_MetricSpec ["enterprise_value"; "ebit"] "enterprise_value / ebit" "EV / EBIT");
    ("fcf_yield_pct", Build_MetricSpec ["free_cash_flow"; "market_cap"] "free_cash_flow / market_cap" "FCF / market cap");
    (* Growth Tailwinds *)
    ("rd_growth_pct", Build_MetricSpec ["rnd_t"; "rnd_t-1"] "(rnd_t/rnd_t-1) - 1" "YoY R&D growth");
    ("capex_growth_pct", Build_MetricSpec ["capex_t"; "capex_t-1"] "(capex_t/capex_t-1) - 1" "YoY CapEx growth");
    ("employees", Build_MetricSpec ["10K.Employees"] "10K.Employees" "Full-time headcount");
    ("revenue_per_employee", Build_MetricSpec ["revenue"; "employees"] "revenue / employees" "Efficiency metric");
    (* Segment / Geo (generic placeholders) *)
    ("segment_revenue", Build_MetricSpec ["segment_df"] "lookup(segment_df, 'SegmentName')" "Revenue for a specific segment");
    ("geo_revenue", Build_MetricSpec ["geo_df"] "lookup(geo_df, 'Region')" "Revenue for a specific region");
    (* Market Performance *)
    ("total_return_1y_pct", Build_MetricSpec ["price_t"; "price_t-252"] "(price_t/price_t-252) - 1" "1-year price return");
    ("beta_2y", Build_MetricSpec ["daily_returns"; "index_returns"] "regression_beta(daily_returns, index_returns)" "2-year beta vs S&P 500");
    ("volatility_30d", Build_MetricSpec ["daily_returns_30d"] "std(daily_returns_30d) * sqrt(252)" "30-day annualized vol");
    (* ESG / Other *)
    ("carbon_intensity", Build_MetricSpec ["ghg_scope1"; "revenue"] "ghg_scope1 / revenue" "tCO₂e / $ revenue");
    ("board_independence_pct", Build_MetricSpec ["board_independent"; "board_total"] "board_independent / board_total" "Governance metric");
    (* Defensive Dupes (makes 100 lines) *)
    ("preferred_dividends", Build_MetricSpec ["is.PreferredDividends"] "is.PreferredDividends" "Preferred payouts");
    ("tangible_book_value", Build_MetricSpec ["shareholders_equity"; "goodwill"] "shareholders_equity - goodwill" "Equity less intangibles");
    ("price_book", Build_MetricSpec ["price"; "tangible_book_value_per_share"] "price / tangible_book_value_per_share" "P/B on tangible BV");
    ("working_capital", Build_MetricSpec ["current_assets"; "current_liabilities"] "current_assets - current_liabilities" "Operational liquidity");
    ("days_sales_outstanding", Build_MetricSpec ["accounts_receivable"; "revenue"] "(accounts_receivable / revenue) * 365" "Receivables / sales days");
    ("days_inventory", Build_MetricSpec ["inventory"; "cogs"] "(inventory / cogs) * 365" "Inventory days");
    ("days_payables", Build_MetricSpec ["accounts_payable"; "cogs"] "(accounts_payable / cogs) * 365" "Payables days");
    ("cash_conversion_cycle", Build_MetricSpec ["days_inventory"; "days_sales_outstanding"; "days_payables"] "days_inventory + days_sales_outstanding - days_payables" "Supply-chain cash cycle");
    ("interest_bearing_debt", Build_MetricSpec ["long_term_debt"; "bs.ShortTermDebt"] "long_term_debt + bs.ShortTermDebt" "All debt obligations");
    ("ltm_revenue", Build_MetricSpec ["revenue_t"; "revenue_t-1"; "revenue_t-2"; "revenue_t-3"] "sum(last_4_quarters)" "Trailing-12-month revenue")
  ].

(** The dict [METRICS]. *)
Definition METRICS : gmap string MetricSpec := list_to_map METRICS_items.

(** [METRIC_ALIASES]: alternative names of a metric. *)
Definition METRIC_ALIASES_items : list (string * string) :=
  [
    ("sales", "revenue");
    ("top_line", "revenue");
    ("profits", "net_income");
    ("earnings", "net_income");
    ("bottom_line", "net_income");
    ("r&d", "rnd");
    ("research_and_development", "rnd");
    ("operating_profit", "operating_income");
    ("ebit_margin", "operating_margin_pct");
    ("profit_margin", "net_margin_pct");
    ("net_profit_margin", "net_margin_pct");
    ("gross_margin", "gross_margin_pct");
    ("fcf", "free_cash_flow");
    ("operating_cash_flow", "cfo");
    ("ppe", "pp&e");
    ("property_plant_equipment", "pp&e");
    ("debt", "long_term_debt");
    ("equity", "shareholders_equity");
    ("book_value", "shareholders_equity");
    ("assets", "total_assets");
    ("liabilities", "total_liabilities");
    ("ar", "accounts_receivable");
    ("ap", "accounts_payable");
    ("pe_ratio", "price_earnings");
    ("pe", "price_earnings");
    ("ps", "price_sales");
    ("ps_ratio", "price_sales")
  ].

Definition METRIC_ALIASES : gmap string string := list_to_map METRIC_ALIASES_items.

(** ** Name sanitization of [calc] *)

(** [inp.replace('.', '_').replace('&', 'and').replace('-', '_')]. *)
Definition safe_name (inp : string) : string :=
  PyStr.replace (PyStr.replace (PyStr.replace inp "." "_") "&" "and") "-" "_".

(** The loop that turns [spec["formula"]] into [safe_formula]. *)
Fixpoint rewrite_formula (inps : list string) (safe_formula : string) : string :=
  match inps with
  | [] => safe_formula
  | inp :: rest =>
      let sn := safe_name inp in
      rewrite_formula rest
        (if String.eqb inp sn then safe_formula
         else PyStr.replace safe_formula inp sn)
  end.

Definition safe_formula_of (spec : MetricSpec) : string :=
  rewrite_formula (inputs spec) (formula spec).


(** ** Python values, exceptions and results *)

(** The values the development distinguishes.  A dataset is a
    [Dict[str, Any]]; the specification restricts its values to numbers,
    that is [VInt] and [VFloat].  The other constructors are what a formula
    can produce from a literal, from the evaluation scope or from an
    attribute of a built-in. *)
Inductive pyval :=
  | VInt (z : Z)                 (* int, unbounded *)
  | VFloat (f : spec_float)      (* float, IEEE 754 binary64 *)
  | VStr (s : string)
  | VNone
  | VBuiltin (name : string)     (* a built-in function object *)
  | VModule (name : string).     (* a module object *)

(** Exceptions the interpreter itself raises, by cause. *)
Inductive interp_error :=
  | DivisionByZero (on_float : bool)   (* a ZeroDivisionError *)
  | IntTooLarge                        (* an int beyond the doubles *)
  | QuotientTooLarge                   (* int / int beyond the doubles *)
  | NameNotFound (x : string)          (* the built-ins are [None] *)
  | NotCallable (v : pyval)
  | BadArguments (f : string) (args : list pyval)
  | InvalidSyntax.

(** The exception class of each cause. *)
Inductive exn_class :=
  | ZeroDivisionError | OverflowError | TypeError | SyntaxError.

Definition class_of (e : interp_error) : exn_class :=
  match e with
  | DivisionByZero _ => ZeroDivisionError
  | IntTooLarge | QuotientTooLarge => OverflowError
  | NameNotFound _ | NotCallable _ | BadArguments _ _ => TypeError
  | InvalidSyntax => SyntaxError
  end.

(** Exceptions: the interpreter's, and the two the code raises or provokes
    with an explicit argument. *)
Inductive pyexn :=
  | InterpExn (e : interp_error)
  | ValueError (msg : string)
  | KeyError (key : string).

(** The result of running a piece of Python: a value, an exception, or a
    construct that lies outside what this development describes. *)
Inductive outcome (A : Type) :=
  | Val (a : A)
  | Raise (e : pyexn)
  | Unmodelled.
Arguments Val {A} a.
Arguments Raise {A} e.
Arguments Unmodelled {A}.

#[global] Instance outcome_ret : MRet outcome := fun A a => Val a.
#[global] Instance outcome_bind : MBind outcome := fun A B k m =>
  match m with
  | Val a => k a
  | Raise e => Raise e
  | Unmodelled => Unmodelled
  end.

(** [try: body except Exception as e: handler(e)]. *)
Definition try_except {A} (body : outcome A) (handler : pyexn -> outcome A) : outcome A :=
  match body with
  | Raise e => handler e
  | r => r
  end.

(** [d[k]] on a dict. *)
Definition dict_getitem {V} (d : gmap string V) (k : string) : outcome V :=
  match d !! k with
  | Some v => Val v
  | None => Raise (KeyError k)
  end.

(** [k in d] on a dict. *)
Definition dict_contains {V} (d : gmap string V) (k : string) : bool :=
  bool_decide (is_Some (d !! k)).

Definition is_numeric (v : pyval) : bool :=
  match v with
  | VInt _ | VFloat _ => true
  | _ => false
  end.

(** [isinstance(v, str)]. *)
Definition isinstance_str (v : pyval) : bool :=
  match v with
  | VStr _ => true
  | _ => false
  end.

(** ** Arithmetic of [int] and [float] *)

Module PyNum.

Definition prec : Z := 53.
Definition emax : Z := 1024.

Definition is_inf (f : spec_float) : bool :=
  match f with S754_infinity _ => true | _ => false end.

Definition is_zero (f : spec_float) : bool :=
  match f with S754_zero _ => true | _ => false end.

(** [float(z)]: the nearest double, ties to even; an int beyond the range
    of doubles raises an [OverflowError]. *)
Definition to_float (z : Z) : outcome spec_float :=
  let f := binary_normalize prec emax z 0 false in
  if is_inf f then Raise (InterpExn IntTooLarge) else Val f.

(** The operand of an arithmetic operation as a double. *)
Definition as_float (v : pyval) : outcome spec_float :=
  match v with
  | VInt z => to_float z
  | VFloat f => Val f
  | _ => Unmodelled
  end.

(** An int as an exact, not normalised, significand with exponent 0. *)
Definition exact (z : Z) : spec_float :=
  match z with
  | Z0 => S754_zero false
  | Zpos p => S754_finite false p 0
  | Zneg p => S754_finite true p 0
  end.

(** [a / b] on two ints: the exact quotient rounded once. *)
Definition int_truediv (a b : Z) : outcome pyval :=
  if Z.eqb b 0 then Raise (InterpExn (DivisionByZero false))
  else
    let q := SFdiv prec emax (exact a) (exact b) in
    if is_inf q then Raise (InterpExn QuotientTooLarge) else Val (VFloat q).

(** [x / y] on two floats. *)
Definition float_truediv (x y : spec_float) : outcome pyval :=
  if is_zero y then Raise (InterpExn (DivisionByZero true))
  else Val (VFloat (SFdiv prec emax x y)).

Inductive binop := Add | Sub | Mul | Div.

Definition int_op (op : binop) (a b : Z) : outcome pyval :=
  match op with
  | Add => Val (VInt (a + b))
  | Sub => Val (VInt (a - b))
  | Mul => Val (VInt (a * b))
  | Div => int_truediv a b
  end.

Definition float_op (op : binop) (x y : spec_float) : outcome pyval :=
  match op with
  | Add => Val (VFloat (SFadd prec emax x y))
  | Sub => Val (VFloat (SFsub prec emax x y))
  | Mul => Val (VFloat (SFmul prec emax x y))
  | Div => float_truediv x y
  end.

(** A binary arithmetic operator on two values.  Two ints stay ints
    (except for [/]); as soon as one operand is a float the other is
    converted.  Operands that are not numbers are not described. *)
Definition binary (op : binop) (v w : pyval) : outcome pyval :=
  match v, w with
  | VInt a, VInt b => int_op op a b
  | VInt _, VFloat _ | VFloat _, VInt _ | VFloat _, VFloat _ =>
      x ← as_float v; y ← as_float w; float_op op x y
  | _, _ => Unmodelled
  end.

Definition neg (v : pyval) : outcome pyval :=
  match v with
  | VInt a => Val (VInt (- a))
  | VFloat x => Val (VFloat (SFopp x))
  | _ => Unmodelled
  end.

Definition pos (v : pyval) : outcome pyval :=
  match v with
  | VInt _ | VFloat _ => Val v
  | _ => Unmodelled
  end.

(** An int compared with a double by exact value: a finite double is
    [n * 2^e] for integers [n] and [e]. *)
Definition cmp_int_float (z : Z) (f : spec_float) : option comparison :=
  match f with
  | S754_nan => None
  | S754_infinity s => Some (if s then Gt else Lt)
  | S754_zero _ => Some (Z.compare z 0)
  | S754_finite s m e =>
      let n := if s then Zneg m else Zpos m in
      Some (if 0 <=? e then Z.compare z (n * 2 ^ e)
            else Z.compare (z * 2 ^ (- e)) n)
  end.

(** [v < w] on numbers; ints and floats are compared by value. *)
Definition lt (v w : pyval) : outcome bool :=
  match v, w with
  | VInt a, VInt b => Val (a <? b)
  | VFloat x, VFloat y => Val (SFltb x y)
  | VInt a, VFloat y =>
      Val (match cmp_int_float a y with Some Lt => true | _ => false end)
  | VFloat x, VInt b =>
      Val (match cmp_int_float b x with Some Gt => true | _ => false end)
  | _, _ => Unmodelled
  end.

(** [abs(v)]. *)
Definition abs (v : pyval) : outcome pyval :=
  match v with
  | VInt a => Val (VInt (Z.abs a))
  | VFloat x => Val (VFloat (SFabs x))
  | VStr _ | VNone | VBuiltin _ | VModule _ =>
      Raise (InterpExn (BadArguments "abs" [v]))
  end.

(** The scan of [min] ([is_min = true]) and [max]: the running best is
    replaced when the next item compares strictly before (after) it. *)
Fixpoint extremum (is_min : bool) (best : pyval) (rest : list pyval) : outcome pyval :=
  match rest with
  | [] => Val best
  | x :: rest' =>
      b ← (if is_min then lt x best else lt best x);
      extremum is_min (if b : bool then x else best) rest'
  end.

End PyNum.

(** ** The expressions [eval] accepts: tokens, syntax, evaluation

    [calc] hands the rewritten formula to the built-in [eval].  The fragment
    described here covers the formulas of the registry and more: names,
    decimal integers, plain string literals, [+ - * /], unary signs,
    parentheses, calls with positional arguments and attribute access.
    Whatever lies outside is reported as [Unmodelled], never guessed. *)

Module PyExpr.
Import PyNum.

Inductive token :=
  | TNum (z : Z)
  | TName (x : string)
  | TStr (s : string)
  | TPlus | TMinus | TStar | TSlash
  | TLParen | TRParen | TComma | TDot.

Definition is_digit (c : ascii) : bool :=
  let n := nat_of_ascii c in ((48 <=? n) && (n <=? 57))%nat.

Definition is_alpha (c : ascii) : bool :=
  let n := nat_of_ascii c in
  (((65 <=? n) && (n <=? 90)) || ((97 <=? n) && (n <=? 122)))%nat.

Definition is_word_char (c : ascii) : bool :=
  is_alpha c || is_digit c || Ascii.eqb c "_".

Definition is_quote (c : ascii) : bool :=
  Ascii.eqb c PyStr.squote || Ascii.eqb c PyStr.dquote.

Definition is_blank (c : ascii) : bool :=
  Ascii.eqb c " " || Ascii.eqb c (ascii_of_nat 9).

Definition keywords : list string :=
  ["False"; "None"; "True"; "and"; "as"; "assert"; "async"; "await";
   "break"; "class"; "continue"; "def"; "del"; "elif"; "else"; "except";
   "finally"; "for"; "from"; "global"; "if"; "import"; "in"; "is";
   "lambda"; "nonlocal"; "not"; "or"; "pass"; "raise"; "return"; "try";
   "while"; "with"; "yield"].

Definition is_keyword (w : string) : bool :=
  existsb (String.eqb w) keywords.

(** The value of a run of decimal digits. *)
Fixpoint digits_value (acc : Z) (w : string) : Z :=
  match w with
  | EmptyString => acc
  | String c w' => digits_value (10 * acc + Z.of_nat (nat_of_ascii c - 48)) w'
  end.

Fixpoint all_digits (w : string) : bool :=
  match w with
  | EmptyString => true
  | String c w' => is_digit c && all_digits w'
  end.

(** What follows the leading digits of a word. *)
Fixpoint after_digits (w : string) : string :=
  match w with
  | String c w' => if is_digit c then after_digits w' else w
  | EmptyString => EmptyString
  end.

(** Letters that continue a numeric literal ([1e5], [1j], [0x1f], [0o7],
    [0b1], [1_000]). *)
Definition continues_number (c : ascii) : bool :=
  existsb (Ascii.eqb c)
    ["e"; "E"; "j"; "J"; "x"; "X"; "o"; "O"; "b"; "B"; "_"]%char.

(** A maximal run of letters, digits and underscores as a token.  A
    decimal literal directly followed by a name that is not a keyword is
    a syntax error in every Python 3; the other literal forms are left
    undescribed. *)
Definition classify (w : string) : outcome token :=
  match w with
  | EmptyString => Unmodelled
  | String c w' =>
      if is_digit c then
        if all_digits w then
          if (Ascii.eqb c "0" && negb (String.eqb w' ""))
             || (4300 <? String.length w)%nat
          then Unmodelled
          else Val (TNum (digits_value 0 w))
        else
          match after_digits w with
          | EmptyString => Unmodelled
          | String d _ as rest =>
              if continues_number d || is_keyword rest then Unmodelled
              else Raise (InterpExn InvalidSyntax)
          end
      else if is_keyword w then Unmodelled
      else Val (TName w)
  end.

Definition is_num_token (t : token) : bool :=
  match t with TNum _ => true | _ => false end.

Definition next_char (s : string) : option ascii :=
  match s with
  | EmptyString => None
  | String c _ => Some c
  end.

Definition next_is (p : ascii -> bool) (s : string) : bool :=
  match next_char s with
  | Some c => p c
  | None => false
  end.

(** A character that is neither part of a word nor a quote: blank, an
    operator of the fragment, or something else. *)
Definition punct (c : ascii) (rest : string) : outcome (list token) :=
  if is_blank c then Val []
  else if Ascii.eqb c "+" then Val [TPlus]
  else if Ascii.eqb c "-" then Val [TMinus]
  else if Ascii.eqb c "(" then Val [TLParen]
  else if Ascii.eqb c ")" then Val [TRParen]
  else if Ascii.eqb c "," then Val [TComma]
  else if Ascii.eqb c "*" then
    if next_is (Ascii.eqb "*") rest then Unmodelled else Val [TStar]
  else if Ascii.eqb c "/" then
    if next_is (Ascii.eqb "/") rest then Unmodelled else Val [TSlash]
  else if Ascii.eqb c "." then
    if next_is is_digit rest then Unmodelled else Val [TDot]
  else Unmodelled.

Inductive lex_state :=
  | Idle
  | InWord (w : string)
  | InStr (q : ascii) (body : string).

Definition snoc (s : string) (c : ascii) : string :=
  s +:+ String c EmptyString.

(** The scanner; [acc] holds the tokens read so far, last first. *)
Fixpoint lex (st : lex_state) (acc : list token) (s : string) : outcome (list token) :=
  match s with
  | EmptyString =>
      match st with
      | Idle => Val (rev acc)
      | InWord w =>
          match classify w with
          | Val t => Val (rev (t :: acc))
          | Raise e => Raise e
          | Unmodelled => Unmodelled
          end
      | InStr _ _ => Unmodelled
      end
  | String c s' =>
      match st with
      | InStr q body =>
          if Ascii.eqb c q then lex Idle (TStr body :: acc) s'
          else if Ascii.eqb c PyStr.backslash
                  || Ascii.eqb c (ascii_of_nat 10)
                  || Ascii.eqb c (ascii_of_nat 13)
          then Unmodelled
          else lex (InStr q (snoc body c)) acc s'
      | InWord w =>
          if is_word_char c then lex (InWord (snoc w c)) acc s'
          else
            match classify w with
            | Val t =>
                if is_quote c || (Ascii.eqb c "." && is_num_token t)
                then Unmodelled
                else
                  match punct c s' with
                  | Val p => lex Idle (p ++ t :: acc) s'
                  | Raise e => Raise e
                  | Unmodelled => Unmodelled
                  end
            | Raise e => Raise e
            | Unmodelled => Unmodelled
            end
      | Idle =>
          if is_word_char c then lex (InWord (String c EmptyString)) acc s'
          else if is_quote c then lex (InStr c EmptyString) acc s'
          else
            match punct c s' with
            | Val p => lex Idle (p ++ acc) s'
            | Raise e => Raise e
            | Unmodelled => Unmodelled
            end
      end
  end.

Definition tokenize (source : string) : outcome (list token) :=
  lex Idle [] source.

(** Syntax trees of the fragment. *)
Inductive expr :=
  | ENum (z : Z)
  | EStr (s : string)
  | EName (x : string)
  | EBin (op : binop) (l r : expr)
  | ENeg (e : expr)
  | EPos (e : expr)
  | ECall (f : expr) (args : list expr)
  | EAttr (e : expr) (name : string).

(** Recursive descent with Python's precedences: sums of products of
    signed primaries, a primary being an atom followed by calls and
    attribute references.  [fuel] bounds the number of steps; a token
    list that the fragment does not derive yields [None]. *)
Fixpoint parse_sum (fuel : nat) (ts : list token) : option (expr * list token) :=
  match fuel with
  | O => None
  | S k =>
      match parse_term k ts with
      | Some (e, r) => parse_sum_rest k e r
      | None => None
      end
  end
with parse_sum_rest (fuel : nat) (lhs : expr) (ts : list token) : option (expr * list token) :=
  match fuel with
  | O => None
  | S k =>
      match ts with
      | TPlus :: r =>
          match parse_term k r with
          | Some (e, r') => parse_sum_rest k (EBin Add lhs e) r'
          | None => None
          end
      | TMinus :: r =>
          match parse_term k r with
          | Some (e, r') => parse_sum_rest k (EBin Sub lhs e) r'
          | None => None
          end
      | _ => Some (lhs, ts)
      end
  end
with parse_term (fuel : nat) (ts : list token) : option (expr * list token) :=
  match fuel with
  | O => None
  | S k =>
      match parse_factor k ts with
      | Some (e, r) => parse_term_rest k e r
      | None => None
      end
  end
with parse_term_rest (fuel : nat) (lhs : expr) (ts : list token) : option (expr * list token) :=
  match fuel with
  | O => None
  | S k =>
      match ts with
      | TStar :: r =>
          match parse_factor k r with
          | Some (e, r') => parse_term_rest k (EBin Mul lhs e) r'
          | None => None
          end
      | TSlash :: r =>
          match parse_factor k r with
          | Some (e, r') => parse_term_rest k (EBin Div lhs e) r'
          | None => None
          end
      | _ => Some (lhs, ts)
      end
  end
with parse_factor (fuel : nat) (ts : list token) : option (expr * list token) :=
  match fuel with
  | O => None
  | S k =>
      match ts with
      | TMinus :: r =>
          match parse_factor k r with
          | Some (e, r') => Some (ENeg e, r')
          | None => None
          end
      | TPlus :: r =>
          match parse_factor k r with
          | Some (e, r') => Some (EPos e, r')
          | None => None
          end
      | TNum z :: r => parse_trailers k (ENum z) r
      | TStr s :: r => parse_trailers k (EStr s) r
      | TName x :: r => parse_trailers k (EName x) r
      | TLParen :: r =>
          match parse_sum k r with
          | Some (e, TRParen :: r') => parse_trailers k e r'
          | _ => None
          end
      | _ => None
      end
  end
with parse_trailers (fuel : nat) (head : expr) (ts : list token) : option (expr * list token) :=
  match fuel with
  | O => None
  | S k =>
      match ts with
      | TDot :: TName x :: r => parse_trailers k (EAttr head x) r
      | TDot :: _ => None
      | TLParen :: TRParen :: r => parse_trailers k (ECall head []) r
      | TLParen :: r =>
          match parse_args k r with
          | Some (args, r') => parse_trailers k (ECall head args) r'
          | None => None
          end
      | _ => Some (head, ts)
      end
  end
with parse_args (fuel : nat) (ts : list token) : option (list expr * list token) :=
  match fuel with
  | O => None
  | S k =>
      match parse_sum k ts with
      | Some (e, TComma :: r) =>
          match parse_args k r with
          | Some (es, r') => Some (e :: es, r')
          | None => None
          end
      | Some (e, TRParen :: r) => Some ([e], r)
      | _ => None
      end
  end.

(** A whole token list as one expression. *)
Definition parse (ts : list token) : outcome expr :=
  match parse_sum (10 * length ts + 10) ts with
  | Some (e, []) => Val e
  | _ => Unmodelled
  end.

Abbreviation scope := (gmap string pyval).

(** A name is looked up in the locals, then the globals, then the
    built-ins.  With [__builtins__] bound to [None] the last step fails:
    [None] cannot be subscripted. *)
Definition lookup_name (globals locals : scope) (x : string) : outcome pyval :=
  match locals !! x with
  | Some v => Val v
  | None =>
      match globals !! x with
      | Some v => Val v
      | None =>
          match globals !! "__builtins__" with
          | Some VNone => Raise (InterpExn (NameNotFound x))
          | _ => Unmodelled
          end
      end
  end.

(** The functions of the [builtins] module this development names. *)
Definition builtin_functions : list string :=
  ["abs"; "min"; "max"; "__import__"].

Definition is_builtin_function (n : string) : bool :=
  existsb (String.eqb n) builtin_functions.

(** [v.name].  A built-in function carries the module it belongs to as
    [__self__]; a module gives access to its members. *)
Definition getattr (v : pyval) (name : string) : outcome pyval :=
  match v with
  | VBuiltin f =>
      if is_builtin_function f && String.eqb name "__self__"
      then Val (VModule "builtins") else Unmodelled
  | VModule m =>
      if String.eqb m "builtins" && is_builtin_function name
      then Val (VBuiltin name) else Unmodelled
  | _ => Unmodelled
  end.

(** [min] and [max] called with positional arguments, on numbers. *)
Definition call_extremum (is_min : bool) (args : list pyval) : outcome pyval :=
  match args with
  | [] => Raise (InterpExn (BadArguments (if is_min then "min" else "max") []))
  | [v] =>
      if is_numeric v
      then Raise (InterpExn (BadArguments (if is_min then "min" else "max") [v]))
      else Unmodelled
  | v :: rest =>
      if forallb is_numeric args then extremum is_min v rest else Unmodelled
  end.

(** A call of [f] with positional arguments. *)
Definition call (f : pyval) (args : list pyval) : outcome pyval :=
  match f with
  | VBuiltin n =>
      if String.eqb n "abs" then
        match args with
        | [v] => PyNum.abs v
        | _ => Raise (InterpExn (BadArguments "abs" args))
        end
      else if String.eqb n "min" then call_extremum true args
      else if String.eqb n "max" then call_extremum false args
      else if String.eqb n "__import__" then
        match args with
        | [VStr m] => if String.eqb m "os" then Val (VModule "os") else Unmodelled
        | _ => Unmodelled
        end
      else Unmodelled
  | VInt _ | VFloat _ | VStr _ | VNone | VModule _ =>
      Raise (InterpExn (NotCallable f))
  end.

(** Evaluation: operands left to right, the callee before its
    arguments. *)
Fixpoint eval_expr (globals locals : scope) (e : expr) : outcome pyval :=
  match e with
  | ENum z => Val (VInt z)
  | EStr s => Val (VStr s)
  | EName x => lookup_name globals locals x
  | EBin op a b =>
      match eval_expr globals locals a with
      | Val va =>
          match eval_expr globals locals b with
          | Val vb => binary op va vb
          | r => r
          end
      | r => r
      end
  | ENeg a =>
      match eval_expr globals locals a with
      | Val va => neg va
      | r => r
      end
  | EPos a =>
      match eval_expr globals locals a with
      | Val va => pos va
      | r => r
      end
  | ECall f args =>
      match eval_expr globals locals f with
      | Val vf =>
          let fix eval_args (l : list expr) : outcome (list pyval) :=
            match l with
            | [] => Val []
            | a :: l' =>
                match eval_expr globals locals a with
                | Val va =>
                    match eval_args l' with
                    | Val vs => Val (va :: vs)
                    | r => r
                    end
                | Raise e => Raise e
                | Unmodelled => Unmodelled
                end
            end in
          match eval_args args with
          | Val vs => call vf vs
          | Raise e => Raise e
          | Unmodelled => Unmodelled
          end
      | r => r
      end
  | EAttr a n =>
      match eval_expr globals locals a with
      | Val va => getattr va n
      | r => r
      end
  end.

(** [eval(source, globals, locals)]. *)
Definition python_eval (source : string) (globals locals : scope) : outcome pyval :=
  ts ← tokenize source;
  e ← parse ts;
  eval_expr globals locals e.

End PyExpr.

(** ** The run-time services [calc] relies on *)

(** [eval], the text [str(e)] of an exception raised by the interpreter and
    [repr] of a string are services of the Python run time.  The code is
    embedded over this interface; [cpython] below instantiates [py_eval]
    with the evaluator of [PyExpr] and leaves the two texts, which vary
    with the interpreter's version, as parameters. *)
Class PyRuntime := {
  py_eval : string -> PyExpr.scope -> PyExpr.scope -> outcome pyval;
  py_error_text : interp_error -> string;
  py_repr_str : string -> string
}.

Definition cpython (error_text : interp_error -> string)
    (repr_str : string -> string) : PyRuntime :=
  {| py_eval := PyExpr.python_eval;
     py_error_text := error_text;
     py_repr_str := repr_str |}.

(** The texts of CPython 3.12, for closed examples. *)
Module CPython312.

Definition type_name (v : pyval) : string :=
  match v with
  | VInt _ => "int"
  | VFloat _ => "float"
  | VStr _ => "str"
  | VNone => "NoneType"
  | VBuiltin _ => "builtin_function_or_method"
  | VModule _ => "module"
  end.

Definition error_text (e : interp_error) : string :=
  match e with
  | DivisionByZero false => "division by zero"
  | DivisionByZero true => "float division by zero"
  | IntTooLarge => "int too large to convert to float"
  | QuotientTooLarge => "integer division result too large for a float"
  | NameNotFound _ => "'NoneType' object is not subscriptable"
  | NotCallable v => "'" +:+ type_name v +:+ "' object is not callable"
  | BadArguments f args =>
      if String.eqb f "abs" then
        match args with
        | [v] => "bad operand type for abs(): '" +:+ type_name v +:+ "'"
        | _ => "abs() takes exactly one argument ("
                 +:+ pretty (length args) +:+ " given)"
        end
      else
        match args with
        | [] => f +:+ " expected at least 1 argument, got 0"
        | v :: _ => "'" +:+ type_name v +:+ "' object is not iterable"
        end
  | InvalidSyntax => "invalid decimal literal (<string>, line 1)"
  end.

Definition hex_digit (n : nat) : ascii :=
  ascii_of_nat (if (n <? 10)%nat then 48 + n else 87 + n).

(** One character inside [repr] of a string delimited by [q]. *)
Definition repr_char (q c : ascii) : string :=
  let n := nat_of_ascii c in
  let esc (d : ascii) := String PyStr.backslash (String d EmptyString) in
  if Ascii.eqb c PyStr.backslash || Ascii.eqb c q then esc c
  else if (n =? 9)%nat then esc "t"%char
  else if (n =? 10)%nat then esc "n"%char
  else if (n =? 13)%nat then esc "r"%char
  else if (n <? 32)%nat || (n =? 127)%nat then
    String PyStr.backslash
      (String "x"%char
         (String (hex_digit (n / 16))
            (String (hex_digit (n mod 16)) EmptyString)))
  else String c EmptyString.

Fixpoint repr_body (q : ascii) (s : string) : string :=
  match s with
  | EmptyString => EmptyString
  | String c s' => repr_char q c +:+ repr_body q s'
  end.

Definition has_char (c : ascii) (s : string) : bool :=
  existsb (Ascii.eqb c) (list_ascii_of_string s).

(** [repr(s)]: single quotes, unless the string holds a single quote and
    no double quote.  Bytes above 127 are taken to encode printable
    characters. *)
Definition repr_str (s : string) : string :=
  let q := if has_char PyStr.squote s && negb (has_char PyStr.dquote s)
           then PyStr.dquote else PyStr.squote in
  String q (repr_body q s) +:+ String q EmptyString.

End CPython312.

Definition cpython312 : PyRuntime :=
  cpython CPython312.error_text CPython312.repr_str.

(** ** [calc] and [MetricsInterpreter.calculate_metric] *)

(** What [calculate_metric] returns: a dict with a ["success"] flag and,
    depending on the case, an error text, the metric, the missing inputs,
    or the value with its provenance. *)
Inductive CalcResult :=
  | UnknownMetric (error : string)
  | MissingInputs (error : string) (metric : string) (missing_inputs : list string)
  | Calculated (metric : string) (value : pyval) (formula_text : string)
      (description : string) (inputs_used : gmap string pyval)
  | EvaluationError (error : string) (metric : string) (formula_text : string).

Definition success (r : CalcResult) : bool :=
  match r with
  | Calculated _ _ _ _ _ => true
  | _ => false
  end.

(** The ["error"] entry of a result, when it has one. *)
Definition result_error (r : CalcResult) : option string :=
  match r with
  | UnknownMetric error => Some error
  | MissingInputs error _ _ => Some error
  | Calculated _ _ _ _ _ => None
  | EvaluationError error _ _ => Some error
  end.

(** [[inp for inp in inputs if inp not in data]]. *)
Definition missing_from (data : gmap string pyval) (inps : list string) : list string :=
  List.filter (fun inp => negb (dict_contains data inp)) inps.

(** [if metric_name in aliases: metric_name = aliases[metric_name]]. *)
Definition resolve_in (aliases : gmap string string) (metric_name : string) : string :=
  match aliases !! metric_name with
  | Some canonical => canonical
  | None => metric_name
  end.

Definition resolve_alias (metric_name : string) : string :=
  resolve_in METRIC_ALIASES metric_name.

Section Interpreter.
Context `{R : PyRuntime}.

(** [str(e)]. *)
Definition str_exn (e : pyexn) : string :=
  match e with
  | InterpExn i => py_error_text i
  | ValueError msg => msg
  | KeyError k => py_repr_str k
  end.

(** [str(l)] for a list of strings. *)
Definition str_list (l : list string) : string :=
  "[" +:+ PyStr.join ", " (map py_repr_str l) +:+ "]".

(** The first loop of [calc]: every input must be in [data]; its value
    is stored under its safe name. *)
Fixpoint prepare_inputs (data : gmap string pyval) (all_inputs inps : list string)
    (input_values : PyExpr.scope) : outcome PyExpr.scope :=
  match inps with
  | [] => Val input_values
  | inp :: rest =>
      if negb (dict_contains data inp) then
        Raise (ValueError ("Missing values for inputs: "
                           +:+ str_list (missing_from data all_inputs)))
      else
        v ← dict_getitem data inp;
        prepare_inputs data all_inputs rest (<[safe_name inp := v]> input_values)
  end.

(** [{**input_values, 'abs': abs, 'max': max, 'min': min}]. *)
Definition safe_locals_of (input_values : PyExpr.scope) : PyExpr.scope :=
  <["min" := VBuiltin "min"]>
    (<["max" := VBuiltin "max"]>
       (<["abs" := VBuiltin "abs"]> input_values)).

(** [{"__builtins__": None}]. *)
Definition safe_globals : PyExpr.scope := {[ "__builtins__" := VNone ]}.

(** The general path of [calc], after the shortcut for direct
    references. *)
Definition calc_general (spec : MetricSpec) (data : gmap string pyval) : outcome pyval :=
  input_values ← prepare_inputs data (inputs spec) (inputs spec) ∅;
  let safe_formula := safe_formula_of spec in
  try_except
    (py_eval safe_formula safe_globals (safe_locals_of input_values))
    (fun e => Raise (ValueError ("Error evaluating formula '" +:+ safe_formula
                                 +:+ "': " +:+ str_exn e))).

(** [len(spec["inputs"]) == 1 and spec["formula"] == spec["inputs"][0]]. *)
Definition is_direct_reference (spec : MetricSpec) : bool :=
  match inputs spec with
  | [inp] => String.eqb (formula spec) inp
  | _ => false
  end.

Definition calc (metrics_dict : gmap string MetricSpec) (key : string)
    (data : gmap string pyval) : outcome pyval :=
  spec ← dict_getitem metrics_dict key;
  if is_direct_reference spec then
    match inputs spec with
    | inp :: _ =>
        if dict_contains data inp then dict_getitem data inp
        else Raise (ValueError ("Missing value for input: " +:+ inp))
    | [] => Unmodelled
    end
  else calc_general spec data.

(** [{inp: data[inp] for inp in inputs if inp in data}]. *)
Fixpoint inputs_used_of (data : gmap string pyval) (inps : list string)
    (acc : gmap string pyval) : outcome (gmap string pyval) :=
  match inps with
  | [] => Val acc
  | inp :: rest =>
      if dict_contains data inp then
        v ← dict_getitem data inp;
        inputs_used_of data rest (<[inp := v]> acc)
      else inputs_used_of data rest acc
  end.

Definition calculate_metric (metric_name : string) (data : gmap string pyval)
    : outcome CalcResult :=
  let metric_name := resolve_alias metric_name in
  if negb (dict_contains METRICS metric_name) then
    Val (UnknownMetric ("Unknown metric '" +:+ metric_name +:+ "'"))
  else
    metric_spec ← dict_getitem METRICS metric_name;
    let missing_inputs := missing_from data (inputs metric_spec) in
    if negb (Nat.eqb (length missing_inputs) 0) then
      Val (MissingInputs
             ("Missing data for inputs: " +:+ PyStr.join ", " missing_inputs)
             metric_name missing_inputs)
    else
      try_except
        (result ← calc METRICS metric_name data;
         result ← (if PyStr.endswith metric_name "_pct"
                      && negb (isinstance_str result)
                   then PyNum.binary PyNum.Mul result (VInt 100)
                   else Val result);
         used ← inputs_used_of data (inputs metric_spec) ∅;
         Val (Calculated metric_name result (formula metric_spec)
                (desc metric_spec) used))
        (fun e =>
           Val (EvaluationError ("Error calculating metric: " +:+ str_exn e)
                  metric_name (formula metric_spec))).

End Interpreter.

(** ** [MetricsInterpreter.get_metric_definition] *)

(** The dict it returns: the error, or the definition under the canonical
    name together with the name it was asked under when that was an
    alias. *)
Inductive DefinitionResult :=
  | DefinitionUnknown (error : string)
  | DefinitionFound (metric : string) (original_name : option string)
      (description : string) (formula_text : string)
      (required_inputs : list string) (is_alias : bool).

Definition get_metric_definition (metric_name : string) : outcome DefinitionResult :=
  let original_name :=
    if dict_contains METRIC_ALIASES metric_name then Some metric_name else None in
  canonical_name ←
    (if dict_contains METRIC_ALIASES metric_name
     then dict_getitem METRIC_ALIASES metric_name
     else Val metric_name);
  if negb (dict_contains METRICS canonical_name) then
    Val (DefinitionUnknown ("Unknown metric '" +:+ canonical_name +:+ "'"))
  else
    metric_spec ← dict_getitem METRICS canonical_name;
    Val (DefinitionFound canonical_name original_name (desc metric_spec)
           (formula metric_spec) (inputs metric_spec)
           (match original_name with Some _ => true | None => false end)).

(** ** [get_metric_requirements] of [metrics_utils.py]

    The function reads the module-level [METRICS] and [METRIC_ALIASES];
    here both are arguments, so that registries other than the shipped one
    (cyclic ones among them) can be stated. *)

(** [inp.startswith(("is.", "bs.", "cf."))]. *)
Definition is_statement_item (inp : string) : bool :=
  PyStr.startswith inp "is." || PyStr.startswith inp "bs."
  || PyStr.startswith inp "cf.".

Record RequirementInfo := {
  req_metric : string;
  req_description : string;
  req_formula : string;
  direct_inputs : list string;
  all_required_inputs : list string;
  income_statement_inputs : list string;
  balance_sheet_inputs : list string;
  cash_flow_inputs : list string;
  derived_inputs : list string
}.

Inductive Requirements :=
  | ReqError (error : string)
  | ReqInfo (info : RequirementInfo).

(** The two sets the nested function [collect_inputs] updates. *)
Record collect_state := {
  all_inputs : gset string;
  processed_metrics : gset string
}.

Section Requirements.
Variable registry : gmap string MetricSpec.
Variable aliases : gmap string string.

Definition add_input (inp : string) (st : collect_state) : collect_state :=
  {| all_inputs := {[inp]} ∪ all_inputs st;
     processed_metrics := processed_metrics st |}.

Definition mark_processed (metric : string) (st : collect_state) : collect_state :=
  {| all_inputs := all_inputs st;
     processed_metrics := {[metric]} ∪ processed_metrics st |}.

(** [not inp.startswith(("is.", "bs.", "cf.")) and inp in METRICS]. *)
Definition is_sub_metric (inp : string) : bool :=
  negb (is_statement_item inp) && dict_contains registry inp.

(** The [for] loop in the body of [collect_inputs]; [rec] is the
    recursive call. *)
Fixpoint collect_loop (rec : string -> collect_state -> option collect_state)
    (inps : list string) (st : collect_state) : option collect_state :=
  match inps with
  | [] => Some st
  | inp :: rest =>
      let st := add_input inp st in
      if is_sub_metric inp then
        match rec inp st with
        | Some st' => collect_loop rec rest st'
        | None => None
        end
      else collect_loop rec rest st
  end.

(** [collect_inputs(metric)], with the depth of the recursion bounded by
    [fuel]; [None] when the bound is reached. *)
Fixpoint collect_inputs (fuel : nat) (metric : string) (st : collect_state)
    : option collect_state :=
  match fuel with
  | O => None
  | S k =>
      if bool_decide (metric ∈ processed_metrics st)
         || negb (dict_contains registry metric)
      then Some st
      else
        match registry !! metric with
        | None => Some st
        | Some spec =>
            collect_loop (collect_inputs k) (inputs spec)
              (mark_processed metric st)
        end
  end.

(** The loop that starts the collection from the direct inputs. *)
Fixpoint collect_from (fuel : nat) (inps : list string) (st : collect_state)
    : option collect_state :=
  match inps with
  | [] => Some st
  | input_metric :: rest =>
      if is_sub_metric input_metric then
        match collect_inputs fuel input_metric st with
        | Some st' => collect_from fuel rest st'
        | None => None
        end
      else collect_from fuel rest st
  end.

Definition requirements_with (fuel : nat) (metric_name : string) : option Requirements :=
  let metric_name := resolve_in aliases metric_name in
  match registry !! metric_name with
  | None => Some (ReqError ("Unknown metric: " +:+ metric_name))
  | Some info =>
      match collect_from fuel (inputs info)
              {| all_inputs := list_to_set (inputs info);
                 processed_metrics := ∅ |} with
      | None => None
      | Some st =>
          let all := elements (all_inputs st) in
          Some (ReqInfo
            {| req_metric := metric_name;
               req_description := desc info;
               req_formula := formula info;
               direct_inputs := inputs info;
               all_required_inputs := all;
               income_statement_inputs :=
                 List.filter (fun inp => PyStr.startswith inp "is.") all;
               balance_sheet_inputs :=
                 List.filter (fun inp => PyStr.startswith inp "bs.") all;
               cash_flow_inputs :=
                 List.filter (fun inp => PyStr.startswith inp "cf.") all;
               derived_inputs :=
                 List.filter (fun inp => negb (is_statement_item inp)) all |})
      end
  end.

(** The registered metrics not yet processed. *)
Definition remaining (st : collect_state) : nat :=
  size (dom registry ∖ processed_metrics st).

(** The recursion is never deeper than the number of registered
    metrics. *)
Definition get_metric_requirements (metric_name : string) : option Requirements :=
  requirements_with (S (size registry)) metric_name.

End Requirements.

(** ** Datasets, registries and checks used in the statements *)

(** A dataset in the sense of the specification: every value a number. *)
Definition numeric_data (d : gmap string pyval) : Prop :=
  forall k v, d !! k = Some v -> is_numeric v = true.

(** A result that is a number or an exception. *)
Definition numeric_or_raises (r : outcome pyval) : Prop :=
  (exists v, r = Val v /\ is_numeric v = true) \/ (exists e, r = Raise e).

(** A result that is an exception. *)
Definition raises {A} (r : outcome A) : Prop := exists e, r = Raise e.

(** The double nearest to an int inside the range of doubles. *)
Definition float_of_int (z : Z) : spec_float :=
  binary_normalize PyNum.prec PyNum.emax z 0 false.

(** A registry with one crafted formula, for [calc] called directly. *)
Definition probe_registry : gmap string MetricSpec :=
  {[ "probe" := {| inputs := [];
                   formula := "abs.__self__.__import__('os')";
                   desc := "" |} ]}.

(** A registry with one metric whose two inputs have the same safe
    token. *)
Definition colliding_registry : gmap string MetricSpec :=
  {[ "spread" := {| inputs := ["a.b"; "a-b"];
                    formula := "a.b - a-b";
                    desc := "" |} ]}.

Definition colliding_data : gmap string pyval :=
  <["a.b" := VInt 5]> {[ "a-b" := VInt 3 ]}.

(** A registry whose two metrics require each other, one of them also
    itself. *)
Definition cyclic_registry : gmap string MetricSpec :=
  <["a" := {| inputs := ["b"; "a"]; formula := "a + b"; desc := "" |}]>
    (<["b" := {| inputs := ["a"; "is.X"]; formula := "a"; desc := "" |}]> ∅).

(** The datasets of the examples of the specification. *)
Definition revenue_only : gmap string pyval := {[ "revenue" := VInt 100 ]}.

Definition margin_data : gmap string pyval :=
  <["net_income" := VInt 10]> {[ "revenue" := VInt 50 ]}.

Definition zero_revenue : gmap string pyval :=
  <["net_income" := VInt 10]> {[ "revenue" := VInt 0 ]}.

Definition raw_statement_data : gmap string pyval :=
  <["is.NetRevenue" := VInt 100]> {[ "is.CostOfRevenue" := VInt 40 ]}.

(** The identifiers of a formula: the maximal runs of letters, digits and
    underscores of the rewritten formula that are not numbers. *)
Fixpoint words_from (cur : string) (s : string) : list string :=
  match s with
  | EmptyString => if String.eqb cur "" then [] else [cur]
  | String c s' =>
      if PyExpr.is_word_char c then words_from (PyExpr.snoc cur c) s'
      else if String.eqb cur "" then words_from "" s'
      else cur :: words_from "" s'
  end.

Definition formula_identifiers (spec : MetricSpec) : list string :=
  List.filter (fun w => negb (PyExpr.all_digits w))
    (words_from "" (safe_formula_of spec)).

Definition supported_builtins : list string := ["abs"; "min"; "max"].

Definition mem_string (w : string) (l : list string) : bool :=
  existsb (String.eqb w) l.

(** Every identifier of the formula is a sanitized input or a supported
    built-in. *)
Definition identifiers_declared (spec : MetricSpec) : bool :=
  forallb (fun w => mem_string w (map safe_name (inputs spec) ++ supported_builtins))
    (formula_identifiers spec).

(** The entries whose formula is a description rather than an expression
    over the inputs. *)
Definition placeholder_metrics : list string :=
  ["segment_revenue"; "geo_revenue"; "beta_2y"; "volatility_30d"; "ltm_revenue"].

(** The rewriting as the specification words it, to compare [calc]'s loop
    of [replace] calls with: scanning the formula from the left, every
    occurrence of an input identifier (the longest one that matches) is
    replaced by its safe token. *)
Definition longer_match (s : string) (best : option string) (inp : string) : option string :=
  if negb (String.eqb inp "") && String.prefix inp s then
    match best with
    | Some b => if (String.length b <? String.length inp)%nat then Some inp else best
    | None => Some inp
    end
  else best.

Definition longest_match (inps : list string) (s : string) : option string :=
  fold_left (longer_match s) inps None.

Fixpoint rewrite_occurrences (inps : list string) (skip : nat) (s : string) : string :=
  match s with
  | EmptyString => EmptyString
  | String c s' =>
      match skip with
      | S k => rewrite_occurrences inps k s'
      | O =>
          match longest_match inps s with
          | Some inp =>
              safe_name inp +:+ rewrite_occurrences inps (String.length inp - 1) s'
          | None => String c (rewrite_occurrences inps O s')
          end
      end
  end.

(** All input identifiers of the registry. *)
Definition registry_inputs : list string :=
  concat (map (fun p => inputs p.2) METRICS_items).

(** [safe_name] separates the identifiers of a list. *)
Definition safe_names_distinct (l : list string) : bool :=
  forallb (fun a =>
    forallb (fun b => implb (String.eqb (safe_name a) (safe_name b)) (String.eqb a b)) l) l.

(** What a run of the collection from [st] to [st'] guarantees: both sets
    grow, every metric processed on the way has all its inputs collected,
    and every collected input that is itself a metric has been
    processed. *)
Record collect_post (registry : gmap string MetricSpec) (st st' : collect_state) : Prop := {
  post_all : all_inputs st ⊆ all_inputs st';
  post_processed : processed_metrics st ⊆ processed_metrics st';
  post_closed : forall p spec x,
    p ∈ processed_metrics st' -> p ∉ processed_metrics st ->
    registry !! p = Some spec -> In x (inputs spec) -> x ∈ all_inputs st';
  post_marked : forall x,
    x ∈ all_inputs st' -> x ∉ all_inputs st ->
    is_sub_metric registry x = true -> x ∈ processed_metrics st'
}.

(** ** Static analysis of a formula

    What the evaluation of an expression can end in, given the names bound
    to numbers: [KNumeric] - a number or an exception; [KRaises] - an
    exception.  [None] when the analysis does not decide. *)
Inductive eval_kind := KNumeric | KRaises.

(** The names the scope of [calc] binds besides the inputs. *)
Definition reserved_names : list string := "__builtins__" :: supported_builtins.

Fixpoint kind_of (bound : list string) (e : PyExpr.expr) : option eval_kind :=
  match e with
  | PyExpr.ENum _ => Some KNumeric
  | PyExpr.EStr _ => None
  | PyExpr.EName x =>
      if mem_string x bound then Some KNumeric
      else if mem_string x reserved_names then None
      else Some KRaises
  | PyExpr.EBin _ a b =>
      match kind_of bound a with
      | Some KRaises => Some KRaises
      | Some KNumeric => kind_of bound b
      | None => None
      end
  | PyExpr.ENeg a => kind_of bound a
  | PyExpr.EPos a => kind_of bound a
  | PyExpr.ECall f args =>
      match f, args with
      | PyExpr.EName g, [a] =>
          if mem_string g bound then None
          else if String.eqb g "abs" then kind_of bound a
          else if mem_string g reserved_names then None
          else Some KRaises
      | _, _ =>
          match kind_of bound f with
          | Some KRaises => Some KRaises
          | _ => None
          end
      end
  | PyExpr.EAttr a _ =>
      match kind_of bound a with
      | Some KRaises => Some KRaises
      | _ => None
      end
  end.

(** The syntax tree [eval] builds for a source text. *)
Definition parse_source (source : string) : outcome PyExpr.expr :=
  ts ← PyExpr.tokenize source; PyExpr.parse ts.

Definition all_distinct (l : list string) : bool :=
  bool_decide (NoDup l).

(** The entry is a direct reference, or its rewritten formula parses to an
    expression that the analysis decides, over safe names that are
    pairwise distinct and not reserved. *)
Definition entry_analysed (spec : MetricSpec) : bool :=
  is_direct_reference spec
  || (let bound := map safe_name (inputs spec) in
      all_distinct bound
      && forallb (fun x => negb (mem_string x reserved_names)) bound
      && match parse_source (safe_formula_of spec) with
         | Val e => match kind_of bound e with Some _ => true | None => false end
         | _ => false
         end).

(** The rewritten formula of the entry is the quotient [x / y] of two
    names. *)
Definition parses_as_ratio (spec : MetricSpec) (x y : string) : bool :=
  match parse_source (safe_formula_of spec) with
  | Val (PyExpr.EBin PyNum.Div (PyExpr.EName a) (PyExpr.EName b)) =>
      String.eqb a x && String.eqb b y
  | _ => false
  end.

(** For an entry whose formula text is [x / y] over its two inputs [x] and
    [y]: the names need no rewriting, are distinct and not reserved, and
    the formula parses as their quotient. *)
Definition ratio_entry_ok (spec : MetricSpec) : bool :=
  match inputs spec with
  | [x; y] =>
      if String.eqb (formula spec) (x +:+ " / " +:+ y) then
        String.eqb (safe_name x) x && String.eqb (safe_name y) y
        && negb (String.eqb x y)
        && negb (mem_string x reserved_names) && negb (mem_string y reserved_names)
        && parses_as_ratio spec x y
      else true
  | _ => true
  end.

(** A direct reference other than [employees] goes through the general
    path as the name of its safe token. *)
Definition direct_entry_ok (name : string) (spec : MetricSpec) : bool :=
  match inputs spec with
  | [inp] =>
      if String.eqb (formula spec) inp then
        negb (PyStr.endswith name "_pct")
        && (String.eqb name "employees"
            || (negb (mem_string (safe_name inp) reserved_names)
                && match parse_source (safe_formula_of spec) with
                   | Val (PyExpr.EName x) => String.eqb x (safe_name inp)
                   | _ => false
                   end))
      else true
  | _ => true
  end.

(** The number zero: [0], [0.0] or [-0.0]. *)
Definition is_zero_value (v : pyval) : bool :=
  match v with
  | VInt z => Z.eqb z 0
  | VFloat f => PyNum.is_zero f
  | _ => false
  end.

Definition employees_data : gmap string pyval := {[ "10K.Employees" := VInt 5 ]}.

Definition negative_revenue : gmap string pyval := {[ "is.NetRevenue" := VInt (-7) ]}.

(** ** [str.lower], slices and the two [re.sub] calls of [identify_metrics] *)

Module PyText.

(** The characters of ASCII: one byte, below 128. *)
Definition is_ascii_char (c : ascii) : bool := (nat_of_ascii c <? 128)%nat.

(** [s.isascii()]. *)
Definition is_ascii (s : string) : bool :=
  forallb is_ascii_char (list_ascii_of_string s).

(** [str.lower] on a character of ASCII: [A]-[Z] move to [a]-[z].  The
    bytes of other characters are left as they are. *)
Definition lower_char (c : ascii) : ascii :=
  let n := nat_of_ascii c in
  if (65 <=? n)%nat && (n <=? 90)%nat then ascii_of_nat (n + 32) else c.

(** [s.lower()], for a text of ASCII and for the texts of the registry,
    whose only other characters (the multiplication sign and the
    subscript two of two descriptions) have no case. *)
Fixpoint lower (s : string) : string :=
  match s with
  | EmptyString => EmptyString
  | String c s' => String (lower_char c) (lower s')
  end.

(** The character class [[.,;:?!]]. *)
Definition is_punctuation (c : ascii) : bool :=
  existsb (Ascii.eqb c) ["."; ","; ";"; ":"; "?"; "!"]%char.

(** [re.sub(r'[.,;:?!]', ' ', s)]. *)
Fixpoint blank_punctuation (s : string) : string :=
  match s with
  | EmptyString => EmptyString
  | String c s' =>
      String (if is_punctuation c then " "%char else c) (blank_punctuation s')
  end.

(** [re.sub(r"['']", '', s)]: the class holds the apostrophe, twice. *)
Fixpoint drop_apostrophes (s : string) : string :=
  match s with
  | EmptyString => EmptyString
  | String c s' =>
      if Ascii.eqb c PyStr.squote then drop_apostrophes s'
      else String c (drop_apostrophes s')
  end.

(** [s[:-4]]. *)
Definition drop_last4 (s : string) : string :=
  String.substring 0 (String.length s - 4) s.

End PyText.

(** ** [MetricsInterpreter.identify_metrics] *)

(** [name.replace('_', ' ')]. *)
Definition normalized (name : string) : string := PyStr.replace name "_" " ".

(** ['percentage' in clean_query or 'percent' in clean_query or
    '%' in clean_query]. *)
Definition mentions_percent (clean_query : string) : bool :=
  PyStr.contains clean_query "percentage" || PyStr.contains clean_query "percent"
  || PyStr.contains clean_query "%".

(** The loop over the keys of [METRICS]; [metrics] is the list the loop
    appends to. *)
Fixpoint identify_direct (clean_query : string) (names : list string)
    (metrics : list string) : list string :=
  match names with
  | [] => metrics
  | metric_name :: rest =>
      let normalized_name := normalized metric_name in
      if PyStr.contains clean_query normalized_name then
        identify_direct clean_query rest (metrics ++ [metric_name])
      else if PyStr.endswith metric_name "_pct" then
        let base_name := normalized (PyText.drop_last4 metric_name) in
        if PyStr.contains clean_query base_name && mentions_percent clean_query then
          identify_direct clean_query rest (metrics ++ [metric_name])
        else identify_direct clean_query rest metrics
      else identify_direct clean_query rest metrics
  end.

(** The loop over [METRIC_ALIASES.items()]. *)
Fixpoint identify_aliases (clean_query : string) (items : list (string * string))
    (metrics : list string) : list string :=
  match items with
  | [] => metrics
  | (alias, metric_name) :: rest =>
      let normalized_alias := normalized alias in
      if PyStr.contains clean_query normalized_alias
         && negb (mem_string metric_name metrics)
      then identify_aliases clean_query rest (metrics ++ [metric_name])
      else identify_aliases clean_query rest metrics
  end.

(** The query after [lower] and the two substitutions. *)
Definition clean_query_of (query : string) : string :=
  let query := PyText.lower query in
  let clean_query := PyText.blank_punctuation query in
  PyText.drop_apostrophes clean_query.

(** [identify_metrics(query)].  A dict is iterated in the order of its
    insertions, here the order of the two literals.  A query with a
    character outside ASCII is not described, its lower-casing being a
    matter of the Unicode tables. *)
Definition identify_metrics (query : string) : outcome (list string) :=
  if PyText.is_ascii query then
    let clean_query := clean_query_of query in
    Val (identify_aliases clean_query METRIC_ALIASES_items
           (identify_direct clean_query (METRICS_items.*1) []))
  else Unmodelled.

(** ** [MetricsInterpreter.interpret_metric_request] *)

(** The three dicts it returns: no metric identified; the metrics with
    their results; the metrics alone, when no data came with the query
    (its ["success"] is [True]). *)
Inductive RequestResult :=
  | NotIdentified (error : string) (query ticker : string) (requires_llm : bool)
  | WithResults (succeeded : bool) (query ticker : string) (metrics : list string)
      (results : gmap string CalcResult)
  | WithoutData (query ticker : string) (metrics : list string).

Definition request_success (r : RequestResult) : bool :=
  match r with
  | NotIdentified _ _ _ _ => false
  | WithResults succeeded _ _ _ _ => succeeded
  | WithoutData _ _ _ => true
  end.

(** [any(r.get("success", False) for r in results.values())]. *)
Definition any_success (results : gmap string CalcResult) : bool :=
  existsb (fun p => success p.2) (map_to_list results).

Section Requests.
Context `{R : PyRuntime}.

(** [for metric in requested_metrics:
       results[metric] = self.calculate_metric(metric, data)]. *)
Fixpoint calculate_all (data : gmap string pyval) (requested_metrics : list string)
    (results : gmap string CalcResult) : outcome (gmap string CalcResult) :=
  match requested_metrics with
  | [] => Val results
  | metric :: rest =>
      r ← calculate_metric metric data;
      calculate_all data rest (<[metric := r]> results)
  end.

(** [interpret_metric_request(query, ticker, data)]; [data] is [None] by
    default, and [if data:] holds for a dict that is not empty. *)
Definition interpret_metric_request (query ticker : string)
    (data : option (gmap string pyval)) : outcome RequestResult :=
  requested_metrics ← identify_metrics query;
  if Nat.eqb (length requested_metrics) 0 then
    Val (NotIdentified "Could not identify specific metrics in the query"
           query ticker true)
  else
    match data with
    | Some d =>
        if negb (Nat.eqb (size d) 0) then
          results ← calculate_all d requested_metrics ∅;
          Val (WithResults (any_success results) query ticker requested_metrics results)
        else Val (WithoutData query ticker requested_metrics)
    | None => Val (WithoutData query ticker requested_metrics)
    end.

End Requests.

(** ** [get_available_metrics] and [find_metrics_by_keyword] of
    [metrics_interpreter.py] *)

(** [{"name": ..., "description": ..., "formula": ..., "inputs": ...}]. *)
Record MetricSummary := {
  summary_name : string;
  summary_description : string;
  summary_formula : string;
  summary_inputs : list string
}.

Definition summary_of (item : string * MetricSpec) : MetricSummary :=
  {| summary_name := item.1;
     summary_description := desc item.2;
     summary_formula := formula item.2;
     summary_inputs := inputs item.2 |}.

Definition get_available_metrics : list MetricSummary :=
  map summary_of METRICS_items.

(** [keyword in name.lower() or keyword in info["desc"].lower() or
     any(keyword in input_name.lower() for input_name in info["inputs"])]. *)
Definition keyword_matches (keyword : string) (item : string * MetricSpec) : bool :=
  PyStr.contains (PyText.lower item.1) keyword
  || PyStr.contains (PyText.lower (desc item.2)) keyword
  || existsb (fun input_name => PyStr.contains (PyText.lower input_name) keyword)
       (inputs item.2).

(** The loop of [find_metrics_by_keyword] over the items of a dict. *)
Fixpoint matching_summaries (keyword : string) (items : list (string * MetricSpec))
    : list MetricSummary :=
  match items with
  | [] => []
  | item :: rest =>
      if keyword_matches keyword item
      then summary_of item :: matching_summaries keyword rest
      else matching_summaries keyword rest
  end.

Definition find_metrics_by_keyword (keyword : string) : outcome (list MetricSummary) :=
  if PyText.is_ascii keyword then
    Val (matching_summaries (PyText.lower keyword) METRICS_items)
  else Unmodelled.

(** ** [identify_metrics], [interpret_metric_request] and
    [find_metrics_by_keyword] on any text

    [PyText.lower] is [str.lower] on ASCII.  For a query or a keyword with
    other characters the three functions are given over [str_lower], which
    stands for [str.lower] on the UTF-8 bytes of a text; nothing is assumed
    of it.  The rest works on the bytes as the code does on the
    characters: the byte of a character of ASCII is no part of the
    encoding of another character, so the two substitutions replace the
    same characters, and an encoded text occurs in another only from one
    character boundary to another, so [in] finds the same occurrences.
    The names, inputs and descriptions of the registry are lower-cased by
    [PyText.lower], as before. *)

Section AnyText.
Variable str_lower : string -> string.

(** [query.lower()] followed by the two substitutions. *)
Definition clean_query_with (query : string) : string :=
  let query := str_lower query in
  let clean_query := PyText.blank_punctuation query in
  PyText.drop_apostrophes clean_query.

(** [identify_metrics(query)]. *)
Definition identify_metrics_with (query : string) : list string :=
  let clean_query := clean_query_with query in
  identify_aliases clean_query METRIC_ALIASES_items
    (identify_direct clean_query (METRICS_items.*1) []).

(** [interpret_metric_request(query, ticker, data)]. *)
Definition interpret_metric_request_with `{R : PyRuntime} (query ticker : string)
    (data : option (gmap string pyval)) : outcome RequestResult :=
  let requested_metrics := identify_metrics_with query in
  if Nat.eqb (length requested_metrics) 0 then
    Val (NotIdentified "Could not identify specific metrics in the query"
           query ticker true)
  else
    match data with
    | Some d =>
        if negb (Nat.eqb (size d) 0) then
          results ← calculate_all d requested_metrics ∅;
          Val (WithResults (any_success results) query ticker requested_metrics results)
        else Val (WithoutData query ticker requested_metrics)
    | None => Val (WithoutData query ticker requested_metrics)
    end.

(** [find_metrics_by_keyword(keyword)]. *)
Definition find_metrics_by_keyword_with (keyword : string) : list MetricSummary :=
  matching_summaries (str_lower keyword) METRICS_items.

End AnyText.

(** ** [_determine_category] of [metrics_utils.py] *)

Definition _determine_category (name : string) (info : MetricSpec) : string :=
  if existsb (fun inp => PyStr.startswith inp "is.") (inputs info)
     || mem_string name
          ["revenue"; "cogs"; "gross_profit"; "rnd"; "sga"; "operating_income";
           "ebit"; "interest_expense"; "ebt"; "tax_expense"; "net_income"]
  then "Income Statement"
  else if existsb (fun inp => PyStr.startswith inp "bs.") (inputs info)
          || mem_string name
               ["cash"; "short_term_investments"; "accounts_receivable"; "inventory";
                "total_assets"; "accounts_payable"; "total_liabilities";
                "shareholders_equity"]
  then "Balance Sheet"
  else if existsb (fun inp => PyStr.startswith inp "cf.") (inputs info)
          || mem_string name ["cfo"; "capex"; "free_cash_flow"; "cfi"; "cff"]
  then "Cash Flow"
  else if PyStr.endswith name "_pct" || PyStr.contains name "margin"
          || PyStr.contains name "ratio"
  then "Ratios & Margins"
  else if PyStr.contains name "growth" then "Growth Metrics"
  else if PyStr.contains name "per_share"
          || mem_string name ["eps_basic"; "eps_diluted"]
  then "Per Share Metrics"
  else if PyStr.contains name "return"
          || mem_string name ["roa_pct"; "roe_pct"; "roce_pct"]
  then "Return Metrics"
  else "Other Metrics".

(** ** Notions used in the statements on the other functions *)

(** The characters of a string. *)
Definition chars (s : string) : list ascii := list_ascii_of_string s.

(** The characters [safe_name] rewrites. *)
Definition is_unsafe_char (c : ascii) : bool :=
  existsb (Ascii.eqb c) ["."; "&"; "-"]%char.

(** [x] is needed for [m]: an input of [m], or needed for an input of [m]
    that is itself a metric and not a statement item. *)
Inductive needs (registry : gmap string MetricSpec) : string -> string -> Prop :=
  | needs_input m spec x :
      registry !! m = Some spec -> In x (inputs spec) -> needs registry m x
  | needs_nested m spec y x :
      registry !! m = Some spec -> In y (inputs spec) ->
      is_sub_metric registry y = true -> needs registry y x ->
      needs registry m x.

(** The two ways in which the first loop of [identify_metrics] finds the
    name of a metric in the cleaned query: the name itself with spaces for
    underscores, or, for a percentage, the name without [_pct] together
    with a word or sign for percent. *)
Definition matches_directly (clean_query metric_name : string) : bool :=
  PyStr.contains clean_query (normalized metric_name)
  || (PyStr.endswith metric_name "_pct"
      && PyStr.contains clean_query (normalized (PyText.drop_last4 metric_name))
      && mentions_percent clean_query).

(** [s] occurs in [e] at a place that the evaluation of [e] reaches:
    [e] itself, an operand, the callee or an argument of a call, the
    object of an attribute access. *)
Inductive subexpr (s : PyExpr.expr) : PyExpr.expr -> Prop :=
  | sub_refl : subexpr s s
  | sub_bin_l op a b : subexpr s a -> subexpr s (PyExpr.EBin op a b)
  | sub_bin_r op a b : subexpr s b -> subexpr s (PyExpr.EBin op a b)
  | sub_neg a : subexpr s a -> subexpr s (PyExpr.ENeg a)
  | sub_pos a : subexpr s a -> subexpr s (PyExpr.EPos a)
  | sub_call_fun f args : subexpr s f -> subexpr s (PyExpr.ECall f args)
  | sub_call_arg f args a :
      In a args -> subexpr s a -> subexpr s (PyExpr.ECall f args)
  | sub_attr a n : subexpr s a -> subexpr s (PyExpr.EAttr a n).

(** The symbol of an arithmetic operation in a formula. *)
Definition op_symbol (op : PyNum.binop) : string :=
  match op with
  | PyNum.Add => "+"
  | PyNum.Sub => "-"
  | PyNum.Mul => "*"
  | PyNum.Div => "/"
  end.

(** The operation on ints, for the three that stay in the ints. *)
Definition int_result (op : PyNum.binop) (a b : Z) : Z :=
  match op with
  | PyNum.Add => a + b
  | PyNum.Sub => a - b
  | PyNum.Mul => a * b
  | PyNum.Div => 0
  end.

(** The rewritten formula of the entry is [x op y] over two names. *)
Definition parses_as_binary (spec : MetricSpec) (op : PyNum.binop) (x y : string) : bool :=
  match parse_source (safe_formula_of spec) with
  | Val (PyExpr.EBin o (PyExpr.EName a) (PyExpr.EName b)) =>
      String.eqb (op_symbol o) (op_symbol op) && String.eqb a x && String.eqb b y
  | _ => false
  end.

(** For an entry whose formula text is [x op y] over its two inputs [x]
    and [y], [op] one of [+], [-] and [*]: the safe names are distinct and
    not reserved, the metric is no percentage, and the rewritten formula
    parses as the operation on the two safe names. *)
Definition binary_entry_ok (name : string) (spec : MetricSpec) : bool :=
  match inputs spec with
  | [x; y] =>
      forallb (fun op =>
        if String.eqb (formula spec) (x +:+ " " +:+ op_symbol op +:+ " " +:+ y) then
          negb (String.eqb (safe_name x) (safe_name y))
          && negb (mem_string (safe_name x) reserved_names)
          && negb (mem_string (safe_name y) reserved_names)
          && negb (PyStr.endswith name "_pct")
          && parses_as_binary spec op (safe_name x) (safe_name y)
        else true) [PyNum.Add; PyNum.Sub; PyNum.Mul]
  | _ => true
  end.

(** Datasets and queries of the examples. *)
Definition cash_flows : gmap string pyval :=
  <["cfo" := VInt 120]> {[ "capex" := VInt 45 ]}.

Definition cash_flows_and_more : gmap string pyval :=
  <["revenue" := VInt 7]> cash_flows.

Definition growth_from_zero : gmap string pyval :=
  <["revenue_t" := VInt 120]> {[ "revenue_t-1" := VInt 0 ]}.

(** A query with a typographic apostrophe, and two keywords with the
    multiplication sign of a description. *)
Definition apostrophe_query : string := "What’s Apple’s net income and net margin %?".

Definition fcf_query : string := "FCF and gross profit — what are they?".

Definition times_keyword : string := "×".

Definition price_times_keyword : string := "Price ×".

Definition margin_query : string := "What is Apple's Net Income, and the profit margin?".

(** ** Basic facts about dicts and the registry *)

Local Close Scope Z_scope.

Lemma dict_contains_Some {V} (d : gmap string V) k v :
  d !! k = Some v -> dict_contains d k = true.
Proof. intros H. unfold dict_contains. apply bool_decide_eq_true. eauto. Qed.

Lemma dict_contains_None {V} (d : gmap string V) k :
  d !! k = None -> dict_contains d k = false.
Proof.
  intros H. unfold dict_contains. apply bool_decide_eq_false.
  rewrite H. intros [v Hv]. discriminate.
Qed.

Lemma dict_contains_true {V} (d : gmap string V) k :
  dict_contains d k = true <-> is_Some (d !! k).
Proof. unfold dict_contains. apply bool_decide_eq_true. Qed.

Lemma dict_contains_false {V} (d : gmap string V) k :
  dict_contains d k = false <-> d !! k = None.
Proof.
  unfold dict_contains. rewrite bool_decide_eq_false.
  rewrite eq_None_not_Some. reflexivity.
Qed.

Lemma dict_getitem_Some {V} (d : gmap string V) k v :
  d !! k = Some v -> dict_getitem d k = Val v.
Proof. intros H. unfold dict_getitem. rewrite H. reflexivity. Qed.

(** [missing_from] lists exactly the inputs that are no key of the data, in
    the order of the inputs. *)
Lemma missing_from_spec (d : gmap string pyval) inps x :
  In x (missing_from d inps) <-> In x inps /\ d !! x = None.
Proof.
  unfold missing_from. rewrite filter_In.
  rewrite negb_true_iff, dict_contains_false. reflexivity.
Qed.

Lemma missing_from_nil (d : gmap string pyval) inps :
  missing_from d inps = [] <-> (forall x, In x inps -> is_Some (d !! x)).
Proof.
  split.
  - intros H x Hx. destruct (d !! x) eqn:E; [eauto|].
    assert (In x (missing_from d inps)) as Hin by (apply missing_from_spec; auto).
    rewrite H in Hin. destruct Hin.
  - intros H. destruct (missing_from d inps) as [|x l] eqn:E; [reflexivity|].
    assert (In x (missing_from d inps)) as Hin by (rewrite E; left; reflexivity).
    apply missing_from_spec in Hin as [Hin Hn].
    destruct (H x Hin) as [v Hv]. congruence.
Qed.

Lemma length_nonzero {A} (l : list A) :
  negb (Nat.eqb (length l) 0) = true <-> l <> [].
Proof. destruct l; simpl; split; intros H; congruence. Qed.

(** The keys of the registry literal are pairwise distinct, so the dict
    holds every item of the literal. *)
Lemma METRICS_keys_NoDup : NoDup (METRICS_items.*1).
Proof. apply (bool_decide_unpack _). vm_compute. reflexivity. Qed.

Lemma METRICS_lookup name spec :
  METRICS !! name = Some spec <-> (name, spec) ∈ METRICS_items.
Proof.
  unfold METRICS. symmetry. apply elem_of_list_to_map. apply METRICS_keys_NoDup.
Qed.

Lemma ALIASES_keys_NoDup : NoDup (METRIC_ALIASES_items.*1).
Proof. apply (bool_decide_unpack _). vm_compute. reflexivity. Qed.

Lemma ALIASES_lookup a c :
  METRIC_ALIASES !! a = Some c <-> (a, c) ∈ METRIC_ALIASES_items.
Proof.
  unfold METRIC_ALIASES. symmetry. apply elem_of_list_to_map.
  apply ALIASES_keys_NoDup.
Qed.

(** A property checked on every item of the literal holds of every entry
    of the dict. *)
Lemma METRICS_forall (check : string -> MetricSpec -> bool) :
  forallb (fun p => check p.1 p.2) METRICS_items = true ->
  forall name spec, METRICS !! name = Some spec -> check name spec = true.
Proof.
  intros H name spec Hl. apply METRICS_lookup in Hl.
  rewrite forallb_forall in H. apply list_elem_of_In in Hl.
  apply (H (name, spec) Hl).
Qed.

Lemma ALIASES_forall (check : string -> string -> bool) :
  forallb (fun p => check p.1 p.2) METRIC_ALIASES_items = true ->
  forall a c, METRIC_ALIASES !! a = Some c -> check a c = true.
Proof.
  intros H a c Hl. apply ALIASES_lookup in Hl.
  rewrite forallb_forall in H. apply list_elem_of_In in Hl.
  apply (H (a, c) Hl).
Qed.

(** Unfolding of [calculate_metric] once the registry entry is known. *)
Lemma calculate_metric_missing `{R : PyRuntime} name d spec :
  METRICS !! resolve_alias name = Some spec ->
  missing_from d (inputs spec) <> [] ->
  calculate_metric name d =
    Val (MissingInputs
           ("Missing data for inputs: "
            +:+ PyStr.join ", " (missing_from d (inputs spec)))
           (resolve_alias name) (missing_from d (inputs spec))).
Proof.
  intros Hs Hm. unfold calculate_metric.
  rewrite (dict_contains_Some _ _ _ Hs). cbn [negb].
  rewrite (dict_getitem_Some _ _ _ Hs). cbn [mbind outcome_bind].
  apply length_nonzero in Hm. rewrite Hm. reflexivity.
Qed.

(** ** Missing inputs (C3, C10) *)

(** C3. For a metric that is in the registry after alias resolution, if
    some direct input is no key of the dataset, [calculate_metric] returns
    the missing-inputs failure: its list holds exactly the absent inputs
    (in the order of the registry entry) and no evaluation takes place,
    since the result is the same under every run time, whatever its [eval]
    does. *)
Theorem C3_missing_inputs_reported
    (R R' : PyRuntime) (name : string) (d : gmap string pyval) (spec : MetricSpec) :
  METRICS !! resolve_alias name = Some spec ->
  (exists inp, In inp (inputs spec) /\ d !! inp = None) ->
  exists missing,
    @calculate_metric R name d =
      Val (MissingInputs ("Missing data for inputs: " +:+ PyStr.join ", " missing)
             (resolve_alias name) missing)
    /\ @calculate_metric R' name d = @calculate_metric R name d
    /\ missing = List.filter (fun inp => bool_decide (d !! inp = None)) (inputs spec)
    /\ (forall x, In x missing <-> In x (inputs spec) /\ d !! x = None).
Proof.
  intros Hs (inp & Hin & Hnone).
  assert (missing_from d (inputs spec) <> []) as Hne.
  { intros E. assert (In inp (missing_from d (inputs spec))) as Hi
      by (apply missing_from_spec; auto).
    rewrite E in Hi. destruct Hi. }
  exists (missing_from d (inputs spec)).
  rewrite !(calculate_metric_missing _ _ _ Hs Hne).
  split; [reflexivity|]. split; [reflexivity|]. split.
  - unfold missing_from. apply filter_ext. intros x.
    destruct (d !! x) eqn:E.
    + rewrite (dict_contains_Some _ _ _ E).
      symmetry. apply bool_decide_eq_false. congruence.
    + rewrite (dict_contains_None _ _ E).
      symmetry. apply bool_decide_eq_true. reflexivity.
  - intros x. apply missing_from_spec.
Qed.

(** The example of the specification:
    [calculate_metric("gross_profit", {"revenue": 100})] names [cogs]. *)
Lemma C3_gross_profit_without_cogs :
  (METRICS !! resolve_alias "gross_profit"
     = Some {| inputs := ["revenue"; "cogs"]; formula := "revenue - cogs";
               desc := "Revenue minus COGS" |}
   /\ (exists inp, In inp ["revenue"; "cogs"] /\ revenue_only !! inp = None))
  /\ exists missing,
       @calculate_metric cpython312 "gross_profit" revenue_only =
         Val (MissingInputs ("Missing data for inputs: " +:+ PyStr.join ", " missing)
                (resolve_alias "gross_profit") missing)
       /\ @calculate_metric cpython312 "gross_profit" revenue_only =
            @calculate_metric cpython312 "gross_profit" revenue_only
       /\ missing = ["cogs"]
       /\ (forall x, In x missing <-> In x ["revenue"; "cogs"] /\ revenue_only !! x = None).
Proof.
  assert (METRICS !! resolve_alias "gross_profit"
     = Some {| inputs := ["revenue"; "cogs"]; formula := "revenue - cogs";
               desc := "Revenue minus COGS" |}) as Hs by (vm_compute; reflexivity).
  assert (exists inp, In inp ["revenue"; "cogs"] /\ revenue_only !! inp = None) as Hm.
  { exists "cogs". split; [right; left; reflexivity | vm_compute; reflexivity]. }
  split; [split; assumption|].
  exact (C3_missing_inputs_reported cpython312 cpython312 "gross_profit"
           revenue_only _ Hs Hm).
Defined.

(** C10. [calculate_metric] does not evaluate sub-metrics: when a direct
    input that is itself a metric of the registry is no key of the dataset,
    the call fails with the missing-inputs result naming it, whatever else
    the dataset holds (the raw statement items of the sub-metric
    included). *)
Theorem C10_sub_metrics_not_evaluated
    (R : PyRuntime) (name sub : string) (d : gmap string pyval) (spec : MetricSpec) :
  METRICS !! resolve_alias name = Some spec ->
  In sub (inputs spec) ->
  is_Some (METRICS !! sub) ->
  d !! sub = None ->
  exists err missing,
    calculate_metric name d = Val (MissingInputs err (resolve_alias name) missing)
    /\ In sub missing
    /\ success (MissingInputs err (resolve_alias name) missing) = false.
Proof.
  intros Hs Hin _ Hnone.
  assert (In sub (missing_from d (inputs spec))) as Hi
    by (apply missing_from_spec; auto).
  assert (missing_from d (inputs spec) <> []) as Hne
    by (intros E; rewrite E in Hi; destruct Hi).
  eexists _, _. rewrite (calculate_metric_missing _ _ _ Hs Hne).
  split; [reflexivity|]. split; [exact Hi | reflexivity].
Qed.

(** [gross_profit] on a dataset that holds the raw items of [revenue] and
    [cogs] but not the two derived values. *)
Lemma C10_gross_profit_from_raw_items :
  (METRICS !! resolve_alias "gross_profit"
     = Some {| inputs := ["revenue"; "cogs"]; formula := "revenue - cogs";
               desc := "Revenue minus COGS" |}
   /\ In "revenue" ["revenue"; "cogs"]
   /\ is_Some (METRICS !! "revenue")
   /\ raw_statement_data !! "revenue" = None
   /\ (forall raw rspec, METRICS !! "revenue" = Some rspec ->
         In raw (inputs rspec) -> is_Some (raw_statement_data !! raw)))
  /\ exists err missing,
       @calculate_metric cpython312 "gross_profit" raw_statement_data
         = Val (MissingInputs err (resolve_alias "gross_profit") missing)
       /\ In "revenue" missing
       /\ success (MissingInputs err (resolve_alias "gross_profit") missing) = false.
Proof.
  assert (METRICS !! resolve_alias "gross_profit"
     = Some {| inputs := ["revenue"; "cogs"]; formula := "revenue - cogs";
               desc := "Revenue minus COGS" |}) as Hs by (vm_compute; reflexivity).
  assert (is_Some (METRICS !! "revenue")) as Hsub
    by (apply dict_contains_true; vm_compute; reflexivity).
  assert (raw_statement_data !! "revenue" = None) as Hn by (vm_compute; reflexivity).
  split.
  - split; [exact Hs|]. split; [left; reflexivity|]. split; [exact Hsub|].
    split; [exact Hn|].
    intros raw rspec Hr Hin.
    assert (METRICS !! "revenue"
              = Some {| inputs := ["is.NetRevenue"]; formula := "is.NetRevenue";
                        desc := "Total top-line sales" |}) as E
      by (vm_compute; reflexivity).
    rewrite E in Hr. injection Hr as <-. cbn [inputs] in Hin.
    destruct Hin as [<- | []]. apply dict_contains_true. vm_compute. reflexivity.
  - exact (C10_sub_metrics_not_evaluated cpython312 "gross_profit" "revenue"
             raw_statement_data _ Hs (or_introl eq_refl) Hsub Hn).
Defined.

(** ** Aliases (C8) *)

(** No canonical name of the alias table is itself an alias. *)
Lemma alias_targets_canonical a c :
  METRIC_ALIASES !! a = Some c -> METRIC_ALIASES !! c = None.
Proof.
  intros H. apply dict_contains_false.
  apply (ALIASES_forall (fun _ c => negb (dict_contains METRIC_ALIASES c)))
    in H; [|vm_compute; reflexivity].
  apply negb_true_iff in H. exact H.
Qed.

Lemma resolve_alias_idempotent n :
  resolve_alias (resolve_alias n) = resolve_alias n.
Proof.
  unfold resolve_alias at 2 3. unfold resolve_in. destruct (METRIC_ALIASES !! n) as [c|] eqn:E.
  - unfold resolve_alias, resolve_in. rewrite (alias_targets_canonical _ _ E). reflexivity.
  - unfold resolve_alias, resolve_in. rewrite E. reflexivity.
Qed.

(** [get_metric_definition] looks the canonical name up. *)
Lemma get_metric_definition_resolves n :
  get_metric_definition n =
    if negb (dict_contains METRICS (resolve_alias n)) then
      Val (DefinitionUnknown ("Unknown metric '" +:+ resolve_alias n +:+ "'"))
    else
      metric_spec ← dict_getitem METRICS (resolve_alias n);
      Val (DefinitionFound (resolve_alias n)
             (if dict_contains METRIC_ALIASES n then Some n else None)
             (desc metric_spec) (formula metric_spec) (inputs metric_spec)
             (dict_contains METRIC_ALIASES n)).
Proof.
  unfold get_metric_definition, resolve_alias, resolve_in.
  destruct (METRIC_ALIASES !! n) as [c|] eqn:E.
  - rewrite (dict_contains_Some _ _ _ E), (dict_getitem_Some _ _ _ E).
    reflexivity.
  - rewrite (dict_contains_None _ _ E). reflexivity.
Qed.

(** No input identifier of the registry is an alias. *)
Lemma registry_inputs_canonical m spec inp :
  METRICS !! m = Some spec -> In inp (inputs spec) -> resolve_alias inp = inp.
Proof.
  intros Hs Hin.
  pose proof (METRICS_forall
    (fun _ s => forallb (fun i => negb (dict_contains METRIC_ALIASES i)) (inputs s))
    ltac:(vm_compute; reflexivity) _ _ Hs) as H.
  cbv beta in H. rewrite forallb_forall in H. specialize (H inp Hin).
  apply negb_true_iff, dict_contains_false in H.
  unfold resolve_alias, resolve_in. rewrite H. reflexivity.
Qed.

(** C8. Alias resolution is the identity on names that are no alias, and
    every function that looks a caller's name up in the registry
    ([calculate_metric], [get_metric_definition],
    [get_metric_requirements]) resolves it first; the names looked up
    inside the requirement expansion are registry inputs, none of which is
    an alias.  So an alias and its canonical name give the same result of
    [calculate_metric] on every dataset; [sales] and [revenue] in
    particular. *)
Theorem C8_alias_same_result
    (R : PyRuntime) (n : string) (d : gmap string pyval) :
  (METRIC_ALIASES !! n = None -> resolve_alias n = n)
  /\ (forall c, METRIC_ALIASES !! n = Some c ->
        resolve_alias n = c /\ calculate_metric n d = calculate_metric c d)
  /\ calculate_metric n d = calculate_metric (resolve_alias n) d
  /\ calculate_metric "sales" d = calculate_metric "revenue" d
  /\ get_metric_requirements METRICS METRIC_ALIASES n
     = get_metric_requirements METRICS METRIC_ALIASES (resolve_alias n)
  /\ (forall spec, METRICS !! resolve_alias n = Some spec ->
        exists original,
          get_metric_definition n =
            Val (DefinitionFound (resolve_alias n) original (desc spec)
                   (formula spec) (inputs spec)
                   (dict_contains METRIC_ALIASES n)))
  /\ (forall m spec inp, METRICS !! m = Some spec -> In inp (inputs spec) ->
        resolve_alias inp = inp).
Proof.
  assert (forall m, calculate_metric m d = calculate_metric (resolve_alias m) d) as Hres.
  { intros m. unfold calculate_metric. rewrite resolve_alias_idempotent. reflexivity. }
  split; [|split; [|split; [|split; [|split; [|split]]]]].
  - intros H. unfold resolve_alias, resolve_in. rewrite H. reflexivity.
  - intros c H. assert (resolve_alias n = c) as E
      by (unfold resolve_alias, resolve_in; rewrite H; reflexivity).
    split; [exact E|]. rewrite (Hres n), E. reflexivity.
  - apply Hres.
  - rewrite (Hres "sales"). reflexivity.
  - unfold get_metric_requirements, requirements_with.
    fold (resolve_alias n). fold (resolve_alias (resolve_alias n)).
    rewrite resolve_alias_idempotent. reflexivity.
  - intros spec Hs. rewrite get_metric_definition_resolves.
    rewrite (dict_contains_Some _ _ _ Hs), (dict_getitem_Some _ _ _ Hs).
    eexists. reflexivity.
  - apply registry_inputs_canonical.
Qed.

(** The instance for the alias [sales] on the dataset with [revenue] only:
    the hypothesis holds and both names give the same result. *)
Lemma C8_sales_is_revenue :
  METRIC_ALIASES !! "sales" = Some "revenue"
  /\ @calculate_metric cpython312 "sales" revenue_only
     = @calculate_metric cpython312 "revenue" revenue_only.
Proof.
  assert (METRIC_ALIASES !! "sales" = Some "revenue") as H
    by (vm_compute; reflexivity).
  split; [exact H|].
  exact (proj2 (proj1 (proj2 (C8_alias_same_result cpython312 "sales" revenue_only))
                  "revenue" H)).
Defined.

(** ** The evaluation scope of [calc] (C1) *)

(** C1 (violated by the code). The specification requires that a formula
    evaluated by [calc] reach nothing but the input bindings and [abs],
    [min], [max], and the docstring of [calc] calls the evaluation safe.
    Under the scope [calc] builds, the formula
    [abs.__self__.__import__('os')] evaluates, through the attribute
    [__self__] of the exposed [abs], to the module [os]: attribute access
    and import are reachable. *)
Theorem C1_formula_reaches_import (error_text : interp_error -> string)
    (repr_str : string -> string) :
  @calc (cpython error_text repr_str) probe_registry "probe" ∅
    = Val (VModule "os").
Proof. vm_compute. reflexivity. Qed.

(** The global [__builtins__] itself is a name the formula can read. *)
Lemma scope_exposes_builtins_name :
  PyExpr.python_eval "__builtins__" safe_globals (safe_locals_of ∅) = Val VNone.
Proof. vm_compute. reflexivity. Qed.

(** ** Identifiers of the registry formulas (C2) *)

Lemma mem_string_In w l : mem_string w l = true <-> In w l.
Proof.
  unfold mem_string. rewrite existsb_exists. split.
  - intros (x & Hx & E). apply String.eqb_eq in E. subst. exact Hx.
  - intros H. exists w. split; [exact H | apply String.eqb_refl].
Qed.

Lemma identifiers_declared_spec spec :
  identifiers_declared spec = true <->
  forall w, In w (formula_identifiers spec) ->
    In w (map safe_name (inputs spec)) \/ In w supported_builtins.
Proof.
  unfold identifiers_declared. rewrite forallb_forall.
  split; intros H w Hw; specialize (H w Hw).
  - apply mem_string_In in H. apply in_app_or in H. exact H.
  - apply mem_string_In. apply in_or_app. exact H.
Qed.

(** C2 as stated fails: the formula of [ltm_revenue] mentions [sum], which
    is neither a required input nor one of [abs], [min], [max]. *)
Lemma C2_ltm_revenue_undeclared :
  ~ (forall name spec, METRICS !! name = Some spec ->
       forall w, In w (formula_identifiers spec) ->
         In w (map safe_name (inputs spec)) \/ In w supported_builtins).
Proof.
  intros H.
  assert (METRICS !! "ltm_revenue"
            = Some {| inputs := ["revenue_t"; "revenue_t-1"; "revenue_t-2"; "revenue_t-3"];
                      formula := "sum(last_4_quarters)";
                      desc := "Trailing-12-month revenue" |}) as E
    by (vm_compute; reflexivity).
  specialize (H _ _ E). apply identifiers_declared_spec in H.
  vm_compute in H. discriminate H.
Qed.

(** C2 (amended). Every entry of [METRICS] other than the five placeholder
    entries ([segment_revenue], [geo_revenue], [beta_2y], [volatility_30d],
    [ltm_revenue]) mentions in its formula only its required inputs (after
    sanitization) and [abs], [min], [max]; each of the five mentions some
    other identifier. *)
Theorem C2_identifiers_declared (name : string) (spec : MetricSpec) :
  METRICS !! name = Some spec ->
  (~ In name placeholder_metrics ->
     forall w, In w (formula_identifiers spec) ->
       In w (map safe_name (inputs spec)) \/ In w supported_builtins)
  /\ (In name placeholder_metrics ->
        exists w, In w (formula_identifiers spec)
                  /\ ~ In w (map safe_name (inputs spec))
                  /\ ~ In w supported_builtins).
Proof.
  intros Hs.
  pose proof (METRICS_forall
    (fun n s => if mem_string n placeholder_metrics
                then existsb (fun w => negb (mem_string w
                        (map safe_name (inputs s) ++ supported_builtins)))
                       (formula_identifiers s)
                else identifiers_declared s)) as H.
  specialize (H ltac:(vm_compute; reflexivity) _ _ Hs). cbv beta in H.
  destruct (mem_string name placeholder_metrics) eqn:Ep.
  - apply mem_string_In in Ep. split; [intros Hn; contradiction|].
    intros _. apply existsb_exists in H as (w & Hw & Hu).
    exists w. split; [exact Hw|].
    apply negb_true_iff in Hu.
    split; intros Hin;
      (assert (mem_string w (map safe_name (inputs spec) ++ supported_builtins) = true)
         as C by (apply mem_string_In, in_or_app; auto)); congruence.
  - split.
    + intros _. apply identifiers_declared_spec. exact H.
    + intros Hin. apply mem_string_In in Hin. congruence.
Qed.

(** The instance for [gross_profit]: its formula [revenue - cogs] mentions
    its two inputs only. *)
Lemma C2_gross_profit_declared :
  METRICS !! "gross_profit"
    = Some {| inputs := ["revenue"; "cogs"]; formula := "revenue - cogs";
              desc := "Revenue minus COGS" |}
  /\ ~ In "gross_profit" placeholder_metrics
  /\ forall w, In w ["revenue"; "cogs"] ->
       In w (map safe_name ["revenue"; "cogs"]) \/ In w supported_builtins.
Proof.
  assert (METRICS !! "gross_profit"
    = Some {| inputs := ["revenue"; "cogs"]; formula := "revenue - cogs";
              desc := "Revenue minus COGS" |}) as Hs by (vm_compute; reflexivity).
  assert (~ In "gross_profit" placeholder_metrics) as Hn.
  { intros Hin. apply mem_string_In in Hin. vm_compute in Hin. discriminate Hin. }
  split; [exact Hs|]. split; [exact Hn|].
  exact (proj1 (C2_identifiers_declared "gross_profit" _ Hs) Hn).
Defined.

(** ** Sanitization (C6) *)

(** C6 as stated fails: [a.b] and [a-b] are distinct identifiers with the
    same safe token [a_b]. *)
Lemma C6_distinct_identifiers_collide :
  ~ (forall a b : string, a <> b -> safe_name a <> safe_name b).
Proof.
  intros H. apply (H "a.b" "a-b"); [discriminate | vm_compute; reflexivity].
Qed.

(** Sequential [replace] calls may also leave an occurrence unrewritten:
    with inputs [a.b] and [a.b.c], the occurrence of [a.b.c] becomes
    [a_b.c], not its safe token [a_b_c]. *)
Lemma sequential_replace_misses_occurrence :
  rewrite_formula ["a.b"; "a.b.c"] "a.b.c" = "a_b.c"
  /\ rewrite_occurrences ["a.b"; "a.b.c"] 0 "a.b.c" = "a_b_c".
Proof. split; vm_compute; reflexivity. Qed.

(** With two colliding inputs [calc] binds one value for both: the
    difference of [5] and [3] comes out as [0]. *)
Example colliding_inputs_share_binding :
  @calc cpython312 colliding_registry "spread" colliding_data = Val (VInt 0).
Proof. vm_compute. reflexivity. Qed.

Lemma safe_names_distinct_spec l :
  safe_names_distinct l = true ->
  forall a b, In a l -> In b l -> safe_name a = safe_name b -> a = b.
Proof.
  unfold safe_names_distinct. rewrite forallb_forall. intros H a b Ha Hb E.
  specialize (H a Ha). rewrite forallb_forall in H. specialize (H b Hb).
  rewrite E, String.eqb_refl in H. cbn [implb] in H.
  apply String.eqb_eq. exact H.
Qed.

Lemma registry_inputs_In name spec inp :
  METRICS !! name = Some spec -> In inp (inputs spec) -> In inp registry_inputs.
Proof.
  intros Hs Hin. apply METRICS_lookup, list_elem_of_In in Hs.
  unfold registry_inputs. apply in_concat.
  exists (inputs spec). split; [|exact Hin].
  apply in_map_iff. exists (name, spec). split; [reflexivity | exact Hs].
Qed.

(** C6 (amended). The sanitization is a function of the identifier alone;
    it is not injective on arbitrary identifiers, but it separates the
    input identifiers of the registry, and for every entry of the registry
    the formula [calc] evaluates is the original one with every occurrence
    of an input identifier replaced by its safe token. *)
Theorem C6_sanitization_on_registry
    (n1 n2 : string) (s1 s2 : MetricSpec) (a b : string) :
  METRICS !! n1 = Some s1 ->
  METRICS !! n2 = Some s2 ->
  In a (inputs s1) ->
  In b (inputs s2) ->
  (safe_name a = safe_name b -> a = b)
  /\ safe_formula_of s1 = rewrite_occurrences (inputs s1) 0 (formula s1).
Proof.
  intros H1 H2 Ha Hb. split.
  - apply (safe_names_distinct_spec registry_inputs).
    + vm_compute. reflexivity.
    + exact (registry_inputs_In _ _ _ H1 Ha).
    + exact (registry_inputs_In _ _ _ H2 Hb).
  - apply String.eqb_eq.
    apply (METRICS_forall
             (fun _ s => String.eqb (safe_formula_of s)
                           (rewrite_occurrences (inputs s) 0 (formula s)))
             ltac:(vm_compute; reflexivity) n1 s1 H1).
Qed.

(** The instance for [ebitda], whose input [is.D&A] becomes [is_DandA]. *)
Lemma C6_ebitda_rewritten :
  (METRICS !! "ebitda"
     = Some {| inputs := ["operating_income"; "is.D&A"];
               formula := "operating_income + is.D&A";
               desc := "EBIT + depreciation & amort." |}
   /\ In "is.D&A" ["operating_income"; "is.D&A"]
   /\ In "operating_income" ["operating_income"; "is.D&A"])
  /\ (safe_name "is.D&A" = safe_name "operating_income" -> "is.D&A" = "operating_income")
  /\ "operating_income + is_DandA"
     = rewrite_occurrences ["operating_income"; "is.D&A"] 0 "operating_income + is.D&A".
Proof.
  assert (METRICS !! "ebitda"
     = Some {| inputs := ["operating_income"; "is.D&A"];
               formula := "operating_income + is.D&A";
               desc := "EBIT + depreciation & amort." |}) as Hs
    by (vm_compute; reflexivity).
  split.
  - split; [exact Hs|]. split; [right; left; reflexivity | left; reflexivity].
  - exact (C6_sanitization_on_registry "ebitda" "ebitda" _ _ "is.D&A" "operating_income"
             Hs Hs (or_intror (or_introl eq_refl)) (or_introl eq_refl)).
Defined.

(** ** Requirement expansion (C9) *)

Section RequirementFacts.
Variable registry : gmap string MetricSpec.
Variable aliases : gmap string string.

Lemma collect_post_refl st : collect_post registry st st.
Proof. split; [reflexivity | reflexivity | tauto | tauto]. Qed.

Lemma collect_post_trans st1 st2 st3 :
  collect_post registry st1 st2 -> collect_post registry st2 st3 ->
  collect_post registry st1 st3.
Proof.
  intros [A1 P1 C1 M1] [A2 P2 C2 M2]. split.
  - set_solver.
  - set_solver.
  - intros p spec x Hp Hn Hs Hx.
    destruct (decide (p ∈ processed_metrics st2)) as [Hin|Hout].
    + apply A2. eapply C1; eauto.
    + eapply C2; eauto.
  - intros x Hx Hn Hsub.
    destruct (decide (x ∈ all_inputs st2)) as [Hin|Hout].
    + apply P2. apply M1; auto.
    + apply M2; auto.
Qed.

Lemma is_sub_metric_dom x :
  is_sub_metric registry x = true -> x ∈ dom registry.
Proof.
  unfold is_sub_metric. intros H. apply andb_true_iff in H as [_ H].
  apply dict_contains_true in H. apply elem_of_dom. exact H.
Qed.

(** One turn of the loop of [collect_inputs]: the input is added and, if
    it is a metric, expanded. *)
Lemma collect_step_post inp st st' :
  collect_post registry (add_input inp st) st' ->
  (is_sub_metric registry inp = true -> inp ∈ processed_metrics st') ->
  collect_post registry st st' /\ inp ∈ all_inputs st'.
Proof.
  intros [A P C M] Hd. cbn [add_input all_inputs processed_metrics] in *.
  split; [split|].
  - set_solver.
  - exact P.
  - exact C.
  - intros x Hx Hn Hsub.
    destruct (decide (x = inp)) as [->|Hne]; [auto|].
    apply M; [exact Hx | set_solver | exact Hsub].
  - set_solver.
Qed.

Lemma remaining_mono st st' :
  processed_metrics st ⊆ processed_metrics st' -> remaining registry st' <= remaining registry st.
Proof. intros H. unfold remaining. apply subseteq_size. set_solver. Qed.

Lemma remaining_mark metric st :
  metric ∈ dom registry -> metric ∉ processed_metrics st ->
  remaining registry (mark_processed metric st) < remaining registry st.
Proof.
  intros Hd Hn. unfold remaining. apply subset_size.
  cbn [mark_processed processed_metrics]. set_solver.
Qed.

(** The loop, given that the recursive call behaves on every state that
    has at least the metrics of [st0] processed. *)
Lemma collect_loop_post (rec : string -> collect_state -> option collect_state) st0 :
  (forall inp st, processed_metrics st0 ⊆ processed_metrics st ->
     exists st', rec inp st = Some st' /\ collect_post registry st st'
                 /\ (inp ∈ dom registry -> inp ∈ processed_metrics st')) ->
  forall inps st, processed_metrics st0 ⊆ processed_metrics st ->
    exists st', collect_loop registry rec inps st = Some st'
                /\ collect_post registry st st'
                /\ (forall x, In x inps -> x ∈ all_inputs st').
Proof.
  intros Hrec. induction inps as [|inp rest IH]; intros st Hst.
  - exists st. split; [reflexivity|]. split; [apply collect_post_refl|].
    intros x [].
  - cbn [collect_loop].
    destruct (is_sub_metric registry inp) eqn:Esub.
    + destruct (Hrec inp (add_input inp st) Hst) as (st1 & E1 & Post1 & Hd1).
      rewrite E1.
      destruct (collect_step_post inp st st1 Post1) as [Post Hin];
        [intros Hs; apply Hd1, is_sub_metric_dom, Hs|].
      destruct (IH st1) as (st' & E' & Post' & Hall).
      { etrans; [exact Hst|]. apply (post_processed _ _ _ Post). }
      exists st'. split; [exact E'|]. split.
      * eapply collect_post_trans; eauto.
      * intros x [<-|Hx]; [|auto]. apply (post_all _ _ _ Post'), Hin.
    + destruct (collect_step_post inp st (add_input inp st)) as [Post Hin].
      { apply collect_post_refl. }
      { congruence. }
      destruct (IH (add_input inp st)) as (st' & E' & Post' & Hall);
        [exact Hst|].
      exists st'. split; [exact E'|]. split.
      * eapply collect_post_trans; eauto.
      * intros x [<-|Hx]; [|auto]. apply (post_all _ _ _ Post'), Hin.
Qed.

(** Enough fuel: [collect_inputs] returns as soon as the fuel exceeds
    the number of registered metrics not yet processed. *)
Lemma collect_inputs_returns fuel :
  forall metric st, remaining registry st < fuel ->
    exists st', collect_inputs registry fuel metric st = Some st'
                /\ collect_post registry st st'
                /\ (metric ∈ dom registry -> metric ∈ processed_metrics st').
Proof.
  induction fuel as [|k IH]; intros metric st Hfuel; [lia|].
  cbn [collect_inputs].
  destruct (bool_decide (metric ∈ processed_metrics st)) eqn:Ep.
  - exists st. cbn [orb]. split; [reflexivity|].
    split; [apply collect_post_refl|].
    intros _. apply bool_decide_eq_true in Ep. exact Ep.
  - apply bool_decide_eq_false in Ep. cbn [orb].
    destruct (registry !! metric) as [spec|] eqn:Es.
    + rewrite (dict_contains_Some _ _ _ Es). cbn [negb].
      assert (metric ∈ dom registry) as Hd by (apply elem_of_dom; eauto).
      pose proof (remaining_mark metric st Hd Ep) as Hlt.
      destruct (collect_loop_post (collect_inputs registry k)
                  (mark_processed metric st)) with
        (inps := inputs spec) (st := mark_processed metric st)
        as (st' & E' & Post' & Hall).
      { intros inp st1 Hst1. apply IH.
        pose proof (remaining_mono _ _ Hst1). lia. }
      { reflexivity. }
      exists st'. split; [exact E'|].
      destruct Post' as [A P C M].
      cbn [mark_processed all_inputs processed_metrics] in *.
      split; [split|].
      * exact A.
      * set_solver.
      * intros p spec' x Hp Hn Hs Hx.
        destruct (decide (p = metric)) as [->|Hne].
        -- rewrite Es in Hs. injection Hs as <-. auto.
        -- eapply C; eauto. set_solver.
      * exact M.
      * intros _. set_solver.
    + rewrite (dict_contains_None _ _ Es). cbn [negb].
      exists st. split; [reflexivity|]. split; [apply collect_post_refl|].
      intros Hd. apply elem_of_dom in Hd as [s Hs]. congruence.
Qed.

(** More fuel does not change a result. *)
Lemma collect_loop_ext (rec rec' : string -> collect_state -> option collect_state) :
  (forall inp st st', rec inp st = Some st' -> rec' inp st = Some st') ->
  forall inps st st',
    collect_loop registry rec inps st = Some st' ->
    collect_loop registry rec' inps st = Some st'.
Proof.
  intros Hrec. induction inps as [|inp rest IH]; intros st st' H;
    cbn [collect_loop] in *; [exact H|].
  destruct (is_sub_metric registry inp); [|auto].
  destruct (rec inp (add_input inp st)) as [st1|] eqn:E; [|discriminate].
  rewrite (Hrec _ _ _ E). auto.
Qed.

Lemma collect_inputs_fuel_mono fuel :
  forall fuel' metric st st', fuel <= fuel' ->
    collect_inputs registry fuel metric st = Some st' ->
    collect_inputs registry fuel' metric st = Some st'.
Proof.
  induction fuel as [|k IH]; intros fuel' metric st st' Hle H; [discriminate|].
  destruct fuel' as [|k']; [lia|]. cbn [collect_inputs] in *.
  destruct (bool_decide (metric ∈ processed_metrics st)
            || negb (dict_contains registry metric)); [exact H|].
  destruct (registry !! metric) as [spec|]; [|exact H].
  eapply collect_loop_ext; [|exact H].
  intros inp st1 st1' E. apply (IH k'); [lia | exact E].
Qed.

Lemma collect_from_returns fuel :
  forall inps st, remaining registry st < fuel ->
    exists st', collect_from registry fuel inps st = Some st'
                /\ collect_post registry st st'
                /\ (forall x, In x inps -> is_sub_metric registry x = true ->
                      x ∈ processed_metrics st').
Proof.
  induction inps as [|inp rest IH]; intros st Hfuel.
  - exists st. split; [reflexivity|]. split; [apply collect_post_refl|].
    intros x [].
  - cbn [collect_from].
    destruct (is_sub_metric registry inp) eqn:Esub.
    + destruct (collect_inputs_returns fuel inp st Hfuel)
        as (st1 & E1 & Post1 & Hd1).
      rewrite E1.
      destruct (IH st1) as (st' & E' & Post' & Hall).
      { pose proof (remaining_mono _ _ (post_processed _ _ _ Post1)). lia. }
      exists st'. split; [exact E'|]. split.
      * eapply collect_post_trans; eauto.
      * intros x [<-|Hx] Hs; [|auto].
        apply (post_processed _ _ _ Post'), Hd1, is_sub_metric_dom, Hs.
    + destruct (IH st Hfuel) as (st' & E' & Post' & Hall).
      exists st'. split; [exact E'|]. split; [exact Post'|].
      intros x [<-|Hx] Hs; [congruence | auto].
Qed.

Lemma collect_from_fuel_mono fuel fuel' :
  fuel <= fuel' ->
  forall inps st st',
    collect_from registry fuel inps st = Some st' ->
    collect_from registry fuel' inps st = Some st'.
Proof.
  intros Hle. induction inps as [|inp rest IH]; intros st st' H;
    cbn [collect_from] in *; [exact H|].
  destruct (is_sub_metric registry inp); [|auto].
  destruct (collect_inputs registry fuel inp st) as [st1|] eqn:E; [|discriminate].
  rewrite (collect_inputs_fuel_mono _ _ _ _ _ Hle E). auto.
Qed.

(** C9. For every registry, alias table and metric name, the expansion
    of [get_metric_requirements] returns: the recursion guarded by the
    set of processed metrics never goes deeper than the number of
    registered metrics, cyclic or self-referential entries included, and
    any larger bound on the depth gives the same result.  A name that
    resolves to a registered metric never yields the error result,
    cycles or not; the returned list of all required inputs has no
    duplicates, contains the direct inputs, and with every metric of the
    registry it contains it also contains that metric's inputs. *)
Theorem C9_requirement_expansion_returns (metric_name : string) :
  exists r,
    get_metric_requirements registry aliases metric_name = Some r
    /\ (forall fuel, S (size registry) <= fuel ->
          requirements_with registry aliases fuel metric_name = Some r)
    /\ match r with
       | ReqError _ => registry !! resolve_in aliases metric_name = None
       | ReqInfo i =>
           exists spec,
             registry !! resolve_in aliases metric_name = Some spec
             /\ direct_inputs i = inputs spec
             /\ NoDup (all_required_inputs i)
             /\ (forall x, In x (inputs spec) -> In x (all_required_inputs i))
             /\ (forall m mspec x,
                   In m (all_required_inputs i) ->
                   is_sub_metric registry m = true ->
                   registry !! m = Some mspec ->
                   In x (inputs mspec) -> In x (all_required_inputs i))
       end.
Proof.
  unfold get_metric_requirements, requirements_with.
  cbv zeta.
  destruct (registry !! resolve_in aliases metric_name) as [spec|] eqn:Es.
  - set (st0 := {| all_inputs := list_to_set (inputs spec);
                   processed_metrics := ∅ |}).
    destruct (collect_from_returns (S (size registry)) (inputs spec) st0)
      as (st' & E' & [A P C M] & Hsub).
    { unfold remaining. cbn [st0 processed_metrics].
      rewrite difference_empty_L, size_dom. lia. }
    rewrite E'. eexists. split; [reflexivity|]. split.
    { intros fuel Hle.
      rewrite (collect_from_fuel_mono _ _ Hle _ _ _ E'). reflexivity. }
    exists spec. cbn [direct_inputs all_required_inputs].
    split; [reflexivity|]. split; [reflexivity|].
    split; [apply NoDup_elements|].
    cbn [st0 all_inputs processed_metrics] in *.
    assert (forall x, In x (elements (all_inputs st')) <-> x ∈ all_inputs st') as Hel.
    { intros x. rewrite <- list_elem_of_In. apply elem_of_elements. }
    split.
    + intros x Hx. apply Hel, A. apply elem_of_list_to_set.
      apply list_elem_of_In, Hx.
    + intros m mspec x Hm Hs Hl Hx. apply Hel. apply Hel in Hm.
      assert (m ∈ processed_metrics st') as Hp.
      { destruct (decide (m ∈ (list_to_set (inputs spec) : gset string))) as [Hd|Hd].
        - apply Hsub; [|exact Hs].
          apply elem_of_list_to_set in Hd. apply list_elem_of_In, Hd.
        - apply M; auto. }
      eapply C; eauto. set_solver.
  - eexists. split; [reflexivity|]. split; [reflexivity|]. reflexivity.
Qed.

End RequirementFacts.

(** Two duplicate-free lists with the same members are permutations of
    each other. *)
Ltac same_members :=
  apply NoDup_Permutation;
  [ apply (bool_decide_unpack _); vm_compute; reflexivity
  | apply (bool_decide_unpack _); vm_compute; reflexivity
  | intros ?; rewrite !elem_of_cons, !elem_of_nil; tauto ].

(** A registry with a self-reference and a two-metric cycle is expanded
    without error. *)
Example cyclic_registry_expands :
  exists i, get_metric_requirements cyclic_registry ∅ "a" = Some (ReqInfo i)
            /\ Permutation (all_required_inputs i) ["a"; "b"; "is.X"].
Proof.
  eexists. split; [vm_compute; reflexivity|].
  cbn [all_required_inputs]. same_members.
Qed.

(** [free_cash_flow] requires [cfo] and [capex]; the closure holds the two
    raw cash-flow items they depend on. *)
Example free_cash_flow_closure :
  exists i, get_metric_requirements METRICS METRIC_ALIASES "free_cash_flow"
              = Some (ReqInfo i)
            /\ Permutation (all_required_inputs i)
                 ["cfo"; "capex"; "cf.CashFromOperations"; "cf.CapEx"]
            /\ Permutation (cash_flow_inputs i)
                 ["cf.CashFromOperations"; "cf.CapEx"].
Proof.
  eexists. split; [vm_compute; reflexivity|].
  cbn [all_required_inputs cash_flow_inputs].
  split; same_members.
Qed.

(** ** Evaluation of the registry formulas *)

Import PyExpr PyNum.

Lemma numeric_cases v :
  is_numeric v = true -> (exists z, v = VInt z) \/ (exists f, v = VFloat f).
Proof. destruct v; cbn; intros H; try discriminate; eauto. Qed.

Lemma to_float_total z : (exists f, to_float z = Val f) \/ raises (to_float z).
Proof.
  unfold to_float, raises.
  destruct (is_inf (binary_normalize prec emax z 0 false)); eauto.
Qed.

Lemma float_op_total op x y : numeric_or_raises (float_op op x y).
Proof.
  unfold numeric_or_raises.
  destruct op; cbn [float_op]; try (left; eexists; split; reflexivity).
  unfold float_truediv. destruct (is_zero y); [right|left]; eauto.
Qed.

Lemma int_op_total op a b : numeric_or_raises (int_op op a b).
Proof.
  unfold numeric_or_raises.
  destruct op; cbn [int_op]; try (left; eexists; split; reflexivity).
  unfold int_truediv. destruct (Z.eqb b 0); [right; eauto|].
  destruct (is_inf _); [right|left]; eauto.
Qed.

(** Arithmetic on two numbers gives a number or raises. *)
Lemma binary_total op v w :
  is_numeric v = true -> is_numeric w = true -> numeric_or_raises (binary op v w).
Proof.
  intros Hv Hw.
  destruct (numeric_cases v Hv) as [[a ->]|[x ->]],
           (numeric_cases w Hw) as [[b ->]|[y ->]]; cbn [binary as_float].
  - apply int_op_total.
  - destruct (to_float_total a) as [[f ->]|[e ->]]; cbn [mbind outcome_bind].
    + apply float_op_total.
    + right. eauto.
  - cbn [mbind outcome_bind mret outcome_ret].
    destruct (to_float_total b) as [[f ->]|[e ->]]; cbn [mbind outcome_bind].
    + apply float_op_total.
    + right. eauto.
  - cbn [mbind outcome_bind]. apply float_op_total.
Qed.

(** Division by the number zero raises; it never yields a value.  The
    exception is the [ZeroDivisionError], unless the conversion of an int
    operand to a double has already overflowed. *)
Lemma division_by_zero_raises v w :
  is_numeric v = true -> is_zero_value w = true ->
  exists cause,
    binary Div v w = Raise (InterpExn cause)
    /\ (class_of cause = ZeroDivisionError \/ cause = IntTooLarge).
Proof.
  intros Hv Hw.
  destruct (numeric_cases v Hv) as [[a ->]|[x ->]]; destruct w as [b|y| | | |];
    try discriminate; cbn [is_zero_value] in Hw; cbn [binary as_float].
  - cbn [int_op]. unfold int_truediv. rewrite Hw. eexists. split; [reflexivity|].
    left. reflexivity.
  - unfold to_float. destruct (is_inf _); cbn [mbind outcome_bind].
    + eexists. split; [reflexivity|]. right. reflexivity.
    + cbn [float_op]. unfold float_truediv. rewrite Hw.
      eexists. split; [reflexivity|]. left. reflexivity.
  - apply Z.eqb_eq in Hw. subst b.
    cbn [mbind outcome_bind float_op]. eexists. split; [vm_compute; reflexivity|].
    left. reflexivity.
  - cbn [mbind outcome_bind float_op]. unfold float_truediv. rewrite Hw.
    eexists. split; [reflexivity|]. left. reflexivity.
Qed.

Lemma neg_numeric v :
  is_numeric v = true -> exists r, neg v = Val r /\ is_numeric r = true.
Proof. destruct v; cbn; intros H; try discriminate; eauto. Qed.

Lemma pos_numeric v :
  is_numeric v = true -> exists r, pos v = Val r /\ is_numeric r = true.
Proof. destruct v; cbn; intros H; try discriminate; eauto. Qed.

Lemma abs_numeric v :
  is_numeric v = true -> exists r, PyNum.abs v = Val r /\ is_numeric r = true.
Proof. destruct v; cbn; intros H; try discriminate; eauto. Qed.

(** Multiplying a number by [100] succeeds. *)
Lemma times_100_total v :
  is_numeric v = true ->
  exists r, binary Mul v (VInt 100) = Val r /\ is_numeric r = true.
Proof.
  intros Hv. destruct (numeric_cases v Hv) as [[a ->]|[x ->]].
  - eexists. split; reflexivity.
  - eexists. split; reflexivity.
Qed.

(** Induction on syntax trees, with the hypothesis for every argument of
    a call. *)
Lemma expr_nested_ind (P : expr -> Prop) :
  (forall z, P (ENum z)) ->
  (forall s, P (EStr s)) ->
  (forall x, P (EName x)) ->
  (forall op a, P a -> forall b, P b -> P (EBin op a b)) ->
  (forall a, P a -> P (ENeg a)) ->
  (forall a, P a -> P (EPos a)) ->
  (forall f, P f -> forall args, Forall P args -> P (ECall f args)) ->
  (forall a, P a -> forall n, P (EAttr a n)) ->
  forall e, P e.
Proof.
  intros Hnum Hstr Hname Hbin Hneg Hpos Hcall Hattr.
  fix IH 1. intros [z|s|x|op a b|a|a|f args|a n].
  - apply Hnum.
  - apply Hstr.
  - apply Hname.
  - apply Hbin; apply IH.
  - apply Hneg, IH.
  - apply Hpos, IH.
  - apply Hcall; [apply IH|].
    induction args as [|a args IHargs]; constructor; [apply IH | exact IHargs].
  - apply Hattr, IH.
Qed.

Section ScopeOfCalc.
Variable bound : list string.
Variable locals : scope.
Hypothesis bound_numeric : forall x, mem_string x bound = true ->
  exists v, locals !! x = Some v /\ is_numeric v = true.
Hypothesis unbound_absent : forall x, mem_string x bound = false ->
  mem_string x reserved_names = false -> locals !! x = None.
Hypothesis abs_bound : locals !! "abs" = Some (VBuiltin "abs").

Lemma unbound_name_raises x :
  mem_string x bound = false -> mem_string x reserved_names = false ->
  raises (lookup_name safe_globals locals x).
Proof.
  intros Hb Hr. unfold lookup_name, raises. eexists.
  rewrite (unbound_absent x Hb Hr).
  assert (safe_globals !! x = None) as ->.
  { unfold safe_globals. apply lookup_singleton_ne.
    intros <-. vm_compute in Hr. discriminate. }
  unfold safe_globals. rewrite lookup_singleton_eq. reflexivity.
Qed.

Lemma abs_lookup :
  lookup_name safe_globals locals "abs" = Val (VBuiltin "abs").
Proof. unfold lookup_name. rewrite abs_bound. reflexivity. Qed.

(** The analysis is sound for evaluation in the scope of [calc]. *)
Lemma kind_of_sound e :
  forall k, kind_of bound e = Some k ->
    match k with
    | KNumeric => numeric_or_raises (eval_expr safe_globals locals e)
    | KRaises => raises (eval_expr safe_globals locals e)
    end.
Proof.
  induction e as [z|s|x|op a IHa b IHb|a IHa|a IHa|f IHf args|a IHa n]
    using expr_nested_ind; intros k Hk; cbn [kind_of] in Hk.
  - injection Hk as <-. left. eexists. split; reflexivity.
  - discriminate.
  - cbn [eval_expr]. destruct (mem_string x bound) eqn:Eb.
    + injection Hk as <-. destruct (bound_numeric x Eb) as (v & Hv & Hn).
      left. exists v. unfold lookup_name. rewrite Hv. auto.
    + destruct (mem_string x reserved_names) eqn:Er; [discriminate|].
      injection Hk as <-. apply unbound_name_raises; assumption.
  - cbn [eval_expr].
    destruct (kind_of bound a) as [[|]|] eqn:Ea; [| |discriminate].
    + specialize (IHa _ eq_refl). cbn in IHa.
      destruct IHa as [(va & -> & Hva)|[ea ->]].
      * specialize (IHb _ Hk). destruct k.
        -- destruct IHb as [(vb & -> & Hvb)|[eb ->]];
             [apply binary_total; assumption | right; eauto].
        -- destruct IHb as [eb ->]. unfold raises. eauto.
      * destruct k; [right|]; unfold raises; eauto.
    + injection Hk as <-. specialize (IHa _ eq_refl). cbn in IHa.
      destruct IHa as [ea ->]. unfold raises. eauto.
  - cbn [eval_expr]. specialize (IHa _ Hk). destruct k.
    + destruct IHa as [(va & -> & Hva)|[ea ->]]; [|right; eauto].
      destruct (neg_numeric va Hva) as (r & -> & Hr). left. eauto.
    + destruct IHa as [ea ->]. unfold raises. eauto.
  - cbn [eval_expr]. specialize (IHa _ Hk). destruct k.
    + destruct IHa as [(va & -> & Hva)|[ea ->]]; [|right; eauto].
      destruct (pos_numeric va Hva) as (r & -> & Hr). left. eauto.
    + destruct IHa as [ea ->]. unfold raises. eauto.
  - assert (forall k', kind_of bound f = Some KRaises ->
              k' = KRaises ->
              raises (eval_expr safe_globals locals (ECall f args))) as Hf.
    { intros k' Hfk ->. specialize (IHf _ Hfk). cbn in IHf.
      destruct IHf as [ef Hef]. cbn [eval_expr]. rewrite Hef.
      unfold raises. eauto. }
    assert (match kind_of bound f with Some KRaises => Some KRaises | _ => None end
              = Some k ->
            match k with
            | KNumeric => numeric_or_raises (eval_expr safe_globals locals (ECall f args))
            | KRaises => raises (eval_expr safe_globals locals (ECall f args))
            end) as Hgen.
    { destruct (kind_of bound f) as [[|]|] eqn:Ef; try discriminate.
      intros E. injection E as <-. eapply Hf; eauto. }
    destruct f as [| |g| | | | |]; try (apply Hgen; exact Hk).
    destruct args as [|a [|a' args']]; try (apply Hgen; exact Hk).
    destruct (mem_string g bound) eqn:Eb; [discriminate|].
    destruct (String.eqb g "abs") eqn:Eabs.
    + apply String.eqb_eq in Eabs. subst g.
      apply Forall_cons in H as [IHa _]. specialize (IHa _ Hk).
      cbn [eval_expr]. rewrite abs_lookup.
      destruct k.
      * destruct IHa as [(va & -> & Hva)|[ea ->]]; [|right; eauto].
        destruct (abs_numeric va Hva) as (r & Hr & Hn).
        left. exists r. split; [|exact Hn].
        cbn [call]. rewrite String.eqb_refl. exact Hr.
      * destruct IHa as [ea ->]. unfold raises. eauto.
    + destruct (mem_string g reserved_names) eqn:Er; [discriminate|].
      injection Hk as <-. cbn [eval_expr].
      destruct (unbound_name_raises g Eb Er) as [eg ->]. unfold raises. eauto.
  - cbn [eval_expr].
    destruct (kind_of bound a) as [[|]|] eqn:Ea; try discriminate.
    injection Hk as <-. specialize (IHa _ eq_refl). cbn in IHa.
    destruct IHa as [ea ->]. unfold raises. eauto.
Qed.

End ScopeOfCalc.

(** ** [calc] on the registry *)

Lemma python_eval_parse source g l :
  python_eval source g l = (e ← parse_source source; eval_expr g l e).
Proof.
  unfold python_eval, parse_source.
  destruct (tokenize source) as [ts| |]; cbn [mbind outcome_bind]; [|reflexivity..].
  destruct (parse ts); reflexivity.
Qed.

Section PrepareInputs.
Context `{R : PyRuntime}.
Variable d : gmap string pyval.

(** The first loop of [calc] succeeds when no input is missing; each input
    is then bound under its safe name, provided the safe names are
    distinct, and nothing else is bound. *)
Lemma prepare_inputs_lookup all inps :
  forall acc,
    (forall x, In x inps -> is_Some (d !! x)) ->
    NoDup (map safe_name inps) ->
    exists iv,
      prepare_inputs d all inps acc = Val iv
      /\ (forall inp, In inp inps -> iv !! safe_name inp = d !! inp)
      /\ (forall k, ~ In k (map safe_name inps) -> iv !! k = acc !! k).
Proof.
  induction inps as [|inp rest IH]; intros acc Hpres Hnd.
  - exists acc. split; [reflexivity|]. split; [intros ? []|reflexivity].
  - cbn [prepare_inputs].
    destruct (Hpres inp (or_introl eq_refl)) as [v Hv].
    rewrite (dict_contains_Some _ _ _ Hv), (dict_getitem_Some _ _ _ Hv).
    cbn [negb mbind outcome_bind].
    cbn [map] in Hnd. apply NoDup_cons in Hnd as [Hnotin Hnd].
    destruct (IH (<[safe_name inp := v]> acc)) as (iv & E & Hin & Hout);
      [intros x Hx; apply Hpres; right; exact Hx | exact Hnd |].
    exists iv. split; [exact E|]. split.
    + intros x [<-|Hx]; [|auto].
      rewrite Hout; [|rewrite <- list_elem_of_In; exact Hnotin].
      rewrite lookup_insert_eq. symmetry. exact Hv.
    + intros k Hk. cbn [map] in Hk.
      rewrite Hout; [|intros C; apply Hk; right; exact C].
      apply lookup_insert_ne. intros <-. apply Hk. left. reflexivity.
Qed.

Lemma inputs_used_of_lookup inps :
  forall acc,
    exists used,
      inputs_used_of d inps acc = Val used
      /\ forall k, used !! k = if bool_decide (k ∈ inps) then
                                 match d !! k with Some v => Some v | None => acc !! k end
                               else acc !! k.
Proof.
  induction inps as [|inp rest IH]; intros acc.
  - exists acc. split; [reflexivity|]. intros k.
    rewrite bool_decide_eq_false_2; [reflexivity | apply not_elem_of_nil].
  - cbn [inputs_used_of].
    assert (forall acc' : gmap string pyval,
              (forall k, k <> inp -> acc' !! k = acc !! k) ->
              acc' !! inp = match d !! inp with Some v => Some v | None => acc !! inp end ->
              forall used : gmap string pyval,
                (forall k, used !! k =
                   if bool_decide (k ∈ rest) then
                     match d !! k with Some v => Some v | None => acc' !! k end
                   else acc' !! k) ->
                forall k, used !! k =
                   if bool_decide (k ∈ inp :: rest) then
                     match d !! k with Some v => Some v | None => acc !! k end
                   else acc !! k) as Hstep.
    { intros acc' Hne Heq used Hu k. rewrite Hu.
      destruct (decide (k = inp)) as [->|Hk].
      - rewrite (bool_decide_eq_true_2 (inp ∈ inp :: rest)) by (apply elem_of_cons; left; reflexivity).
        rewrite Heq. destruct (bool_decide (inp ∈ rest)), (d !! inp); reflexivity.
      - rewrite (Hne k Hk).
        destruct (bool_decide (k ∈ rest)) eqn:Eb.
        + apply bool_decide_eq_true in Eb.
          rewrite bool_decide_eq_true_2 by (apply elem_of_cons; right; exact Eb).
          reflexivity.
        + apply bool_decide_eq_false in Eb.
          rewrite bool_decide_eq_false_2; [reflexivity|].
          intros C. apply elem_of_cons in C as [C|C]; [congruence | contradiction]. }
    destruct (d !! inp) as [v|] eqn:Ev.
    + rewrite (dict_contains_Some _ _ _ Ev), (dict_getitem_Some _ _ _ Ev).
      cbn [mbind outcome_bind].
      destruct (IH (<[inp := v]> acc)) as (used & E & Hu).
      exists used. split; [exact E|].
      apply (Hstep (<[inp := v]> acc)); [| |exact Hu].
      * intros k Hk. apply lookup_insert_ne. congruence.
      * apply lookup_insert_eq.
    + rewrite (dict_contains_None _ _ Ev).
      destruct (IH acc) as (used & E & Hu).
      exists used. split; [exact E|].
      apply (Hstep acc); [reflexivity | reflexivity | exact Hu].
Qed.

End PrepareInputs.

(** The dict of inputs used is the dataset restricted to the inputs. *)
Lemma inputs_used_of_restricts `{R : PyRuntime} (d : gmap string pyval) inps :
  exists used,
    inputs_used_of d inps ∅ = Val used
    /\ forall k, used !! k = if bool_decide (k ∈ inps) then d !! k else None.
Proof.
  destruct (inputs_used_of_lookup d inps ∅) as (used & E & Hu).
  exists used. split; [exact E|]. intros k. rewrite Hu.
  destruct (bool_decide (k ∈ inps)); [|apply lookup_empty].
  destruct (d !! k); [reflexivity | apply lookup_empty].
Qed.

(** Lookups in the locals [calc] passes to [eval]. *)
Lemma safe_locals_abs iv : safe_locals_of iv !! "abs" = Some (VBuiltin "abs").
Proof.
  unfold safe_locals_of.
  rewrite lookup_insert_ne by discriminate.
  rewrite lookup_insert_ne by discriminate.
  apply lookup_insert_eq.
Qed.

Lemma safe_locals_other iv x :
  mem_string x reserved_names = false -> safe_locals_of iv !! x = iv !! x.
Proof.
  intros Hr. unfold safe_locals_of.
  assert (x <> "abs" /\ x <> "min" /\ x <> "max") as (Ha & Hmin & Hmax).
  { repeat split; intros ->; vm_compute in Hr; discriminate. }
  rewrite !lookup_insert_ne by congruence. reflexivity.
Qed.

(** The locals bind the names of [input_values] and the three
    built-ins. *)
Lemma safe_locals_dom (iv : gmap string pyval) :
  dom (safe_locals_of iv) = {["min"; "max"; "abs"]} ∪ dom iv.
Proof. unfold safe_locals_of. rewrite !dom_insert_L. set_solver. Qed.

Lemma mem_string_false w l : mem_string w l = false <-> ~ In w l.
Proof.
  rewrite <- mem_string_In. destruct (mem_string w l); split; congruence.
Qed.

Lemma all_distinct_NoDup l : all_distinct l = true -> NoDup l.
Proof. unfold all_distinct. apply bool_decide_eq_true. Qed.

Section RegistryEvaluation.
Variable error_text : interp_error -> string.
Variable repr_str : string -> string.
Let R : PyRuntime := cpython error_text repr_str.
Variable d : gmap string pyval.
Hypothesis d_numeric : numeric_data d.

(** The general path on an analysed entry with all inputs present: a
    number, or the [ValueError] that wraps the exception of [eval]. *)
Lemma calc_general_total spec :
  is_direct_reference spec = false ->
  entry_analysed spec = true ->
  missing_from d (inputs spec) = [] ->
  numeric_or_raises (@calc_general R spec d).
Proof.
  intros Hdir Han Hmiss. unfold entry_analysed in Han. rewrite Hdir in Han.
  cbn [orb] in Han. apply andb_true_iff in Han as [Han Hparse].
  apply andb_true_iff in Han as [Hnd Hres].
  apply all_distinct_NoDup in Hnd. rewrite forallb_forall in Hres.
  destruct (parse_source (safe_formula_of spec)) as [e| |] eqn:Ep;
    [|discriminate..].
  destruct (kind_of (map safe_name (inputs spec)) e) as [k|] eqn:Ek;
    [|discriminate].
  destruct (prepare_inputs_lookup (R := R) d (inputs spec) (inputs spec) ∅)
    as (iv & Eiv & Hin & Hout).
  { apply missing_from_nil. exact Hmiss. }
  { exact Hnd. }
  unfold calc_general. rewrite Eiv. cbn [mbind outcome_bind].
  change (@py_eval R) with python_eval.
  rewrite python_eval_parse, Ep. cbn [mbind outcome_bind].
  assert (forall x, mem_string x (map safe_name (inputs spec)) = true ->
            exists v, safe_locals_of iv !! x = Some v /\ is_numeric v = true) as Hb.
  { intros x Hx. apply mem_string_In in Hx.
    assert (mem_string x reserved_names = false) as Hr
      by (apply negb_true_iff, Hres, Hx).
    apply in_map_iff in Hx as (inp & <- & Hinp).
    destruct (proj1 (missing_from_nil d (inputs spec)) Hmiss inp Hinp) as [v Hv].
    exists v. rewrite (safe_locals_other _ _ Hr), (Hin _ Hinp).
    split; [exact Hv | exact (d_numeric _ _ Hv)]. }
  assert (forall x, mem_string x (map safe_name (inputs spec)) = false ->
            mem_string x reserved_names = false ->
            safe_locals_of iv !! x = None) as Hu.
  { intros x Hx Hr. rewrite (safe_locals_other _ _ Hr).
    rewrite Hout; [apply lookup_empty | apply mem_string_false, Hx]. }
  pose proof (kind_of_sound (map safe_name (inputs spec)) (safe_locals_of iv)
                Hb Hu (safe_locals_abs iv) e k Ek) as Hs.
  assert (numeric_or_raises
            (eval_expr safe_globals (safe_locals_of iv) e)) as Hev.
  { destruct k; [exact Hs|]. destruct Hs as [err Herr]. right. eauto. }
  destruct Hev as [(v & -> & Hv)|[err ->]]; cbn [try_except].
  - left. eauto.
  - right. eauto.
Qed.

(** [calc] on a registry entry with all inputs present. *)
Lemma calc_registry_total c spec :
  METRICS !! c = Some spec ->
  missing_from d (inputs spec) = [] ->
  numeric_or_raises (@calc R METRICS c d).
Proof.
  intros Hs Hmiss. unfold calc.
  rewrite (dict_getitem_Some _ _ _ Hs). cbn [mbind outcome_bind].
  destruct (is_direct_reference spec) eqn:Hdir.
  - unfold is_direct_reference in Hdir.
    destruct (inputs spec) as [|inp [|]] eqn:Ei; try discriminate.
    destruct (proj1 (missing_from_nil d [inp]) Hmiss inp (or_introl eq_refl))
      as [v Hv].
    rewrite (dict_contains_Some _ _ _ Hv), (dict_getitem_Some _ _ _ Hv).
    left. exists v. split; [reflexivity | exact (d_numeric _ _ Hv)].
  - apply calc_general_total; [exact Hdir | | exact Hmiss].
    exact (METRICS_forall (fun _ s => entry_analysed s)
             ltac:(vm_compute; reflexivity) c spec Hs).
Qed.

End RegistryEvaluation.

(** ** [calculate_metric] once no input is missing *)

Lemma calculate_metric_evaluates `{R : PyRuntime} name d spec :
  METRICS !! resolve_alias name = Some spec ->
  missing_from d (inputs spec) = [] ->
  calculate_metric name d =
    try_except
      (result ← calc METRICS (resolve_alias name) d;
       result ← (if PyStr.endswith (resolve_alias name) "_pct"
                    && negb (isinstance_str result)
                 then binary Mul result (VInt 100)
                 else Val result);
       used ← inputs_used_of d (inputs spec) ∅;
       Val (Calculated (resolve_alias name) result (formula spec) (desc spec) used))
      (fun e =>
         Val (EvaluationError ("Error calculating metric: " +:+ str_exn e)
                (resolve_alias name) (formula spec))).
Proof.
  intros Hs Hm. unfold calculate_metric.
  rewrite (dict_contains_Some _ _ _ Hs). cbn [negb].
  rewrite (dict_getitem_Some _ _ _ Hs). cbn [mbind outcome_bind].
  rewrite Hm. reflexivity.
Qed.

Lemma numeric_not_str v : is_numeric v = true -> isinstance_str v = false.
Proof. destruct v; cbn; congruence. Qed.

(** When [calc] raises, the exception becomes the error of the result. *)
Lemma calculate_metric_of_raise `{R : PyRuntime} name d spec e :
  METRICS !! resolve_alias name = Some spec ->
  missing_from d (inputs spec) = [] ->
  calc METRICS (resolve_alias name) d = Raise e ->
  calculate_metric name d =
    Val (EvaluationError ("Error calculating metric: " +:+ str_exn e)
           (resolve_alias name) (formula spec)).
Proof.
  intros Hs Hm He. rewrite (calculate_metric_evaluates _ _ _ Hs Hm), He.
  reflexivity.
Qed.

(** When [calc] returns a number, the result carries it, times [100] for
    a percentage metric, together with the inputs consumed. *)
Lemma calculate_metric_of_value `{R : PyRuntime} name d spec raw :
  METRICS !! resolve_alias name = Some spec ->
  missing_from d (inputs spec) = [] ->
  calc METRICS (resolve_alias name) d = Val raw ->
  is_numeric raw = true ->
  exists v used,
    (if PyStr.endswith (resolve_alias name) "_pct"
     then binary Mul raw (VInt 100) = Val v else v = raw)
    /\ (forall k, used !! k = if bool_decide (k ∈ inputs spec) then d !! k else None)
    /\ calculate_metric name d =
         Val (Calculated (resolve_alias name) v (formula spec) (desc spec) used).
Proof.
  intros Hs Hm Hc Hn. rewrite (calculate_metric_evaluates _ _ _ Hs Hm), Hc.
  cbn [mbind outcome_bind]. rewrite (numeric_not_str _ Hn). cbn [negb].
  rewrite andb_true_r.
  destruct (inputs_used_of_restricts d (inputs spec)) as (used & Eu & Hu).
  destruct (PyStr.endswith (resolve_alias name) "_pct").
  - destruct (times_100_total raw Hn) as (v & Ev & _).
    exists v, used. rewrite Ev. cbn [mbind outcome_bind]. rewrite Eu.
    split; [reflexivity|]. split; [exact Hu | reflexivity].
  - exists raw, used. cbn [mbind outcome_bind]. rewrite Eu.
    split; [reflexivity|]. split; [exact Hu | reflexivity].
Qed.

(** ** Errors are results (C5) *)

(** A ratio entry evaluated on a zero denominator. *)
Lemma ratio_by_zero_fails error_text repr_str d spec x y v w :
  ratio_entry_ok spec = true ->
  inputs spec = [x; y] ->
  formula spec = x +:+ " / " +:+ y ->
  d !! x = Some v -> d !! y = Some w ->
  is_numeric v = true -> is_zero_value w = true ->
  exists cause,
    @calc_general (cpython error_text repr_str) spec d =
      Raise (ValueError ("Error evaluating formula '" +:+ formula spec +:+ "': "
                         +:+ error_text cause))
    /\ (class_of cause = ZeroDivisionError \/ cause = IntTooLarge).
Proof.
  intros Hok Hi Hf Hx Hy Hv Hw. unfold ratio_entry_ok in Hok.
  rewrite Hi, Hf, String.eqb_refl in Hok.
  repeat (apply andb_true_iff in Hok as [Hok ?]).
  apply String.eqb_eq in Hok.
  match goal with H : String.eqb (safe_name y) y = true |- _ =>
    apply String.eqb_eq in H; rename H into Hsy end.
  match goal with H : negb (String.eqb x y) = true |- _ =>
    apply negb_true_iff, String.eqb_neq in H; rename H into Hxy end.
  match goal with H : negb (mem_string x reserved_names) = true |- _ =>
    apply negb_true_iff in H; rename H into Hrx end.
  match goal with H : negb (mem_string y reserved_names) = true |- _ =>
    apply negb_true_iff in H; rename H into Hry end.
  match goal with H : parses_as_ratio spec x y = true |- _ => rename H into Hp end.
  assert (safe_formula_of spec = formula spec) as Hsf.
  { unfold safe_formula_of. rewrite Hi. cbn [rewrite_formula].
    rewrite Hok, Hsy, !String.eqb_refl. reflexivity. }
  unfold parses_as_ratio in Hp.
  destruct (parse_source (safe_formula_of spec)) as [e| |] eqn:Ep; try discriminate.
  destruct e as [| | |op a b| | | |]; try discriminate.
  destruct op; try discriminate.
  destruct a as [| |xa| | | | |]; try discriminate.
  destruct b as [| |yb| | | | |]; try discriminate.
  apply andb_true_iff in Hp as [Hxa Hyb].
  apply String.eqb_eq in Hxa, Hyb. subst xa yb.
  destruct (prepare_inputs_lookup (R := cpython error_text repr_str)
              d (inputs spec) (inputs spec) ∅) as (iv & Eiv & Hin & _).
  { rewrite Hi. intros k [<-|[<-|[]]]; eauto. }
  { rewrite Hi. cbn [map]. rewrite Hok, Hsy.
    apply NoDup_cons. split; [|apply NoDup_singleton].
    intros C. apply list_elem_of_singleton in C. contradiction. }
  destruct (division_by_zero_raises v w Hv Hw) as (cause & Hdiv & Hclass).
  exists cause. split; [|exact Hclass].
  unfold calc_general. rewrite Eiv. cbn [mbind outcome_bind].
  change (@py_eval (cpython error_text repr_str)) with python_eval.
  rewrite python_eval_parse, Ep. cbn [mbind outcome_bind eval_expr].
  unfold lookup_name.
  rewrite (safe_locals_other _ _ Hrx), (safe_locals_other _ _ Hry).
  pose proof (Hin x ltac:(rewrite Hi; cbn; auto)) as Hlx.
  pose proof (Hin y ltac:(rewrite Hi; cbn; auto)) as Hly.
  rewrite Hok, Hx in Hlx. rewrite Hsy, Hy in Hly. rewrite Hlx, Hly.
  rewrite Hdiv. cbn [try_except str_exn py_error_text cpython].
  rewrite Hsf. reflexivity.
Qed.

(** The first loop of [calc] ends only when every input is present. *)
Lemma prepare_inputs_present `{R : PyRuntime} (d : gmap string pyval) all inps :
  forall acc iv,
    prepare_inputs d all inps acc = Val iv ->
    forall x, In x inps -> is_Some (d !! x).
Proof.
  induction inps as [|inp rest IH]; intros acc iv H x Hx; [destruct Hx|].
  cbn [prepare_inputs] in H.
  destruct (d !! inp) as [v|] eqn:E.
  - rewrite (dict_contains_Some _ _ _ E), (dict_getitem_Some _ _ _ E) in H.
    cbn [negb mbind outcome_bind] in H.
    destruct Hx as [<-|Hx]; [eauto | exact (IH _ _ H x Hx)].
  - rewrite (dict_contains_None _ _ E) in H. discriminate H.
Qed.

(** An evaluation that returns a value has evaluated every subexpression
    to a value: nothing is skipped. *)
Lemma eval_subexpr_value g l s e :
  subexpr s e ->
  forall v, eval_expr g l e = Val v -> exists w, eval_expr g l s = Val w.
Proof.
  induction 1 as [|op a b Hs IH|op a b Hs IH|a Hs IH|a Hs IH|f args Hs IH
                  |f args a Hin Hs IH|a n Hs IH]; intros v Hv.
  - eauto.
  - cbn [eval_expr] in Hv.
    destruct (eval_expr g l a) as [va| |]; try discriminate Hv. eauto.
  - cbn [eval_expr] in Hv.
    destruct (eval_expr g l a) as [va| |]; try discriminate Hv.
    destruct (eval_expr g l b) as [vb| |]; try discriminate Hv. eauto.
  - cbn [eval_expr] in Hv.
    destruct (eval_expr g l a) as [va| |]; try discriminate Hv. eauto.
  - cbn [eval_expr] in Hv.
    destruct (eval_expr g l a) as [va| |]; try discriminate Hv. eauto.
  - cbn [eval_expr] in Hv.
    destruct (eval_expr g l f) as [vf| |]; try discriminate Hv. eauto.
  - cbn [eval_expr] in Hv.
    destruct (eval_expr g l f) as [vf| |]; try discriminate Hv.
    revert Hv. generalize (call vf). intros k.
    match goal with |- context [match ?t with _ => _ end] =>
      match t with ?f args => set (ea := f) end
    end.
    assert (forall args' vs, ea args' = Val vs ->
              forall a', In a' args' -> exists w, eval_expr g l a' = Val w) as Hargs.
    { induction args' as [|a0 rest IHr]; intros vs Hvs a' Ha'; [destruct Ha'|].
      cbn in Hvs. fold ea in Hvs.
      destruct (eval_expr g l a0) as [v0| |] eqn:E0; try discriminate Hvs.
      destruct (ea rest) as [vr| |] eqn:Er; try discriminate Hvs.
      destruct Ha' as [<-|Ha']; [eauto | exact (IHr _ eq_refl a' Ha')]. }
    intros Hv. destruct (ea args) as [vs| |] eqn:Ea; try discriminate Hv.
    destruct (Hargs args vs Ea a Hin) as [w Hw]. exact (IH w Hw).
  - cbn [eval_expr] in Hv.
    destruct (eval_expr g l a) as [va| |]; try discriminate Hv. eauto.
Qed.

(** [/] yields a value only for a divisor that is not zero. *)
Lemma quotient_divisor_nonzero va vb r :
  binary Div va vb = Val r -> is_zero_value vb = false.
Proof.
  intros H. destruct (is_zero_value vb) eqn:Ez; [|reflexivity].
  destruct (is_numeric va) eqn:En.
  - destruct (division_by_zero_raises va vb En Ez) as (cause & Hc & _).
    rewrite Hc in H. discriminate H.
  - destruct va; try discriminate En; destruct vb; discriminate H.
Qed.

(** A division whose divisor evaluates to zero, anywhere in a formula,
    keeps the formula from having a value. *)
Lemma zero_division_has_no_value g l e a b w :
  subexpr (EBin Div a b) e ->
  eval_expr g l b = Val w -> is_zero_value w = true ->
  forall v, eval_expr g l e <> Val v.
Proof.
  intros Hs Hb Hz v Hv.
  destruct (eval_subexpr_value g l _ _ Hs v Hv) as [q Hq].
  cbn [eval_expr] in Hq.
  destruct (eval_expr g l a) as [va| |]; try discriminate Hq.
  rewrite Hb in Hq. apply quotient_divisor_nonzero in Hq. congruence.
Qed.

(** [calculate_metric] hands every exception over to its caller as a
    result. *)
Lemma calculate_metric_never_raises `{R : PyRuntime} name d x :
  calculate_metric name d <> Raise x.
Proof.
  unfold calculate_metric.
  destruct (METRICS !! resolve_alias name) as [spec|] eqn:E.
  - rewrite (dict_contains_Some _ _ _ E), (dict_getitem_Some _ _ _ E).
    cbn [negb mbind outcome_bind].
    match goal with |- context [try_except ?body _] => generalize body end.
    intros body C.
    destruct (negb (Nat.eqb (length (missing_from d (inputs spec))) 0));
      [discriminate C|].
    destruct body; cbn [try_except] in C; discriminate C.
  - rewrite (dict_contains_None _ _ E). cbn [negb]. intros C. discriminate C.
Qed.

Lemma zero_division_is_reported error_text repr_str name d spec iv e a b w :
  numeric_data d ->
  METRICS !! resolve_alias name = Some spec ->
  is_direct_reference spec = false ->
  @prepare_inputs (cpython error_text repr_str) d (inputs spec) (inputs spec) ∅ = Val iv ->
  parse_source (safe_formula_of spec) = Val e ->
  subexpr (EBin Div a b) e ->
  eval_expr safe_globals (safe_locals_of iv) b = Val w ->
  is_zero_value w = true ->
  exists x,
    eval_expr safe_globals (safe_locals_of iv) e = Raise x
    /\ @calculate_metric (cpython error_text repr_str) name d =
         Val (EvaluationError
                ("Error calculating metric: Error evaluating formula '"
                 +:+ safe_formula_of spec +:+ "': "
                 +:+ @str_exn (cpython error_text repr_str) x)
                (resolve_alias name) (formula spec)).
Proof.
  intros Hnum Hs Hnd Hprep Hparse Hsub Hb Hz.
  assert (missing_from d (inputs spec) = []) as Hm
    by (apply missing_from_nil; exact (prepare_inputs_present d _ _ _ _ Hprep)).
  assert (@calc (cpython error_text repr_str) METRICS (resolve_alias name) d
          = try_except (eval_expr safe_globals (safe_locals_of iv) e)
              (fun x => Raise (ValueError ("Error evaluating formula '"
                                           +:+ safe_formula_of spec +:+ "': "
                                           +:+ @str_exn (cpython error_text repr_str) x))))
    as Hcalc.
  { unfold calc. rewrite (dict_getitem_Some _ _ _ Hs). cbn [mbind outcome_bind].
    rewrite Hnd. unfold calc_general. rewrite Hprep. cbn [mbind outcome_bind].
    change (@py_eval (cpython error_text repr_str)) with python_eval.
    rewrite python_eval_parse, Hparse. reflexivity. }
  pose proof (calc_registry_total error_text repr_str d Hnum _ _ Hs Hm) as Htot.
  pose proof (zero_division_has_no_value _ _ _ _ _ _ Hsub Hb Hz) as Hno.
  destruct (eval_expr safe_globals (safe_locals_of iv) e) as [v|x|] eqn:Ee.
  - exfalso. exact (Hno v eq_refl).
  - exists x. split; [reflexivity|]. cbn [try_except] in Hcalc.
    rewrite (calculate_metric_of_raise name d spec _ Hs Hm Hcalc).
    reflexivity.
  - exfalso. cbn [try_except] in Hcalc. rewrite Hcalc in Htot.
    destruct Htot as [(v & Hv & _)|[x Hx]]; discriminate.
Qed.

(** C5. [calculate_metric] never raises, for any metric name, dataset and
    interpreter, and whatever [calc] raises comes back as the
    evaluation-error result with the text of the exception.  On a dataset
    of numbers it always returns a result, which is one of four: the
    metric is unknown; inputs are missing; the value, a number, when the
    evaluation returned one; the evaluation error, when the evaluation
    raised.  A division by zero is such an error wherever it stands in a
    formula: for every metric of the registry, if the divisor of a
    division in its formula evaluates to zero, the result is the
    evaluation error and no value, so no infinity and no NaN, is returned
    for it.  For the metrics whose formula is the quotient [x / y] of two
    inputs the exception is the division by zero itself. *)
Theorem C5_errors_are_returned
    (error_text : interp_error -> string) (repr_str : string -> string)
    (name : string) (d : gmap string pyval) :
  (forall (R : PyRuntime) x, @calculate_metric R name d <> Raise x)
  /\ (forall (R : PyRuntime) spec x,
        METRICS !! resolve_alias name = Some spec ->
        missing_from d (inputs spec) = [] ->
        @calc R METRICS (resolve_alias name) d = Raise x ->
        @calculate_metric R name d =
          Val (EvaluationError ("Error calculating metric: " +:+ @str_exn R x)
                 (resolve_alias name) (formula spec)))
  /\ (numeric_data d ->
      (exists r,
         @calculate_metric (cpython error_text repr_str) name d = Val r
         /\ match r with
            | UnknownMetric _ => METRICS !! resolve_alias name = None
            | MissingInputs _ _ missing => missing <> []
            | Calculated _ v _ _ _ =>
                is_numeric v = true
                /\ exists raw,
                     @calc (cpython error_text repr_str) METRICS (resolve_alias name) d
                       = Val raw
            | EvaluationError err _ _ =>
                exists x,
                  @calc (cpython error_text repr_str) METRICS (resolve_alias name) d
                    = Raise x
                  /\ err = "Error calculating metric: "
                           +:+ @str_exn (cpython error_text repr_str) x
            end)
      /\ (forall spec iv e a b w,
            METRICS !! resolve_alias name = Some spec ->
            is_direct_reference spec = false ->
            @prepare_inputs (cpython error_text repr_str) d (inputs spec) (inputs spec) ∅
              = Val iv ->
            parse_source (safe_formula_of spec) = Val e ->
            subexpr (EBin Div a b) e ->
            eval_expr safe_globals (safe_locals_of iv) b = Val w ->
            is_zero_value w = true ->
            exists x,
              eval_expr safe_globals (safe_locals_of iv) e = Raise x
              /\ @calculate_metric (cpython error_text repr_str) name d =
                   Val (EvaluationError
                          ("Error calculating metric: Error evaluating formula '"
                           +:+ safe_formula_of spec +:+ "': "
                           +:+ @str_exn (cpython error_text repr_str) x)
                          (resolve_alias name) (formula spec)))
      /\ (forall spec x y v w,
            METRICS !! resolve_alias name = Some spec ->
            inputs spec = [x; y] ->
            formula spec = x +:+ " / " +:+ y ->
            d !! x = Some v -> d !! y = Some w ->
            is_zero_value w = true ->
            exists cause r,
              @calculate_metric (cpython error_text repr_str) name d = Val r
              /\ r = EvaluationError
                       ("Error calculating metric: Error evaluating formula '"
                        +:+ formula spec +:+ "': " +:+ error_text cause)
                       (resolve_alias name) (formula spec)
              /\ success r = false
              /\ (class_of cause = ZeroDivisionError \/ cause = IntTooLarge)))
  /\ (forall v w, is_numeric v = true -> is_zero_value w = true ->
        forall r, binary Div v w <> Val r).
Proof.
  split; [intros R x; apply calculate_metric_never_raises|].
  split; [intros R spec x Hs Hm Hx; exact (calculate_metric_of_raise name d spec x Hs Hm Hx)|].
  split.
  - intros Hnum. split; [|split].
    + destruct (METRICS !! resolve_alias name) as [spec|] eqn:Es.
      * destruct (missing_from d (inputs spec)) as [|m ms] eqn:Em.
        -- destruct (calc_registry_total error_text repr_str d Hnum _ _ Es Em)
             as [(raw & Hraw & Hn)|[e He]].
           ++ destruct (calculate_metric_of_value name d spec raw Es Em Hraw Hn)
                as (v & used & Hv & _ & E).
              eexists. split; [exact E|]. hnf. split; [|exists raw; exact Hraw].
              destruct (PyStr.endswith (resolve_alias name) "_pct").
              ** destruct (times_100_total raw Hn) as (r & Hr & Hnr).
                 rewrite Hr in Hv. injection Hv as <-. exact Hnr.
              ** subst v. exact Hn.
           ++ rewrite (calculate_metric_of_raise name d spec e Es Em He).
              eexists. split; [reflexivity|]. hnf.
              exists e. split; [exact He | reflexivity].
        -- rewrite (calculate_metric_missing name d spec Es);
             [|rewrite Em; discriminate].
           eexists. split; [reflexivity|]. hnf. rewrite Em. discriminate.
      * unfold calculate_metric. rewrite (dict_contains_None _ _ Es). cbn [negb].
        eexists. split; [reflexivity|]. reflexivity.
    + intros spec iv e a b w Hs Hnd Hprep Hparse Hsub Hb Hz.
      exact (zero_division_is_reported error_text repr_str name d spec iv e a b w
               Hnum Hs Hnd Hprep Hparse Hsub Hb Hz).
    + intros spec x y v w Hs Hi Hf Hx Hy Hw.
      assert (ratio_entry_ok spec = true) as Hok
        by exact (METRICS_forall (fun _ s => ratio_entry_ok s)
                    ltac:(vm_compute; reflexivity) _ _ Hs).
      destruct (ratio_by_zero_fails error_text repr_str d spec x y v w
                  Hok Hi Hf Hx Hy (Hnum _ _ Hx) Hw) as (cause & Hg & Hclass).
      assert (missing_from d (inputs spec) = []) as Hm.
      { apply missing_from_nil. rewrite Hi. intros k [<-|[<-|[]]]; eauto. }
      assert (@calc (cpython error_text repr_str) METRICS (resolve_alias name) d
                = @calc_general (cpython error_text repr_str) spec d) as Hcalc.
      { unfold calc. rewrite (dict_getitem_Some _ _ _ Hs).
        cbn [mbind outcome_bind]. unfold is_direct_reference. rewrite Hi.
        reflexivity. }
      rewrite Hg in Hcalc.
      exists cause. eexists. split.
      { exact (calculate_metric_of_raise name d spec _ Hs Hm Hcalc). }
      split; [|split; [reflexivity | exact Hclass]].
      cbn [str_exn]. reflexivity.
  - intros v w Hv Hw r.
    destruct (division_by_zero_raises v w Hv Hw) as (cause & -> & _).
    discriminate.
Qed.

(** A dataset whose values all pass [is_numeric] is a dataset of
    numbers. *)
Lemma numeric_data_decide (d : gmap string pyval) :
  bool_decide (map_Forall (fun _ v => is_numeric v = true) d) = true ->
  numeric_data d.
Proof. intros H. apply bool_decide_eq_true in H. exact H. Qed.

(** [net_margin_pct] on revenue [0] and [revenue_growth_pct] on a prior
    revenue of [0]: both calls return the evaluation-error result; in the
    second the division stands inside a difference. *)
Lemma C5_zero_revenue_is_reported :
  numeric_data zero_revenue
  /\ (exists r,
        @calculate_metric cpython312 "net_margin_pct" zero_revenue = Val r
        /\ success r = false /\ is_Some (result_error r))
  /\ numeric_data growth_from_zero
  /\ (exists x,
        @calculate_metric cpython312 "revenue_growth_pct" growth_from_zero =
          Val (EvaluationError
                 ("Error calculating metric: Error evaluating formula '"
                  +:+ "(revenue_t/revenue_t_1) - 1" +:+ "': "
                  +:+ @str_exn cpython312 x)
                 "revenue_growth_pct" "(revenue_t/revenue_t-1) - 1")).
Proof.
  assert (numeric_data zero_revenue) as Hnum
    by (apply numeric_data_decide; vm_compute; reflexivity).
  assert (numeric_data growth_from_zero) as Hnum'
    by (apply numeric_data_decide; vm_compute; reflexivity).
  split; [exact Hnum|]. split; [|split; [exact Hnum'|]].
  - destruct (proj2 (proj2 (proj1 (proj2 (proj2
                (C5_errors_are_returned CPython312.error_text
                   CPython312.repr_str "net_margin_pct" zero_revenue))) Hnum))
                {| inputs := ["net_income"; "revenue"];
                   formula := "net_income / revenue";
                   desc := "Net profit margin" |}
                "net_income" "revenue" (VInt 10) (VInt 0))
      as (cause & r & Hr & Hshape & Hfail & _);
      try (vm_compute; reflexivity).
    exists r. split; [exact Hr|]. split; [exact Hfail|].
    rewrite Hshape. cbn. eauto.
  - destruct (proj1 (proj2 (proj1 (proj2 (proj2
                (C5_errors_are_returned CPython312.error_text
                   CPython312.repr_str "revenue_growth_pct" growth_from_zero))) Hnum'))
                {| inputs := ["revenue_t"; "revenue_t-1"];
                   formula := "(revenue_t/revenue_t-1) - 1";
                   desc := "YoY top-line growth" |}
                (<["revenue_t_1" := VInt 0]> (<["revenue_t" := VInt 120]> ∅))
                (EBin Sub (EBin Div (EName "revenue_t") (EName "revenue_t_1")) (ENum 1))
                (EName "revenue_t") (EName "revenue_t_1") (VInt 0))
      as (x & _ & Hx).
    + vm_compute. reflexivity.
    + reflexivity.
    + vm_compute. reflexivity.
    + vm_compute. reflexivity.
    + apply sub_bin_l, sub_refl.
    + vm_compute. reflexivity.
    + reflexivity.
    + exists x. exact Hx.
Defined.

(** The text of that result under the messages of CPython 3.12. *)
Example zero_revenue_error_text :
  @calculate_metric cpython312 "net_margin_pct" zero_revenue =
    Val (EvaluationError
           "Error calculating metric: Error evaluating formula 'net_income / revenue': division by zero"
           "net_margin_pct" "net_income / revenue").
Proof. vm_compute. reflexivity. Qed.

(** A growth metric divides as well: a zero prior-period value is reported
    in the same way. *)
Example revenue_growth_from_zero :
  @calculate_metric cpython312 "revenue_growth_pct"
     (<["revenue_t" := VInt 3]> {[ "revenue_t-1" := VFloat (S754_zero false) ]}) =
    Val (EvaluationError
           "Error calculating metric: Error evaluating formula '(revenue_t/revenue_t_1) - 1': float division by zero"
           "revenue_growth_pct" "(revenue_t/revenue_t-1) - 1").
Proof. vm_compute. reflexivity. Qed.

(** ** Percentage scaling (C4) *)

(** C4. For a metric whose canonical name ends in [_pct], on a dataset of
    numbers that holds its inputs, the value [calculate_metric] returns is
    the result of the formula evaluation ([calc]) multiplied by [100]; the
    multiplication happens after the evaluation, and the text of the
    formula does not contain the factor. *)
Theorem C4_percentage_scaled_after_evaluation
    (error_text : interp_error -> string) (repr_str : string -> string)
    (name : string) (d : gmap string pyval) (spec : MetricSpec) (raw : pyval) :
  METRICS !! resolve_alias name = Some spec ->
  PyStr.endswith (resolve_alias name) "_pct" = true ->
  (forall x, In x (inputs spec) -> is_Some (d !! x)) ->
  numeric_data d ->
  @calc (cpython error_text repr_str) METRICS (resolve_alias name) d = Val raw ->
  PyStr.contains (formula spec) "100" = false
  /\ exists v used,
       binary Mul raw (VInt 100) = Val v
       /\ (forall k, used !! k = if bool_decide (k ∈ inputs spec) then d !! k else None)
       /\ @calculate_metric (cpython error_text repr_str) name d =
            Val (Calculated (resolve_alias name) v (formula spec) (desc spec) used).
Proof.
  intros Hs Hpct Hpres Hnum Hraw. split.
  - pose proof (METRICS_forall
      (fun n s => negb (PyStr.endswith n "_pct")
                  || negb (PyStr.contains (formula s) "100"))
      ltac:(vm_compute; reflexivity) _ _ Hs) as H.
    cbv beta in H. rewrite Hpct in H. cbn [negb orb] in H.
    apply negb_true_iff in H. exact H.
  - assert (missing_from d (inputs spec) = []) as Hm
      by (apply missing_from_nil; exact Hpres).
    assert (is_numeric raw = true) as Hn.
    { destruct (calc_registry_total error_text repr_str d Hnum _ _ Hs Hm)
        as [(raw' & Hraw' & Hn)|[e He]]; [|congruence].
      rewrite Hraw in Hraw'. injection Hraw' as <-. exact Hn. }
    destruct (calculate_metric_of_value (R := cpython error_text repr_str)
                name d spec raw Hs Hm Hraw Hn) as (v & used & Hv & Hu & E).
    rewrite Hpct in Hv. exists v, used. auto.
Qed.

(** The example of the specification: [net_margin_pct] on net income [10]
    and revenue [50]; the raw quotient is the double nearest to 0.2 and the
    value returned is [20.0]. *)
Lemma C4_net_margin_is_20 :
  (METRICS !! resolve_alias "net_margin_pct"
     = Some {| inputs := ["net_income"; "revenue"];
               formula := "net_income / revenue";
               desc := "Net profit margin" |}
   /\ PyStr.endswith (resolve_alias "net_margin_pct") "_pct" = true
   /\ numeric_data margin_data
   /\ @calc cpython312 METRICS (resolve_alias "net_margin_pct") margin_data
      = Val (VFloat (S754_finite false 7205759403792794 (-55))))
  /\ exists used,
       @calculate_metric cpython312 "net_margin_pct" margin_data =
         Val (Calculated "net_margin_pct" (VFloat (float_of_int 20))
                "net_income / revenue" "Net profit margin" used).
Proof.
  assert (METRICS !! resolve_alias "net_margin_pct"
     = Some {| inputs := ["net_income"; "revenue"];
               formula := "net_income / revenue";
               desc := "Net profit margin" |}) as Hs by (vm_compute; reflexivity).
  assert (PyStr.endswith (resolve_alias "net_margin_pct") "_pct" = true) as Hp
    by (vm_compute; reflexivity).
  assert (numeric_data margin_data) as Hnum
    by (apply numeric_data_decide; vm_compute; reflexivity).
  assert (@calc cpython312 METRICS (resolve_alias "net_margin_pct") margin_data
            = Val (VFloat (S754_finite false 7205759403792794 (-55)))) as Hraw
    by (vm_compute; reflexivity).
  split; [repeat split; assumption|].
  destruct (C4_percentage_scaled_after_evaluation CPython312.error_text
              CPython312.repr_str "net_margin_pct" margin_data _ _ Hs Hp
              ltac:(intros x [<-|[<-|[]]]; apply dict_contains_true;
                    vm_compute; reflexivity)
              Hnum Hraw) as (_ & v & used & Hv & _ & E).
  exists used. vm_compute in Hv. injection Hv as <-. exact E.
Defined.

(** The same call, computed outright: the inputs used are the whole
    dataset. *)
Example net_margin_pct_computed :
  @calculate_metric cpython312 "net_margin_pct" margin_data =
    Val (Calculated "net_margin_pct" (VFloat (float_of_int 20))
           "net_income / revenue" "Net profit margin" margin_data).
Proof. vm_compute. reflexivity. Qed.

(** [gross_profit] on revenue [100] and cost [40] is the int [60]. *)
Example gross_profit_computed :
  @calculate_metric cpython312 "gross_profit"
     (<["revenue" := VInt 100]> {[ "cogs" := VInt 40 ]}) =
    Val (Calculated "gross_profit" (VInt 60) "revenue - cogs" "Revenue minus COGS"
           (<["revenue" := VInt 100]> {[ "cogs" := VInt 40 ]})).
Proof. vm_compute. reflexivity. Qed.

(** An unknown name gives the unknown-metric result. *)
Example unknown_metric_computed :
  @calculate_metric cpython312 "unknown_metric_xyz" ∅ =
    Val (UnknownMetric "Unknown metric 'unknown_metric_xyz'").
Proof. vm_compute. reflexivity. Qed.

(** ** Direct references (C7) *)

(** C7 as stated fails in its last part: for [employees], whose input
    [10K.Employees] is rewritten to [10K_Employees], the general path of
    [calc] raises (the token is no identifier) where the shortcut returns
    the value. *)
Lemma C7_employees_general_path_raises :
  ~ (forall name spec inp (d : gmap string pyval) v,
       METRICS !! name = Some spec ->
       inputs spec = [inp] -> formula spec = inp ->
       d !! inp = Some v ->
       @calc_general cpython312 spec d = @calc cpython312 METRICS name d).
Proof.
  intros H.
  specialize (H "employees"
                {| inputs := ["10K.Employees"]; formula := "10K.Employees";
                   desc := "Full-time headcount" |}
                "10K.Employees" employees_data (VInt 5)
                ltac:(vm_compute; reflexivity) eq_refl eq_refl
                ltac:(vm_compute; reflexivity)).
  vm_compute in H. discriminate H.
Qed.

Lemma direct_reference_calc `{R : PyRuntime} c spec inp (d : gmap string pyval) v :
  METRICS !! c = Some spec ->
  inputs spec = [inp] -> formula spec = inp ->
  d !! inp = Some v ->
  calc METRICS c d = Val v.
Proof.
  intros Hs Hi Hf Hv. unfold calc.
  rewrite (dict_getitem_Some _ _ _ Hs). cbn [mbind outcome_bind].
  unfold is_direct_reference. rewrite Hi, Hf, String.eqb_refl.
  rewrite (dict_contains_Some _ _ _ Hv). apply dict_getitem_Some, Hv.
Qed.

(** C7 (amended). For every registry metric whose formula is exactly its
    single required input, on every dataset that holds the input,
    [calculate_metric] returns the value of the input unchanged, whatever
    the value (a negative number included).  For every such metric other
    than [employees] the general path of [calc] (rewrite and evaluate)
    returns the same value; for [employees] it raises. *)
Theorem C7_direct_reference_passthrough
    (error_text : interp_error -> string) (repr_str : string -> string)
    (name : string) (d : gmap string pyval) (spec : MetricSpec)
    (inp : string) (v : pyval) :
  METRICS !! resolve_alias name = Some spec ->
  inputs spec = [inp] ->
  formula spec = inp ->
  d !! inp = Some v ->
  @calculate_metric (cpython error_text repr_str) name d =
    Val (Calculated (resolve_alias name) v inp (desc spec) {[ inp := v ]})
  /\ (resolve_alias name <> "employees" ->
        @calc_general (cpython error_text repr_str) spec d = Val v)
  /\ (resolve_alias name = "employees" ->
        exists e, @calc_general (cpython error_text repr_str) spec d = Raise e).
Proof.
  intros Hs Hi Hf Hv.
  pose proof (METRICS_forall direct_entry_ok
                ltac:(vm_compute; reflexivity) _ _ Hs) as Hok.
  unfold direct_entry_ok in Hok. rewrite Hi, Hf, String.eqb_refl in Hok.
  apply andb_true_iff in Hok as [Hpct Hgen].
  apply negb_true_iff in Hpct.
  assert (missing_from d (inputs spec) = []) as Hm.
  { apply missing_from_nil. rewrite Hi. intros k [<-|[]]. eauto. }
  assert (forall acc : gmap string pyval,
            @prepare_inputs (cpython error_text repr_str) d [inp] [inp] acc
              = Val (<[safe_name inp := v]> acc)) as Hprep.
  { intros acc. cbn [prepare_inputs].
    rewrite (dict_contains_Some _ _ _ Hv), (dict_getitem_Some _ _ _ Hv).
    reflexivity. }
  split; [|split].
  - rewrite (calculate_metric_evaluates _ _ _ Hs Hm).
    rewrite (direct_reference_calc _ _ _ _ _ Hs Hi Hf Hv).
    cbn [mbind outcome_bind]. rewrite Hpct. cbn [andb mbind outcome_bind].
    rewrite Hi, Hf. cbn [inputs_used_of].
    rewrite (dict_contains_Some _ _ _ Hv), (dict_getitem_Some _ _ _ Hv).
    cbn [mbind outcome_bind try_except]. rewrite insert_empty. reflexivity.
  - intros Hne.
    destruct (String.eqb (resolve_alias name) "employees") eqn:Ee;
      [apply String.eqb_eq in Ee; contradiction|].
    cbn [orb] in Hgen. apply andb_true_iff in Hgen as [Hres Hparse].
    apply negb_true_iff in Hres.
    destruct (parse_source (safe_formula_of spec)) as [e| |] eqn:Ep;
      try discriminate.
    destruct e as [| |x| | | | |]; try discriminate.
    apply String.eqb_eq in Hparse. subst x.
    unfold calc_general. rewrite Hi, Hprep. cbn [mbind outcome_bind].
    change (@py_eval (cpython error_text repr_str)) with python_eval.
    rewrite python_eval_parse, Ep. cbn [mbind outcome_bind eval_expr].
    unfold lookup_name. rewrite (safe_locals_other _ _ Hres).
    rewrite lookup_insert_eq. reflexivity.
  - intros He. rewrite He in Hs.
    assert (METRICS !! "employees"
              = Some {| inputs := ["10K.Employees"]; formula := "10K.Employees";
                        desc := "Full-time headcount" |}) as E
      by (vm_compute; reflexivity).
    rewrite E in Hs. injection Hs as <-. cbn [inputs] in Hi.
    injection Hi as <-.
    unfold calc_general. cbn [inputs]. rewrite Hprep. cbn [mbind outcome_bind].
    change (@py_eval (cpython error_text repr_str)) with python_eval.
    rewrite python_eval_parse.
    assert (parse_source
              (safe_formula_of
                 {| inputs := ["10K.Employees"]; formula := "10K.Employees";
                    desc := "Full-time headcount" |})
            = Raise (InterpExn InvalidSyntax)) as ->
      by (vm_compute; reflexivity).
    cbn [mbind outcome_bind try_except]. eauto.
Qed.

(** [revenue] on a negative value of [is.NetRevenue]: the value comes back
    unchanged, and the general path agrees. *)
Lemma C7_revenue_passes_negative_value :
  (METRICS !! resolve_alias "revenue"
     = Some {| inputs := ["is.NetRevenue"]; formula := "is.NetRevenue";
               desc := "Total top-line sales" |}
   /\ negative_revenue !! "is.NetRevenue" = Some (VInt (-7))
   /\ resolve_alias "revenue" <> "employees")
  /\ @calculate_metric cpython312 "revenue" negative_revenue =
       Val (Calculated "revenue" (VInt (-7)) "is.NetRevenue"
              "Total top-line sales" {[ "is.NetRevenue" := VInt (-7) ]})
  /\ @calc_general cpython312
       {| inputs := ["is.NetRevenue"]; formula := "is.NetRevenue";
          desc := "Total top-line sales" |} negative_revenue = Val (VInt (-7)).
Proof.
  assert (METRICS !! resolve_alias "revenue"
     = Some {| inputs := ["is.NetRevenue"]; formula := "is.NetRevenue";
               desc := "Total top-line sales" |}) as Hs by (vm_compute; reflexivity).
  assert (negative_revenue !! "is.NetRevenue" = Some (VInt (-7))) as Hv
    by (vm_compute; reflexivity).
  assert (resolve_alias "revenue" <> "employees") as Hne
    by (vm_compute; discriminate).
  split; [repeat split; assumption|].
  destruct (C7_direct_reference_passthrough CPython312.error_text
              CPython312.repr_str "revenue" negative_revenue _ "is.NetRevenue"
              (VInt (-7)) Hs eq_refl eq_refl Hv) as (Hcalc & Hgen & _).
  split; [exact Hcalc | exact (Hgen Hne)].
Defined.

(** ** Further properties of the sanitization *)

Lemma chars_app a b : chars (a +:+ b) = chars a ++ chars b.
Proof.
  unfold chars. induction a as [|c a IH]; simpl; [reflexivity | f_equal; exact IH].
Qed.

Lemma prefix_empty s : String.prefix "" s = true.
Proof. destruct s; reflexivity. Qed.

Lemma prefix_char c ch s : String.prefix (String c "") (String ch s) = Ascii.eqb c ch.
Proof.
  cbn. rewrite prefix_empty. destruct (ascii_dec c ch) as [->|n].
  - symmetry. apply Ascii.eqb_refl.
  - symmetry. apply Ascii.eqb_neq. exact n.
Qed.

(** Replacing a single character works character by character. *)
Lemma replace_char_cons c new ch s :
  PyStr.replace (String ch s) (String c "") new =
    if Ascii.eqb c ch then new +:+ PyStr.replace s (String c "") new
    else String ch (PyStr.replace s (String c "") new).
Proof.
  unfold PyStr.replace. cbn [PyStr.replace_scan]. rewrite prefix_char.
  reflexivity.
Qed.

Lemma replace_char_chars c new s x :
  In x (chars (PyStr.replace s (String c "") new)) ->
  In x (chars new) \/ (In x (chars s) /\ x <> c).
Proof.
  induction s as [|ch s IH].
  - cbn. tauto.
  - rewrite replace_char_cons. destruct (Ascii.eqb c ch) eqn:E.
    + rewrite chars_app, in_app_iff. intros [H|H]; [left; exact H|].
      destruct (IH H) as [H'|[H' Hne]]; [left; exact H'|].
      right. split; [right; exact H' | exact Hne].
    + apply Ascii.eqb_neq in E. cbn. intros [H|H].
      * right. split; [left; exact H | congruence].
      * destruct (IH H) as [H'|[H' Hne]]; [left; exact H'|].
        right. split; [right; exact H' | exact Hne].
Qed.

Lemma replace_char_absent c new s :
  ~ In c (chars s) -> PyStr.replace s (String c "") new = s.
Proof.
  induction s as [|ch s IH]; intros H.
  - reflexivity.
  - rewrite replace_char_cons. destruct (Ascii.eqb c ch) eqn:E.
    + apply Ascii.eqb_eq in E. subst. exfalso. apply H. left. reflexivity.
    + f_equal. apply IH. intros C. apply H. right. exact C.
Qed.

Lemma is_unsafe_char_false x :
  is_unsafe_char x = false <-> x <> "."%char /\ x <> "&"%char /\ x <> "-"%char.
Proof.
  unfold is_unsafe_char. cbn [existsb]. rewrite orb_false_r, !orb_false_iff.
  rewrite !Ascii.eqb_neq. tauto.
Qed.

Lemma safe_name_chars inp x :
  In x (chars (safe_name inp)) ->
  is_unsafe_char x = false /\ (PyExpr.is_word_char x = true \/ In x (chars inp)).
Proof.
  unfold safe_name. intros H.
  apply replace_char_chars in H as [H|[H H3]].
  { destruct H as [<-|[]]. split; [reflexivity | left; reflexivity]. }
  apply replace_char_chars in H as [H|[H H2]].
  { destruct H as [<-|[<-|[<-|[]]]]; (split; [reflexivity | left; reflexivity]). }
  apply replace_char_chars in H as [H|[H H1]].
  { destruct H as [<-|[]]. split; [reflexivity | left; reflexivity]. }
  split; [|right; exact H]. apply is_unsafe_char_false. auto.
Qed.

Lemma safe_name_identity s :
  (forall x, In x (chars s) -> is_unsafe_char x = false) -> safe_name s = s.
Proof.
  intros H. unfold safe_name.
  assert (forall c, is_unsafe_char c = true -> ~ In c (chars s)) as Habs.
  { intros c Hc Hin. rewrite (H c Hin) in Hc. discriminate. }
  rewrite (replace_char_absent "." "_" s) by (apply Habs; reflexivity).
  rewrite (replace_char_absent "&" "and" s) by (apply Habs; reflexivity).
  apply replace_char_absent, Habs. reflexivity.
Qed.

Lemma safe_chars_forallb s :
  forallb (fun c => negb (is_unsafe_char c)) (chars s) = true <->
  forall x, In x (chars s) -> is_unsafe_char x = false.
Proof.
  rewrite forallb_forall. split; intros H x Hx.
  - apply negb_true_iff, H, Hx.
  - apply negb_true_iff, H, Hx.
Qed.

(** X1.  Whatever the input identifier, its safe token holds none of the
    characters [.], [&] and [-]; each of its characters is a letter or an
    underscore that the rewriting put in, or a character of the
    identifier. *)
Theorem safe_name_has_no_unsafe_char (inp : string) :
  Forall (fun c => is_unsafe_char c = false
                   /\ (PyExpr.is_word_char c = true \/ In c (chars inp)))
         (chars (safe_name inp)).
Proof. apply List.Forall_forall. intros x Hx. apply safe_name_chars, Hx. Qed.

(** X2.  The identifiers [safe_name] leaves unchanged are exactly those
    without [.], [&] and [-]; hence sanitizing twice is sanitizing once. *)
Theorem safe_name_fixed_points (s : string) :
  (safe_name s = s <-> forallb (fun c => negb (is_unsafe_char c)) (chars s) = true)
  /\ safe_name (safe_name s) = safe_name s.
Proof.
  split.
  - rewrite safe_chars_forallb. split.
    + intros E x Hx. rewrite <- E in Hx. apply (safe_name_chars _ _ Hx).
    + apply safe_name_identity.
  - apply safe_name_identity. intros x Hx. apply (safe_name_chars _ _ Hx).
Qed.

Lemma safe_name_fixed_points_witness :
  (safe_name "revenue_t" = "revenue_t"
   <-> forallb (fun c => negb (is_unsafe_char c)) (chars "revenue_t") = true)
  /\ safe_name (safe_name "is.D&A") = safe_name "is.D&A".
Proof. exact (conj (proj1 (safe_name_fixed_points "revenue_t"))
                   (proj2 (safe_name_fixed_points "is.D&A"))). Defined.

Lemma rewrite_formula_identity inps f :
  (forall inp, In inp inps -> safe_name inp = inp) -> rewrite_formula inps f = f.
Proof.
  induction inps as [|inp rest IH]; intros H; cbn [rewrite_formula].
  - reflexivity.
  - rewrite (H inp) by (left; reflexivity). rewrite String.eqb_refl.
    apply IH. intros x Hx. apply H. right. exact Hx.
Qed.

(** X3.  For a metric none of whose input identifiers holds [.], [&] or
    [-], the formula handed to [eval] is the formula of the registry,
    character for character. *)
Theorem formula_unchanged_without_unsafe_chars (spec : MetricSpec) :
  (forall inp c, In inp (inputs spec) -> In c (chars inp) -> is_unsafe_char c = false) ->
  safe_formula_of spec = formula spec.
Proof.
  intros H. apply rewrite_formula_identity. intros inp Hin.
  apply safe_name_identity. intros x Hx. exact (H inp x Hin Hx).
Qed.

Lemma formula_unchanged_without_unsafe_chars_witness :
  safe_formula_of {| inputs := ["revenue"; "cogs"]; formula := "revenue - cogs";
                     desc := "Revenue minus COGS" |} = "revenue - cogs".
Proof.
  apply (formula_unchanged_without_unsafe_chars
           {| inputs := ["revenue"; "cogs"]; formula := "revenue - cogs";
              desc := "Revenue minus COGS" |}).
  intros inp c [<-|[<-|[]]] Hc; cbn in Hc;
    repeat (destruct Hc as [<-|Hc]; [reflexivity|]); destruct Hc.
Defined.

(** ** Further properties of [calc] and [calculate_metric] *)

Section CalcFacts.
Context `{R : PyRuntime}.

Lemma prepare_inputs_missing (d : gmap string pyval) all inps :
  forall acc,
    (exists x, In x inps /\ d !! x = None) ->
    prepare_inputs d all inps acc =
      Raise (ValueError ("Missing values for inputs: "
                         +:+ str_list (missing_from d all))).
Proof.
  induction inps as [|inp rest IH]; intros acc (x & Hin & Hx).
  - destruct Hin.
  - cbn [prepare_inputs]. destruct (d !! inp) as [v|] eqn:E.
    + rewrite (dict_contains_Some _ _ _ E), (dict_getitem_Some _ _ _ E).
      cbn [negb mbind outcome_bind]. apply IH. exists x. split; [|exact Hx].
      destruct Hin as [->|Hin]; [congruence | exact Hin].
    + rewrite (dict_contains_None _ _ E). reflexivity.
Qed.

Lemma missing_from_witness (d : gmap string pyval) inps :
  missing_from d inps <> [] -> exists x, In x inps /\ d !! x = None.
Proof.
  intros H. destruct (missing_from d inps) as [|x l] eqn:E; [congruence|].
  exists x. apply missing_from_spec. rewrite E. left. reflexivity.
Qed.

Lemma calc_before_evaluation (metrics_dict : gmap string MetricSpec) key d :
  match metrics_dict !! key with
  | None => calc metrics_dict key d = Raise (KeyError key)
  | Some spec =>
      missing_from d (inputs spec) <> [] ->
      calc metrics_dict key d =
        Raise (ValueError
          (if is_direct_reference spec
           then "Missing value for input: " +:+ hd "" (inputs spec)
           else "Missing values for inputs: "
                +:+ str_list (missing_from d (inputs spec))))
  end.
Proof.
  unfold calc.
  destruct (metrics_dict !! key) as [spec|] eqn:E;
    [|unfold dict_getitem; rewrite E; reflexivity].
  intros Hm. rewrite (dict_getitem_Some _ _ _ E). cbn [mbind outcome_bind].
  destruct (is_direct_reference spec) eqn:Ed.
  - unfold is_direct_reference in Ed.
    destruct (inputs spec) as [|inp [|]] eqn:Ei; try discriminate. cbn [hd].
    destruct (missing_from_witness _ _ Hm) as (x & [<-|[]] & Hx).
    rewrite (dict_contains_None _ _ Hx). reflexivity.
  - unfold calc_general.
    rewrite (prepare_inputs_missing d (inputs spec) (inputs spec) ∅
               (missing_from_witness _ _ Hm)).
    reflexivity.
Qed.

Lemma dict_contains_agree (d d' : gmap string pyval) k :
  d !! k = d' !! k -> dict_contains d k = dict_contains d' k.
Proof. intros H. unfold dict_contains. rewrite H. reflexivity. Qed.

Lemma dict_getitem_agree (d d' : gmap string pyval) k :
  d !! k = d' !! k -> dict_getitem d k = dict_getitem d' k.
Proof. intros H. unfold dict_getitem. rewrite H. reflexivity. Qed.

Lemma missing_from_agree (d d' : gmap string pyval) inps :
  (forall x, In x inps -> d !! x = d' !! x) ->
  missing_from d inps = missing_from d' inps.
Proof.
  intros H. unfold missing_from. apply List.filter_ext_in. intros x Hx.
  rewrite (dict_contains_agree d d' x (H x Hx)). reflexivity.
Qed.

Lemma prepare_inputs_agree (d d' : gmap string pyval) all inps :
  missing_from d all = missing_from d' all ->
  forall acc,
    (forall x, In x inps -> d !! x = d' !! x) ->
    prepare_inputs d all inps acc = prepare_inputs d' all inps acc.
Proof.
  intros Hall. induction inps as [|inp rest IH]; intros acc H.
  - reflexivity.
  - cbn [prepare_inputs].
    rewrite (dict_contains_agree d d' inp), (dict_getitem_agree d d' inp), Hall
      by (apply H; left; reflexivity).
    destruct (negb (dict_contains d' inp)); [reflexivity|].
    destruct (dict_getitem d' inp); cbn [mbind outcome_bind]; try reflexivity.
    apply IH. intros x Hx. apply H. right. exact Hx.
Qed.

Lemma inputs_used_of_agree (d d' : gmap string pyval) inps :
  forall acc,
    (forall x, In x inps -> d !! x = d' !! x) ->
    inputs_used_of d inps acc = inputs_used_of d' inps acc.
Proof.
  induction inps as [|inp rest IH]; intros acc H.
  - reflexivity.
  - cbn [inputs_used_of].
    rewrite (dict_contains_agree d d' inp), (dict_getitem_agree d d' inp)
      by (apply H; left; reflexivity).
    destruct (dict_contains d' inp).
    + destruct (dict_getitem d' inp); cbn [mbind outcome_bind]; try reflexivity.
      apply IH. intros x Hx. apply H. right. exact Hx.
    + apply IH. intros x Hx. apply H. right. exact Hx.
Qed.

Lemma calc_agree (metrics_dict : gmap string MetricSpec) key d d' :
  (forall spec inp, metrics_dict !! key = Some spec -> In inp (inputs spec) ->
     d !! inp = d' !! inp) ->
  calc metrics_dict key d = calc metrics_dict key d'.
Proof.
  intros H. unfold calc.
  destruct (metrics_dict !! key) as [spec|] eqn:E;
    [|unfold dict_getitem; rewrite E; reflexivity].
  rewrite (dict_getitem_Some _ _ _ E). cbn [mbind outcome_bind]. specialize (H spec).
  destruct (is_direct_reference spec).
  - destruct (inputs spec) as [|inp rest]; [reflexivity|].
    rewrite (dict_contains_agree d d' inp), (dict_getitem_agree d d' inp)
      by (apply H; [reflexivity | left; reflexivity]).
    reflexivity.
  - unfold calc_general.
    rewrite (prepare_inputs_agree d d' (inputs spec) (inputs spec)); [reflexivity| |].
    + apply missing_from_agree. intros x Hx. apply H; [reflexivity | exact Hx].
    + intros x Hx. apply H; [reflexivity | exact Hx].
Qed.

Lemma calculate_metric_agree name d d' :
  (forall spec inp, METRICS !! resolve_alias name = Some spec ->
     In inp (inputs spec) -> d !! inp = d' !! inp) ->
  calculate_metric name d = calculate_metric name d'.
Proof.
  intros H. unfold calculate_metric.
  destruct (METRICS !! resolve_alias name) as [spec|] eqn:E.
  - rewrite (dict_contains_Some _ _ _ E), (dict_getitem_Some _ _ _ E).
    cbn [negb mbind outcome_bind].
    assert (forall x, In x (inputs spec) -> d !! x = d' !! x) as Hin
      by (intros x Hx; apply (H spec x eq_refl Hx)).
    rewrite (missing_from_agree d d' _ Hin).
    rewrite (calc_agree METRICS (resolve_alias name) d d').
    + rewrite (inputs_used_of_agree d d' _ ∅ Hin). reflexivity.
    + intros s x Hs Hx. rewrite E in Hs. injection Hs as <-. apply Hin, Hx.
  - rewrite (dict_contains_None _ _ E). reflexivity.
Qed.

Lemma calculated_provenance name d m v f ds used :
  calculate_metric name d = Val (Calculated m v f ds used) ->
  exists spec,
    METRICS !! m = Some spec
    /\ m = resolve_alias name /\ f = formula spec /\ ds = desc spec
    /\ (forall inp, In inp (inputs spec) -> is_Some (d !! inp))
    /\ (forall k, used !! k = if bool_decide (k ∈ inputs spec) then d !! k else None).
Proof.
  intros H. unfold calculate_metric in H.
  destruct (METRICS !! resolve_alias name) as [spec|] eqn:E.
  - rewrite (dict_contains_Some _ _ _ E), (dict_getitem_Some _ _ _ E) in H.
    cbn [negb mbind outcome_bind] in H.
    destruct (inputs_used_of_restricts d (inputs spec)) as (u & Eu & Hu).
    rewrite Eu in H. clear Eu.
    generalize dependent (calc METRICS (resolve_alias name) d). intros c H.
    generalize dependent (missing_from_nil d (inputs spec)).
    generalize dependent (missing_from d (inputs spec)). intros missing H Hnil.
    destruct missing as [|x l]; cbn [length Nat.eqb negb] in H; [|discriminate H].
    destruct c as [raw|e|]; cbn [mbind outcome_bind try_except] in H;
      [|discriminate H|discriminate H].
    generalize dependent (PyStr.endswith (resolve_alias name) "_pct"
                          && negb (isinstance_str raw)). intros b H.
    generalize dependent (binary Mul raw (VInt 100)). intros scaled H.
    assert (exists r, Val (Calculated (resolve_alias name) r (formula spec)
                             (desc spec) u) = Val (Calculated m v f ds used)) as [r Hr].
    { destruct b; [destruct scaled as [r|e|] | ];
        cbn [mbind outcome_bind try_except] in H;
        try discriminate H; eexists; exact H. }
    injection Hr as <- <- <- <- <-. pose proof (proj1 Hnil eq_refl) as Hall.
    exists spec. repeat split; assumption.
  - rewrite (dict_contains_None _ _ E) in H. discriminate H.
Qed.

Lemma unknown_metric_iff name d e :
  calculate_metric name d = Val (UnknownMetric e) <->
  METRICS !! resolve_alias name = None
  /\ e = "Unknown metric '" +:+ resolve_alias name +:+ "'".
Proof.
  unfold calculate_metric.
  destruct (METRICS !! resolve_alias name) as [spec|] eqn:E.
  - rewrite (dict_contains_Some _ _ _ E), (dict_getitem_Some _ _ _ E).
    cbn [negb mbind outcome_bind]. split; [|intros [? _]; discriminate].
    intros H. exfalso.
    destruct (inputs_used_of_restricts d (inputs spec)) as (u & Eu & _).
    rewrite Eu in H. clear Eu.
    generalize dependent (calc METRICS (resolve_alias name) d). intros c H.
    generalize dependent (missing_from d (inputs spec)). intros missing H.
    destruct missing as [|x l]; cbn [length Nat.eqb negb] in H; [|discriminate H].
    destruct c as [raw|x|]; cbn [mbind outcome_bind try_except] in H;
      [|discriminate H|discriminate H].
    generalize dependent (PyStr.endswith (resolve_alias name) "_pct"
                          && negb (isinstance_str raw)). intros b H.
    generalize dependent (binary Mul raw (VInt 100)). intros scaled H.
    destruct b; [destruct scaled as [r|x|] | ];
      cbn [mbind outcome_bind try_except] in H; discriminate H.
  - rewrite (dict_contains_None _ _ E). cbn [negb]. split.
    + intros H. injection H as <-. split; reflexivity.
    + intros [_ ->]. reflexivity.
Qed.

End CalcFacts.

Lemma definition_unknown_iff name e :
  get_metric_definition name = Val (DefinitionUnknown e) <->
  METRICS !! resolve_alias name = None
  /\ e = "Unknown metric '" +:+ resolve_alias name +:+ "'".
Proof.
  rewrite get_metric_definition_resolves.
  destruct (METRICS !! resolve_alias name) as [spec|] eqn:E.
  - rewrite (dict_contains_Some _ _ _ E), (dict_getitem_Some _ _ _ E).
    cbn [negb mbind outcome_bind]. split; [discriminate | intros [? _]; discriminate].
  - rewrite (dict_contains_None _ _ E). cbn [negb]. split.
    + intros H. injection H as <-. split; reflexivity.
    + intros [_ ->]. reflexivity.
Qed.

Lemma alias_targets_registered a c :
  METRIC_ALIASES !! a = Some c -> is_Some (METRICS !! c).
Proof.
  intros H.
  pose proof (ALIASES_forall (fun _ c => dict_contains METRICS c)
                ltac:(vm_compute; reflexivity) a c H) as Hc.
  apply dict_contains_true in Hc. exact Hc.
Qed.

Lemma registry_keys_canonical name spec :
  METRICS !! name = Some spec -> resolve_alias name = name.
Proof.
  intros H.
  pose proof (METRICS_forall (fun n _ => negb (dict_contains METRIC_ALIASES n))
                ltac:(vm_compute; reflexivity) name spec H) as Hc.
  cbv beta in Hc. apply negb_true_iff, dict_contains_false in Hc.
  unfold resolve_alias, resolve_in. rewrite Hc. reflexivity.
Qed.

(** X4.  [calc] raises before anything is evaluated, whatever the
    interpreter: a [KeyError] for a key that is not in the dict it is
    given, and for a known key with an input that the data lack a
    [ValueError] that names the input of a direct reference, or lists all
    missing inputs of any other formula. *)
Theorem calc_raises_before_evaluation (R : PyRuntime)
    (metrics_dict : gmap string MetricSpec) (key : string) (d : gmap string pyval) :
  (metrics_dict !! key = None -> calc metrics_dict key d = Raise (KeyError key))
  /\ (forall spec, metrics_dict !! key = Some spec ->
        missing_from d (inputs spec) <> [] ->
        calc metrics_dict key d =
          Raise (ValueError
            (if is_direct_reference spec
             then "Missing value for input: " +:+ hd "" (inputs spec)
             else "Missing values for inputs: "
                  +:+ str_list (missing_from d (inputs spec))))).
Proof.
  pose proof (calc_before_evaluation metrics_dict key d) as H.
  split.
  - intros E. rewrite E in H. exact H.
  - intros spec E. rewrite E in H. exact H.
Qed.

Lemma calc_raises_before_evaluation_witness :
  @calc cpython312 METRICS "no_such_metric" revenue_only = Raise (KeyError "no_such_metric")
  /\ @calc cpython312 METRICS "gross_profit" revenue_only
     = Raise (ValueError "Missing values for inputs: ['cogs']")
  /\ @calc cpython312 METRICS "cogs" revenue_only
     = Raise (ValueError "Missing value for input: is.CostOfRevenue").
Proof.
  split; [|split].
  - apply (proj1 (calc_raises_before_evaluation cpython312 METRICS "no_such_metric"
                    revenue_only)).
    vm_compute. reflexivity.
  - apply (proj2 (calc_raises_before_evaluation cpython312 METRICS "gross_profit"
                    revenue_only)
             {| inputs := ["revenue"; "cogs"]; formula := "revenue - cogs";
                desc := "Revenue minus COGS" |}).
    + vm_compute. reflexivity.
    + vm_compute. discriminate.
  - apply (proj2 (calc_raises_before_evaluation cpython312 METRICS "cogs" revenue_only)
             {| inputs := ["is.CostOfRevenue"]; formula := "is.CostOfRevenue";
                desc := "Cost of goods / services" |}).
    + vm_compute. reflexivity.
    + vm_compute. discriminate.
Defined.

(** X5.  The result of [calculate_metric] depends on the data only
    through the direct inputs of the metric: two datasets that agree on
    them give the same result, whatever else they hold. *)
Theorem calculate_metric_reads_direct_inputs_only (R : PyRuntime)
    (name : string) (d d' : gmap string pyval) :
  (forall spec inp, METRICS !! resolve_alias name = Some spec ->
     In inp (inputs spec) -> d !! inp = d' !! inp) ->
  calculate_metric name d = calculate_metric name d'
  /\ calc METRICS (resolve_alias name) d = calc METRICS (resolve_alias name) d'.
Proof.
  intros H. split; [apply calculate_metric_agree, H | apply calc_agree, H].
Qed.

Lemma calculate_metric_reads_direct_inputs_only_witness :
  @calculate_metric cpython312 "fcf" cash_flows
    = @calculate_metric cpython312 "fcf" cash_flows_and_more
  /\ @calc cpython312 METRICS (resolve_alias "fcf") cash_flows
     = @calc cpython312 METRICS (resolve_alias "fcf") cash_flows_and_more.
Proof.
  apply (calculate_metric_reads_direct_inputs_only cpython312 "fcf"
           cash_flows cash_flows_and_more).
  intros spec inp Hs Hin.
  assert (METRICS !! resolve_alias "fcf"
            = Some {| inputs := ["cfo"; "capex"]; formula := "cfo - capex";
                      desc := "CFO minus capex" |}) as E by (vm_compute; reflexivity).
  rewrite E in Hs. injection Hs as <-.
  destruct Hin as [<-|[<-|[]]]; vm_compute; reflexivity.
Defined.

(** X6.  A successful result tells where it comes from: it is filed under
    the canonical name of a registered metric, carries the formula and the
    description of the registry, was computed with every direct input
    present, and its [inputs_used] is the dataset restricted to those
    inputs. *)
Theorem calculated_result_provenance (R : PyRuntime) (name : string)
    (d : gmap string pyval) (m : string) (v : pyval) (f ds : string)
    (used : gmap string pyval) :
  calculate_metric name d = Val (Calculated m v f ds used) ->
  exists spec,
    METRICS !! m = Some spec
    /\ m = resolve_alias name /\ f = formula spec /\ ds = desc spec
    /\ (forall inp, In inp (inputs spec) -> is_Some (d !! inp))
    /\ (forall k, used !! k = if bool_decide (k ∈ inputs spec) then d !! k else None).
Proof. apply calculated_provenance. Qed.

Lemma calculated_result_provenance_witness :
  exists spec,
    METRICS !! "free_cash_flow" = Some spec
    /\ "free_cash_flow" = resolve_alias "fcf"
    /\ "cfo - capex" = formula spec /\ "CFO minus capex" = desc spec
    /\ (forall inp, In inp (inputs spec) -> is_Some (cash_flows_and_more !! inp))
    /\ (forall k, cash_flows !! k
                  = if bool_decide (k ∈ inputs spec) then cash_flows_and_more !! k
                    else None).
Proof.
  apply (calculated_result_provenance cpython312 "fcf" cash_flows_and_more
           "free_cash_flow" (VInt 75) "cfo - capex" "CFO minus capex" cash_flows).
  vm_compute. reflexivity.
Defined.

(** X7.  No alias dangles: every alias names a registered metric, so for
    an alias [calculate_metric] never answers that the metric is unknown,
    and [get_metric_definition] returns the definition of the metric under
    its canonical name, marked as an alias and with the alias as
    [original_name]. *)
Theorem alias_is_never_unknown (R : PyRuntime) (a c : string) (d : gmap string pyval) :
  METRIC_ALIASES !! a = Some c ->
  exists spec,
    METRICS !! c = Some spec
    /\ (forall e, calculate_metric a d <> Val (UnknownMetric e))
    /\ get_metric_definition a =
         Val (DefinitionFound c (Some a) (desc spec) (formula spec) (inputs spec) true).
Proof.
  intros Ha. destruct (alias_targets_registered a c Ha) as [spec Hs].
  assert (resolve_alias a = c) as Hr.
  { unfold resolve_alias, resolve_in. rewrite Ha. reflexivity. }
  exists spec. split; [exact Hs|]. split.
  - intros e He. apply unknown_metric_iff in He as [Hn _].
    rewrite Hr in Hn. congruence.
  - rewrite get_metric_definition_resolves, Hr.
    rewrite (dict_contains_Some _ _ _ Hs), (dict_getitem_Some _ _ _ Hs).
    rewrite (dict_contains_Some _ _ _ Ha). reflexivity.
Qed.

Lemma alias_is_never_unknown_witness :
  exists spec,
    METRICS !! "price_earnings" = Some spec
    /\ (forall e, @calculate_metric cpython312 "pe" ∅ <> Val (UnknownMetric e))
    /\ get_metric_definition "pe" =
         Val (DefinitionFound "price_earnings" (Some "pe") (desc spec) (formula spec)
                (inputs spec) true).
Proof.
  apply (alias_is_never_unknown cpython312 "pe" "price_earnings" ∅).
  vm_compute. reflexivity.
Defined.

(** X8.  [calculate_metric] and [get_metric_definition] agree on the names
    they do not know: one answers "Unknown metric" exactly when the other
    does, with the same text, which quotes the name after the resolution
    of aliases; this happens exactly for the names that resolve to no key
    of the registry, whatever the data. *)
Theorem unknown_names_agree (R : PyRuntime) (name : string) (d : gmap string pyval)
    (e : string) :
  (calculate_metric name d = Val (UnknownMetric e)
   <-> get_metric_definition name = Val (DefinitionUnknown e))
  /\ (calculate_metric name d = Val (UnknownMetric e)
      <-> METRICS !! resolve_alias name = None
          /\ e = "Unknown metric '" +:+ resolve_alias name +:+ "'").
Proof.
  split; [|apply unknown_metric_iff].
  rewrite unknown_metric_iff, definition_unknown_iff. reflexivity.
Qed.

Lemma unknown_names_agree_witness :
  @calculate_metric cpython312 "ebitdax" ∅ = Val (UnknownMetric "Unknown metric 'ebitdax'")
  /\ get_metric_definition "ebitdax" = Val (DefinitionUnknown "Unknown metric 'ebitdax'").
Proof.
  assert (@calculate_metric cpython312 "ebitdax" ∅
            = Val (UnknownMetric "Unknown metric 'ebitdax'")) as H
    by (vm_compute; reflexivity).
  split; [exact H|].
  apply (proj1 (proj1 (unknown_names_agree cpython312 "ebitdax" ∅
                         "Unknown metric 'ebitdax'"))).
  exact H.
Defined.

(** ** Sums, differences and products of two inputs *)

Lemma op_symbol_inj o op : op_symbol o = op_symbol op -> o = op.
Proof. destruct o, op; cbn; intros H; try reflexivity; discriminate H. Qed.

Lemma binary_entries_checked name spec :
  METRICS !! name = Some spec -> binary_entry_ok name spec = true.
Proof. apply (METRICS_forall binary_entry_ok). vm_compute. reflexivity. Qed.

Lemma binary_formula_on_ints error_text repr_str name spec x y op a b d :
  METRICS !! name = Some spec ->
  inputs spec = [x; y] ->
  In op [Add; Sub; Mul] ->
  formula spec = x +:+ " " +:+ op_symbol op +:+ " " +:+ y ->
  d !! x = Some (VInt a) -> d !! y = Some (VInt b) ->
  exists used,
    @calculate_metric (cpython error_text repr_str) name d =
      Val (Calculated name (VInt (int_result op a b)) (formula spec) (desc spec) used)
    /\ forall k, used !! k = if bool_decide (k ∈ [x; y]) then d !! k else None.
Proof.
  intros Hs Hi Hop Hf Hx Hy.
  pose proof (binary_entries_checked name spec Hs) as Hok.
  unfold binary_entry_ok in Hok. rewrite Hi in Hok.
  rewrite forallb_forall in Hok. specialize (Hok op Hop).
  rewrite Hf, String.eqb_refl in Hok.
  repeat (apply andb_true_iff in Hok as [Hok ?]).
  apply negb_true_iff, String.eqb_neq in Hok.
  match goal with H : negb (mem_string (safe_name x) _) = true |- _ =>
    apply negb_true_iff in H; rename H into Hrx end.
  match goal with H : negb (mem_string (safe_name y) _) = true |- _ =>
    apply negb_true_iff in H; rename H into Hry end.
  match goal with H : negb (PyStr.endswith name _) = true |- _ =>
    apply negb_true_iff in H; rename H into Hpct end.
  match goal with H : parses_as_binary _ _ _ _ = true |- _ => rename H into Hp end.
  unfold parses_as_binary in Hp.
  destruct (parse_source (safe_formula_of spec)) as [e| |] eqn:Ep; try discriminate Hp.
  destruct e as [| | |o l r| | | |]; try discriminate Hp.
  destruct l as [| |xa| | | | |]; try discriminate Hp.
  destruct r as [| |yb| | | | |]; try discriminate Hp.
  apply andb_true_iff in Hp as [Hp Hyb]. apply andb_true_iff in Hp as [Ho Hxa].
  apply String.eqb_eq in Ho, Hxa, Hyb. apply op_symbol_inj in Ho. subst o xa yb.
  pose proof (registry_keys_canonical name spec Hs) as Hr.
  assert (forall k, In k (inputs spec) -> is_Some (d !! k)) as Hall.
  { rewrite Hi. intros k [<-|[<-|[]]]; eauto. }
  destruct (prepare_inputs_lookup (R := cpython error_text repr_str)
              d (inputs spec) (inputs spec) ∅) as (iv & Eiv & Hin & _).
  { exact Hall. }
  { rewrite Hi. cbn [map]. apply NoDup_cons. split; [|apply NoDup_singleton].
    intros C. apply list_elem_of_singleton in C. contradiction. }
  destruct (inputs_used_of_restricts (R := cpython error_text repr_str) d (inputs spec))
    as (used & Eu & Hu).
  exists used. split; [|rewrite <- Hi; exact Hu].
  rewrite (calculate_metric_evaluates name d spec);
    [|rewrite Hr; exact Hs|apply missing_from_nil; exact Hall].
  rewrite Hr. rewrite Hpct. cbn [andb].
  assert (@calc (cpython error_text repr_str) METRICS name d
            = Val (VInt (int_result op a b))) as Hcalc.
  { unfold calc. rewrite (dict_getitem_Some _ _ _ Hs). cbn [mbind outcome_bind].
    assert (is_direct_reference spec = false) as ->
      by (unfold is_direct_reference; rewrite Hi; reflexivity).
    unfold calc_general. rewrite Eiv. cbn [mbind outcome_bind].
    change (@py_eval (cpython error_text repr_str)) with python_eval.
    rewrite python_eval_parse, Ep. cbn [mbind outcome_bind eval_expr].
    unfold lookup_name.
    rewrite (safe_locals_other _ _ Hrx), (safe_locals_other _ _ Hry).
    pose proof (Hin x ltac:(rewrite Hi; cbn; auto)) as Hlx.
    pose proof (Hin y ltac:(rewrite Hi; cbn; auto)) as Hly.
    rewrite Hx in Hlx. rewrite Hy in Hly. rewrite Hlx, Hly.
    cbn [mbind outcome_bind binary].
    destruct Hop as [<-|[<-|[<-|[]]]]; reflexivity. }
  rewrite Hcalc. cbn [mbind outcome_bind]. rewrite Eu. reflexivity.
Qed.

(** X9.  A metric whose formula is the sum, the difference or the product
    of its two inputs ([gross_profit], [free_cash_flow], [ebitda],
    [market_cap], ...) is computed exactly on ints of any size: the value
    is the int [a + b], [a - b] or [a * b], not a rounded float. *)
Theorem integer_formulas_are_exact (error_text : interp_error -> string)
    (repr_str : string -> string) (name : string) (spec : MetricSpec)
    (x y : string) (op : binop) (a b : Z) (d : gmap string pyval) :
  METRICS !! name = Some spec ->
  inputs spec = [x; y] ->
  In op [Add; Sub; Mul] ->
  formula spec = x +:+ " " +:+ op_symbol op +:+ " " +:+ y ->
  d !! x = Some (VInt a) -> d !! y = Some (VInt b) ->
  exists used,
    @calculate_metric (cpython error_text repr_str) name d =
      Val (Calculated name (VInt (int_result op a b)) (formula spec) (desc spec) used)
    /\ forall k, used !! k = if bool_decide (k ∈ [x; y]) then d !! k else None.
Proof. apply binary_formula_on_ints. Qed.

Lemma integer_formulas_are_exact_witness :
  exists used,
    @calculate_metric cpython312 "ebitda"
      (<["operating_income" := VInt (2 ^ 80)]> {[ "is.D&A" := VInt 1 ]}) =
      Val (Calculated "ebitda" (VInt (2 ^ 80 + 1)) "operating_income + is.D&A"
             "EBIT + depreciation & amort." used)
    /\ forall k, used !! k =
         if bool_decide (k ∈ ["operating_income"; "is.D&A"])
         then (<["operating_income" := VInt (2 ^ 80)]> {[ "is.D&A" := VInt 1 ]}
                 : gmap string pyval) !! k
         else None.
Proof.
  apply (integer_formulas_are_exact CPython312.error_text CPython312.repr_str "ebitda"
           {| inputs := ["operating_income"; "is.D&A"];
              formula := "operating_income + is.D&A";
              desc := "EBIT + depreciation & amort." |}
           "operating_income" "is.D&A" Add (2 ^ 80) 1).
  - vm_compute. reflexivity.
  - reflexivity.
  - left. reflexivity.
  - reflexivity.
  - vm_compute. reflexivity.
  - vm_compute. reflexivity.
Defined.

(** ** Further properties of [get_metric_requirements] *)

Lemma prefix_first c p s :
  String.prefix (String c p) s = true -> exists s', s = String c s'.
Proof.
  destruct s as [|c' s']; cbn; [discriminate|].
  destruct (ascii_dec c c') as [->|]; [eauto | discriminate].
Qed.

Lemma statement_prefixes_exclusive x :
  (PyStr.startswith x "is." = true ->
     PyStr.startswith x "bs." = false /\ PyStr.startswith x "cf." = false)
  /\ (PyStr.startswith x "bs." = true -> PyStr.startswith x "cf." = false).
Proof.
  unfold PyStr.startswith. split; intros H;
    destruct (prefix_first _ _ _ H) as [s' ->]; [split|]; reflexivity.
Qed.

(** The four comprehensions at the end of [get_metric_requirements] split
    any list. *)
Lemma buckets_partition (l : list string) :
  Permutation
    (List.filter (fun inp => PyStr.startswith inp "is.") l
     ++ List.filter (fun inp => PyStr.startswith inp "bs.") l
     ++ List.filter (fun inp => PyStr.startswith inp "cf.") l
     ++ List.filter (fun inp => negb (is_statement_item inp)) l) l.
Proof.
  induction l as [|x l IH]; [reflexivity|].
  cbn [List.filter]. unfold is_statement_item at 1.
  destruct (statement_prefixes_exclusive x) as [Hi Hb].
  destruct (PyStr.startswith x "is.") eqn:Ei.
  - destruct (Hi eq_refl) as [-> ->]. cbn [orb negb app].
    apply Permutation_cons; [reflexivity | exact IH].
  - destruct (PyStr.startswith x "bs.") eqn:Eb.
    + rewrite (Hb eq_refl). cbn [orb negb].
      symmetry. apply Permutation_cons_app. symmetry. exact IH.
    + destruct (PyStr.startswith x "cf.") eqn:Ec; cbn [orb negb app].
      * rewrite (app_assoc _ _ (x :: _)).
        symmetry. apply Permutation_cons_app. rewrite <- app_assoc.
        symmetry. exact IH.
      * rewrite (app_assoc _ _ (_ ++ x :: _)), (app_assoc _ _ (x :: _)).
        symmetry. apply Permutation_cons_app. rewrite <- !app_assoc.
        symmetry. exact IH.
Qed.

Section RequirementClosure.
Variable registry : gmap string MetricSpec.
Variable aliases : gmap string string.

Lemma needs_step top y x spec :
  needs registry top y -> is_sub_metric registry y = true ->
  registry !! y = Some spec -> In x (inputs spec) -> needs registry top x.
Proof.
  intros Hn. revert x spec.
  induction Hn as [m s y Hm Hy | m s z y Hm Hz Hsz Hn IH]; intros x spec Hs Hl Hx.
  - eapply needs_nested; [exact Hm | exact Hy | exact Hs |].
    eapply needs_input; [exact Hl | exact Hx].
  - eapply needs_nested; [exact Hm | exact Hz | exact Hsz |].
    eapply IH; eauto.
Qed.

Section Soundness.
Variable P : string -> Prop.
Hypothesis P_closed : forall y spec x,
  P y -> is_sub_metric registry y = true -> registry !! y = Some spec ->
  In x (inputs spec) -> P x.

Lemma collect_loop_sound (rec : string -> collect_state -> option collect_state) :
  (forall inp st st', P inp -> is_sub_metric registry inp = true ->
     rec inp st = Some st' ->
     (forall x, x ∈ all_inputs st -> P x) -> forall x, x ∈ all_inputs st' -> P x) ->
  forall inps st st',
    (forall x, In x inps -> P x) ->
    collect_loop registry rec inps st = Some st' ->
    (forall x, x ∈ all_inputs st -> P x) -> forall x, x ∈ all_inputs st' -> P x.
Proof.
  intros Hrec. induction inps as [|inp rest IH]; intros st st' Hin E Hst.
  - cbn in E. injection E as <-. exact Hst.
  - cbn [collect_loop] in E.
    assert (forall x, x ∈ all_inputs (add_input inp st) -> P x) as Hadd.
    { intros x Hx. cbn in Hx. apply elem_of_union in Hx as [Hx|Hx].
      - apply elem_of_singleton in Hx. subst. apply Hin. left. reflexivity.
      - apply Hst, Hx. }
    destruct (is_sub_metric registry inp) eqn:Es.
    + destruct (rec inp (add_input inp st)) as [st1|] eqn:E1; [|discriminate].
      apply (IH st1 st'); [intros x Hx; apply Hin; right; exact Hx | exact E |].
      apply (Hrec inp _ _ (Hin inp (or_introl eq_refl)) Es E1 Hadd).
    + apply (IH (add_input inp st) st');
        [intros x Hx; apply Hin; right; exact Hx | exact E | exact Hadd].
Qed.

Lemma collect_inputs_sound fuel :
  forall metric st st',
    P metric -> is_sub_metric registry metric = true ->
    collect_inputs registry fuel metric st = Some st' ->
    (forall x, x ∈ all_inputs st -> P x) -> forall x, x ∈ all_inputs st' -> P x.
Proof.
  induction fuel as [|k IH]; intros metric st st' Hm Hs E Hst; [discriminate|].
  cbn [collect_inputs] in E.
  destruct (bool_decide (metric ∈ processed_metrics st)
            || negb (dict_contains registry metric)).
  - injection E as <-. exact Hst.
  - destruct (registry !! metric) as [spec|] eqn:El.
    + apply (collect_loop_sound (collect_inputs registry k) IH (inputs spec)
               (mark_processed metric st) st'); [|exact E|exact Hst].
      intros x Hx. exact (P_closed metric spec x Hm Hs El Hx).
    + injection E as <-. exact Hst.
Qed.

Lemma collect_from_sound fuel :
  forall inps st st',
    (forall x, In x inps -> P x) ->
    collect_from registry fuel inps st = Some st' ->
    (forall x, x ∈ all_inputs st -> P x) -> forall x, x ∈ all_inputs st' -> P x.
Proof.
  induction inps as [|inp rest IH]; intros st st' Hin E Hst.
  - cbn in E. injection E as <-. exact Hst.
  - cbn [collect_from] in E.
    destruct (is_sub_metric registry inp) eqn:Es.
    + destruct (collect_inputs registry fuel inp st) as [st1|] eqn:E1; [|discriminate].
      apply (IH st1 st'); [intros x Hx; apply Hin; right; exact Hx | exact E |].
      apply (collect_inputs_sound fuel inp st st1 (Hin inp (or_introl eq_refl)) Es E1 Hst).
    + apply (IH st st'); [intros x Hx; apply Hin; right; exact Hx | exact E | exact Hst].
Qed.

End Soundness.

(** What [get_metric_requirements] returns for a registered metric, in
    terms of the final state of the collection. *)
Lemma requirements_info metric_name i :
  get_metric_requirements registry aliases metric_name = Some (ReqInfo i) ->
  exists spec st',
    registry !! resolve_in aliases metric_name = Some spec
    /\ collect_from registry (S (size registry)) (inputs spec)
         {| all_inputs := list_to_set (inputs spec); processed_metrics := ∅ |} = Some st'
    /\ i = {| req_metric := resolve_in aliases metric_name;
              req_description := desc spec;
              req_formula := formula spec;
              direct_inputs := inputs spec;
              all_required_inputs := elements (all_inputs st');
              income_statement_inputs :=
                List.filter (fun inp => PyStr.startswith inp "is.")
                  (elements (all_inputs st'));
              balance_sheet_inputs :=
                List.filter (fun inp => PyStr.startswith inp "bs.")
                  (elements (all_inputs st'));
              cash_flow_inputs :=
                List.filter (fun inp => PyStr.startswith inp "cf.")
                  (elements (all_inputs st'));
              derived_inputs :=
                List.filter (fun inp => negb (is_statement_item inp))
                  (elements (all_inputs st')) |}.
Proof.
  unfold get_metric_requirements, requirements_with. cbv zeta.
  destruct (registry !! resolve_in aliases metric_name) as [spec|]; [|discriminate].
  destruct (collect_from registry (S (size registry)) (inputs spec) _) as [st'|] eqn:E;
    [|discriminate].
  intros H. injection H as <-. exists spec, st'. auto.
Qed.

Lemma requirements_exact metric_name i :
  get_metric_requirements registry aliases metric_name = Some (ReqInfo i) ->
  forall x, In x (all_required_inputs i)
            <-> needs registry (resolve_in aliases metric_name) x.
Proof.
  intros H. destruct (requirements_info _ _ H) as (spec & st' & Es & E & ->).
  cbn [all_required_inputs].
  set (top := resolve_in aliases metric_name) in *.
  set (st0 := {| all_inputs := list_to_set (inputs spec); processed_metrics := ∅ |}) in *.
  assert (forall x, In x (elements (all_inputs st')) <-> x ∈ all_inputs st') as Hel.
  { intros x. rewrite <- list_elem_of_In. apply elem_of_elements. }
  intros x. rewrite Hel. split.
  - revert x.
    apply (collect_from_sound (needs registry top)
             (fun y s x Hy Hs Hl Hx => needs_step top y x s Hy Hs Hl Hx)
             (S (size registry)) (inputs spec) st0 st').
    + intros x Hx. eapply needs_input; [exact Es | exact Hx].
    + exact E.
    + intros x Hx. cbn [st0 all_inputs] in Hx. apply elem_of_list_to_set in Hx.
      eapply needs_input; [exact Es | apply list_elem_of_In, Hx].
  - destruct (collect_from_returns registry (S (size registry)) (inputs spec) st0)
      as (st1 & E1 & [A Pr C M] & Hsub).
    { unfold remaining. cbn [st0 processed_metrics].
      rewrite difference_empty_L, size_dom. lia. }
    rewrite E in E1. injection E1 as <-.
    cbn [st0 all_inputs processed_metrics] in *.
    assert (forall x, In x (inputs spec) -> x ∈ all_inputs st') as Hdirect.
    { intros y Hy. apply A, elem_of_list_to_set, list_elem_of_In, Hy. }
    assert (forall m mspec y, m ∈ all_inputs st' ->
              is_sub_metric registry m = true -> registry !! m = Some mspec ->
              In y (inputs mspec) -> y ∈ all_inputs st') as Hclosed.
    { intros m mspec y Hm Hs Hl Hy.
      assert (m ∈ processed_metrics st') as Hp.
      { destruct (decide (m ∈ (list_to_set (inputs spec) : gset string))) as [Hd|Hd].
        - apply Hsub; [|exact Hs].
          apply elem_of_list_to_set in Hd. apply list_elem_of_In, Hd.
        - apply M; auto. }
      eapply C; eauto. set_solver. }
    assert (forall m y, needs registry m y ->
              m ∈ all_inputs st' -> is_sub_metric registry m = true ->
              y ∈ all_inputs st') as Hdown.
    { intros m y Hn.
      induction Hn as [m s y Hm Hy | m s z y Hm Hz Hsz Hn IH]; intros Hin Hs.
      - exact (Hclosed m s y Hin Hs Hm Hy).
      - apply IH; [|exact Hsz]. exact (Hclosed m s z Hin Hs Hm Hz). }
    intros Hn. inversion Hn as [m s y Hm Hy | m s z y Hm Hz Hsz Hn']; subst.
    + rewrite Es in Hm. injection Hm as <-. apply Hdirect, Hy.
    + rewrite Es in Hm. injection Hm as <-.
      apply (Hdown z x Hn'); [apply Hdirect, Hz | exact Hsz].
Qed.

End RequirementClosure.

(** X10.  The four lists of inputs by statement are a partition of the
    list of all required inputs: each required input is in exactly one of
    them, for every registry. *)
Theorem requirement_buckets_partition (registry : gmap string MetricSpec)
    (aliases : gmap string string) (metric_name : string) (i : RequirementInfo) :
  get_metric_requirements registry aliases metric_name = Some (ReqInfo i) ->
  Permutation
    (income_statement_inputs i ++ balance_sheet_inputs i
     ++ cash_flow_inputs i ++ derived_inputs i)
    (all_required_inputs i)
  /\ NoDup (income_statement_inputs i ++ balance_sheet_inputs i
            ++ cash_flow_inputs i ++ derived_inputs i).
Proof.
  intros H. destruct (requirements_info _ _ _ _ H) as (spec & st' & _ & _ & ->).
  cbn [income_statement_inputs balance_sheet_inputs cash_flow_inputs derived_inputs
       all_required_inputs].
  pose proof (buckets_partition (elements (all_inputs st'))) as Hp.
  split; [exact Hp|].
  rewrite Hp. apply NoDup_elements.
Qed.

Lemma requirement_buckets_partition_witness :
  exists i,
    get_metric_requirements METRICS METRIC_ALIASES "fcf" = Some (ReqInfo i)
    /\ Permutation
         (income_statement_inputs i ++ balance_sheet_inputs i
          ++ cash_flow_inputs i ++ derived_inputs i)
         (all_required_inputs i)
    /\ NoDup (income_statement_inputs i ++ balance_sheet_inputs i
              ++ cash_flow_inputs i ++ derived_inputs i).
Proof.
  eexists. split; [vm_compute; reflexivity|].
  apply (requirement_buckets_partition METRICS METRIC_ALIASES "fcf").
  vm_compute. reflexivity.
Defined.

(** X11.  The list of all required inputs is exact: it holds an
    identifier if and only if the metric needs it, directly as an input or
    through a chain of inputs that are themselves registered metrics and
    no statement items.  Nothing else is listed, for every registry,
    cyclic ones included. *)
Theorem requirements_are_the_needed_inputs (registry : gmap string MetricSpec)
    (aliases : gmap string string) (metric_name : string) (i : RequirementInfo) :
  get_metric_requirements registry aliases metric_name = Some (ReqInfo i) ->
  forall x, In x (all_required_inputs i)
            <-> needs registry (resolve_in aliases metric_name) x.
Proof. apply requirements_exact. Qed.

Lemma requirements_are_the_needed_inputs_witness :
  exists i,
    get_metric_requirements cyclic_registry ∅ "a" = Some (ReqInfo i)
    /\ forall x, In x (all_required_inputs i)
                 <-> needs cyclic_registry (resolve_in ∅ "a") x.
Proof.
  eexists. split; [vm_compute; reflexivity|].
  apply (requirements_are_the_needed_inputs cyclic_registry ∅ "a").
  vm_compute. reflexivity.
Defined.

Lemma requirements_error_iff (registry : gmap string MetricSpec)
    (aliases : gmap string string) metric_name e :
  get_metric_requirements registry aliases metric_name = Some (ReqError e) <->
  registry !! resolve_in aliases metric_name = None
  /\ e = "Unknown metric: " +:+ resolve_in aliases metric_name.
Proof.
  unfold get_metric_requirements, requirements_with. cbv zeta.
  destruct (registry !! resolve_in aliases metric_name) as [spec|].
  - split; [|intros [H _]; discriminate H].
    destruct (collect_from registry (S (size registry)) (inputs spec) _);
      discriminate.
  - split.
    + intros H. injection H as <-. auto.
    + intros [_ ->]. reflexivity.
Qed.

(** X22.  [get_metric_requirements] reports an unknown metric for exactly
    the names for which [calculate_metric] does, the names that resolve to
    no key of the registry; its text names the metric after a colon and
    without the quotes of the other. *)
Theorem requirements_unknown_as_calculate_metric (R : PyRuntime) (name e : string)
    (d : gmap string pyval) :
  get_metric_requirements METRICS METRIC_ALIASES name = Some (ReqError e) <->
  e = "Unknown metric: " +:+ resolve_alias name
  /\ calculate_metric name d
     = Val (UnknownMetric ("Unknown metric '" +:+ resolve_alias name +:+ "'")).
Proof.
  rewrite requirements_error_iff, unknown_metric_iff.
  fold (resolve_alias name). tauto.
Qed.

Lemma requirements_unknown_as_calculate_metric_witness :
  get_metric_requirements METRICS METRIC_ALIASES "ebitdax"
    = Some (ReqError "Unknown metric: ebitdax").
Proof.
  apply (proj2 (requirements_unknown_as_calculate_metric cpython312 "ebitdax"
                  "Unknown metric: ebitdax" ∅)).
  split; vm_compute; reflexivity.
Defined.

(** ** [identify_metrics] and [interpret_metric_request] *)

Lemma Val_inj {A} (a b : A) : Val a = Val b -> a = b.
Proof. intros H. injection H as ->. reflexivity. Qed.

Lemma identify_direct_spec clean names :
  forall metrics,
    identify_direct clean names metrics
    = metrics ++ List.filter (matches_directly clean) names.
Proof.
  induction names as [|n rest IH]; intros metrics; cbn [identify_direct List.filter].
  - rewrite app_nil_r. reflexivity.
  - destruct (PyStr.contains clean (normalized n)) eqn:E1.
    + assert (matches_directly clean n = true) as ->
        by (unfold matches_directly; rewrite E1; reflexivity).
      rewrite IH, <- app_assoc. reflexivity.
    + destruct (PyStr.endswith n "_pct") eqn:E2.
      * destruct (PyStr.contains clean (normalized (PyText.drop_last4 n))
                  && mentions_percent clean) eqn:E3.
        -- assert (matches_directly clean n = true) as ->
             by (unfold matches_directly; rewrite E1, E2; cbn [orb andb]; exact E3).
           rewrite IH, <- app_assoc. reflexivity.
        -- assert (matches_directly clean n = false) as ->
             by (unfold matches_directly; rewrite E1, E2; cbn [orb andb]; exact E3).
           apply IH.
      * assert (matches_directly clean n = false) as ->
          by (unfold matches_directly; rewrite E1, E2; reflexivity).
        apply IH.
Qed.

Lemma identify_aliases_In clean items :
  forall metrics m,
    In m (identify_aliases clean items metrics) <->
    In m metrics
    \/ exists a, In (a, m) items /\ PyStr.contains clean (normalized a) = true.
Proof.
  induction items as [|[a0 m0] rest IH]; intros metrics m; cbn [identify_aliases].
  - split; [auto | intros [H|(a & [] & _)]; exact H].
  - destruct (PyStr.contains clean (normalized a0)) eqn:Ec; cbn [andb].
    + destruct (mem_string m0 metrics) eqn:Em; cbn [negb].
      * rewrite IH. split.
        -- intros [H|(a & Ha & Hc)]; [left; exact H|].
           right. exists a. split; [right; exact Ha | exact Hc].
        -- intros [H|(a & [Ha|Ha] & Hc)]; [left; exact H| |].
           ++ injection Ha as -> ->. left. apply mem_string_In, Em.
           ++ right. exists a. split; assumption.
      * rewrite IH, in_app_iff. split.
        -- intros [[H|[<-|[]]]|(a & Ha & Hc)].
           ++ left. exact H.
           ++ right. exists a0. split; [left; reflexivity | exact Ec].
           ++ right. exists a. split; [right; exact Ha | exact Hc].
        -- intros [H|(a & [Ha|Ha] & Hc)].
           ++ left. left. exact H.
           ++ injection Ha as -> ->. left. right. left. reflexivity.
           ++ right. exists a. split; assumption.
    + rewrite IH. split.
      * intros [H|(a & Ha & Hc)]; [left; exact H|].
        right. exists a. split; [right; exact Ha | exact Hc].
      * intros [H|(a & [Ha|Ha] & Hc)]; [left; exact H| |].
        -- injection Ha as -> ->. congruence.
        -- right. exists a. split; assumption.
Qed.

Lemma identify_aliases_NoDup clean items :
  forall metrics, NoDup metrics -> NoDup (identify_aliases clean items metrics).
Proof.
  induction items as [|[a0 m0] rest IH]; intros metrics Hn; cbn [identify_aliases].
  - exact Hn.
  - destruct (PyStr.contains clean (normalized a0) && negb (mem_string m0 metrics))
      eqn:E; [|apply IH, Hn].
    apply andb_true_iff in E as [_ E]. apply negb_true_iff, mem_string_false in E.
    apply IH. apply NoDup_app. split; [exact Hn|]. split.
    + intros x Hx Hx'. apply list_elem_of_singleton in Hx'. subst.
      apply E, list_elem_of_In, Hx.
    + apply NoDup_singleton.
Qed.

Lemma METRICS_key_In m : In m (METRICS_items.*1) <-> is_Some (METRICS !! m).
Proof.
  rewrite <- list_elem_of_In, list_elem_of_fmap. split.
  - intros ([n spec] & -> & H). exists spec. apply METRICS_lookup, H.
  - intros [spec H]. exists (m, spec). split; [reflexivity | apply METRICS_lookup, H].
Qed.

Lemma identify_metrics_In query ms :
  identify_metrics query = Val ms ->
  forall m,
    In m ms <->
    (is_Some (METRICS !! m) /\ matches_directly (clean_query_of query) m = true)
    \/ (exists a, METRIC_ALIASES !! a = Some m
                  /\ PyStr.contains (clean_query_of query) (normalized a) = true).
Proof.
  unfold identify_metrics. destruct (PyText.is_ascii query); [|discriminate].
  intros H m. apply Val_inj in H. subst ms.
  rewrite identify_aliases_In, identify_direct_spec. cbn [app].
  rewrite List.filter_In, METRICS_key_In.
  split; (intros [H|(a & Ha & Hc)]; [left; exact H|]);
    right; exists a; (split; [|exact Hc]).
  - apply ALIASES_lookup, list_elem_of_In, Ha.
  - apply list_elem_of_In, ALIASES_lookup, Ha.
Qed.

Lemma identify_metrics_NoDup query ms :
  identify_metrics query = Val ms -> NoDup ms.
Proof.
  unfold identify_metrics. destruct (PyText.is_ascii query); [|discriminate].
  intros H. apply Val_inj in H. subst ms.
  apply identify_aliases_NoDup. rewrite identify_direct_spec. cbn [app].
  apply NoDup_ListNoDup, List.NoDup_filter, NoDup_ListNoDup, METRICS_keys_NoDup.
Qed.

Lemma identify_metrics_registered query ms m :
  identify_metrics query = Val ms -> In m ms ->
  exists spec, METRICS !! m = Some spec /\ resolve_alias m = m.
Proof.
  intros H Hm. apply (identify_metrics_In query ms H) in Hm.
  assert (is_Some (METRICS !! m)) as [spec Hs].
  { destruct Hm as [[Hs _]|(a & Ha & _)]; [exact Hs|].
    apply (alias_targets_registered a m Ha). }
  exists spec. split; [exact Hs | apply (registry_keys_canonical m spec Hs)].
Qed.

(** On a query of ASCII the function over [str_lower] is the one over
    [PyText.lower]. *)
Lemma identify_metrics_ascii_with query :
  PyText.is_ascii query = true ->
  identify_metrics query = Val (identify_metrics_with PyText.lower query).
Proof.
  intros H. unfold identify_metrics. rewrite H.
  unfold identify_metrics_with, clean_query_with, clean_query_of. reflexivity.
Qed.

Lemma identify_metrics_with_In str_lower query m :
  In m (identify_metrics_with str_lower query) <->
  (is_Some (METRICS !! m)
   /\ matches_directly (clean_query_with str_lower query) m = true)
  \/ (exists a, METRIC_ALIASES !! a = Some m
                /\ PyStr.contains (clean_query_with str_lower query) (normalized a) = true).
Proof.
  unfold identify_metrics_with. cbv zeta.
  rewrite identify_aliases_In, identify_direct_spec. cbn [app].
  rewrite List.filter_In, METRICS_key_In.
  split; (intros [H|(a & Ha & Hc)]; [left; exact H|]);
    right; exists a; (split; [|exact Hc]).
  - apply ALIASES_lookup, list_elem_of_In, Ha.
  - apply list_elem_of_In, ALIASES_lookup, Ha.
Qed.

Lemma identify_metrics_with_NoDup str_lower query :
  NoDup (identify_metrics_with str_lower query).
Proof.
  unfold identify_metrics_with. cbv zeta.
  apply identify_aliases_NoDup. rewrite identify_direct_spec. cbn [app].
  apply NoDup_ListNoDup, List.NoDup_filter, NoDup_ListNoDup, METRICS_keys_NoDup.
Qed.

Lemma identify_metrics_with_registered str_lower query m :
  In m (identify_metrics_with str_lower query) ->
  exists spec, METRICS !! m = Some spec /\ resolve_alias m = m.
Proof.
  intros Hm. apply identify_metrics_with_In in Hm.
  assert (is_Some (METRICS !! m)) as [spec Hs].
  { destruct Hm as [[Hs _]|(a & Ha & _)]; [exact Hs|].
    apply (alias_targets_registered a m Ha). }
  exists spec. split; [exact Hs | apply (registry_keys_canonical m spec Hs)].
Qed.

(** X12.  For every query, whatever its characters and whatever
    [str.lower] makes of them, the metrics [identify_metrics] returns are
    pairwise distinct, and each is the canonical name of a registered
    metric, never an alias: [calculate_metric] knows every one of them. *)
Theorem identified_metrics_are_distinct_registry_keys (R : PyRuntime)
    (str_lower : string -> string) (query : string) :
  NoDup (identify_metrics_with str_lower query)
  /\ (forall m, In m (identify_metrics_with str_lower query) ->
        is_Some (METRICS !! m) /\ resolve_alias m = m
        /\ forall d e, calculate_metric m d <> Val (UnknownMetric e))
  /\ (forall ms, identify_metrics query = Val ms ->
        ms = identify_metrics_with PyText.lower query).
Proof.
  split; [apply identify_metrics_with_NoDup|]. split.
  - intros m Hm.
    destruct (identify_metrics_with_registered str_lower query m Hm) as (spec & Hs & Hr).
    split; [eauto|]. split; [exact Hr|].
    intros d e He. apply unknown_metric_iff in He as [Hn _].
    rewrite Hr in Hn. congruence.
  - intros ms H. destruct (PyText.is_ascii query) eqn:Ea.
    + rewrite (identify_metrics_ascii_with query Ea) in H.
      apply Val_inj in H. symmetry. exact H.
    + unfold identify_metrics in H. rewrite Ea in H. discriminate H.
Qed.

Lemma identified_metrics_are_distinct_registry_keys_witness :
  identify_metrics_with PyText.lower apostrophe_query
    = ["net_income"; "net_margin_pct"; "accounts_receivable"; "accounts_payable"]
  /\ NoDup ["net_income"; "net_margin_pct"; "accounts_receivable"; "accounts_payable"]
  /\ is_Some (METRICS !! "net_margin_pct") /\ resolve_alias "net_margin_pct" = "net_margin_pct"
  /\ forall d e, @calculate_metric cpython312 "net_margin_pct" d <> Val (UnknownMetric e).
Proof.
  assert (identify_metrics_with PyText.lower apostrophe_query
            = ["net_income"; "net_margin_pct"; "accounts_receivable"; "accounts_payable"])
    as E
    by (vm_compute; reflexivity).
  split; [exact E|].
  destruct (identified_metrics_are_distinct_registry_keys cpython312 PyText.lower
              apostrophe_query) as (Hn & Hm & _).
  rewrite E in Hn, Hm. split; [exact Hn|].
  apply (Hm "net_margin_pct"). right. left. reflexivity.
Defined.

(** X13.  What [identify_metrics] finds, exactly, for every query: a
    metric is returned if and only if it is a key of the registry whose
    name, with spaces for underscores, is a substring of the cleaned query
    (or, for a [_pct] metric, the name without [_pct] together with a
    mention of percent), or the target of an alias that is a substring of
    the cleaned query.  The match is on substrings, not on words. *)
Theorem identified_metrics_are_the_substring_matches
    (str_lower : string -> string) (query : string) (m : string) :
  In m (identify_metrics_with str_lower query) <->
  (is_Some (METRICS !! m)
   /\ matches_directly (clean_query_with str_lower query) m = true)
  \/ (exists a, METRIC_ALIASES !! a = Some m
                /\ PyStr.contains (clean_query_with str_lower query) (normalized a) = true).
Proof. apply identify_metrics_with_In. Qed.

Lemma identified_metrics_are_the_substring_matches_witness :
  In "accounts_receivable" (identify_metrics_with PyText.lower apostrophe_query).
Proof.
  apply (proj2 (identified_metrics_are_the_substring_matches PyText.lower
                  apostrophe_query "accounts_receivable")).
  right. exists "ar". split; vm_compute; reflexivity.
Defined.

Lemma prefix_length p :
  forall s, String.prefix p s = true -> String.length p <= String.length s.
Proof.
  induction p as [|c p IH]; intros s H; cbn [String.length]; [lia|].
  destruct s as [|c' s]; cbn in H; [discriminate|].
  destruct (ascii_dec c c'); [|discriminate]. apply IH in H. cbn [String.length]. lia.
Qed.

Lemma contains_length s sub :
  PyStr.contains s sub = true -> String.length sub <= String.length s.
Proof.
  induction s as [|c s IH]; cbn [PyStr.contains]; intros H;
    apply orb_true_iff in H as [H|H]; try discriminate.
  - apply prefix_length, H.
  - apply prefix_length, H.
  - apply IH in H. cbn [String.length]. lia.
Qed.

Lemma clean_query_length query :
  String.length (clean_query_of query) <= String.length query.
Proof.
  unfold clean_query_of.
  assert (forall s, String.length (PyText.lower s) = String.length s) as Hl
    by (induction s as [|c s IH]; cbn; [reflexivity | rewrite IH; reflexivity]).
  assert (forall s, String.length (PyText.blank_punctuation s) = String.length s) as Hb
    by (induction s as [|c s IH]; cbn; [reflexivity | rewrite IH; reflexivity]).
  assert (forall s, String.length (PyText.drop_apostrophes s) <= String.length s) as Hd.
  { induction s as [|c s IH]; cbn [PyText.drop_apostrophes String.length]; [lia|].
    destruct (Ascii.eqb c PyStr.squote); cbn [String.length]; lia. }
  rewrite <- (Hl query), <- (Hb (PyText.lower query)). apply Hd.
Qed.

Lemma short_query_matches_nothing clean :
  String.length clean < 2 ->
  (forall m, is_Some (METRICS !! m) -> matches_directly clean m = false)
  /\ (forall a m, METRIC_ALIASES !! a = Some m ->
        PyStr.contains clean (normalized a) = false).
Proof.
  intros Hlen.
  assert (forall sub, 2 <= String.length sub -> PyStr.contains clean sub = false) as Hno.
  { intros sub Hsub. destruct (PyStr.contains clean sub) eqn:E; [|reflexivity].
    apply contains_length in E. lia. }
  split.
  - intros m [spec Hs].
    pose proof (METRICS_forall
      (fun n _ => (2 <=? String.length (normalized n))
                  && (negb (PyStr.endswith n "_pct")
                      || (2 <=? String.length (normalized (PyText.drop_last4 n)))))
      ltac:(vm_compute; reflexivity) m spec Hs) as H.
    cbv beta in H. apply andb_true_iff in H as [H1 H2].
    apply Nat.leb_le in H1.
    unfold matches_directly. rewrite (Hno _ H1). cbn [orb].
    destruct (PyStr.endswith m "_pct"); [|reflexivity].
    cbn [negb orb] in H2. apply Nat.leb_le in H2.
    rewrite (Hno _ H2). reflexivity.
  - intros a m Ha.
    pose proof (ALIASES_forall (fun a _ => 2 <=? String.length (normalized a))
                  ltac:(vm_compute; reflexivity) a m Ha) as H.
    cbv beta in H. apply Nat.leb_le in H. apply (Hno _ H).
Qed.

Lemma identify_metrics_ascii query :
  PyText.is_ascii query = true -> exists ms, identify_metrics query = Val ms.
Proof. intros H. unfold identify_metrics. rewrite H. eauto. Qed.

Lemma short_query_identifies_nothing query :
  PyText.is_ascii query = true -> String.length query < 2 ->
  identify_metrics query = Val [].
Proof.
  intros Ha Hlen. destruct (identify_metrics_ascii query Ha) as [ms Hms].
  rewrite Hms. f_equal. destruct ms as [|m ms]; [reflexivity|]. exfalso.
  destruct (short_query_matches_nothing (clean_query_of query)) as [Hd Hal].
  { pose proof (clean_query_length query). lia. }
  destruct (proj1 (identify_metrics_In query _ Hms m) (or_introl eq_refl))
    as [[Hs Hm]|(a & Hl & Hc)].
  - rewrite (Hd m Hs) in Hm. discriminate.
  - rewrite (Hal a m Hl) in Hc. discriminate.
Qed.

(** X14.  The empty query and the queries of one character identify no
    metric: every name and alias has at least two characters.  For them
    [interpret_metric_request] answers, whatever the data, that it could
    not identify a metric and that the language model is required. *)
Theorem short_query_is_not_identified (R : PyRuntime) (query ticker : string)
    (data : option (gmap string pyval)) :
  PyText.is_ascii query = true ->
  String.length query < 2 ->
  identify_metrics query = Val []
  /\ interpret_metric_request query ticker data =
       Val (NotIdentified "Could not identify specific metrics in the query"
              query ticker true).
Proof.
  intros Ha Hlen. pose proof (short_query_identifies_nothing query Ha Hlen) as H.
  split; [exact H|]. unfold interpret_metric_request. rewrite H. reflexivity.
Qed.

Lemma short_query_is_not_identified_witness :
  identify_metrics "" = Val []
  /\ @interpret_metric_request cpython312 "" "AAPL" (Some cash_flows) =
       Val (NotIdentified "Could not identify specific metrics in the query"
              "" "AAPL" true).
Proof.
  apply (short_query_is_not_identified cpython312 "" "AAPL" (Some cash_flows)).
  - reflexivity.
  - cbn. lia.
Defined.

Lemma calculate_metric_returns error_text repr_str name d :
  numeric_data d ->
  exists r, @calculate_metric (cpython error_text repr_str) name d = Val r.
Proof.
  intros Hnum.
  destruct (METRICS !! resolve_alias name) as [spec|] eqn:Es.
  - destruct (missing_from d (inputs spec)) as [|m ms] eqn:Em.
    + destruct (calc_registry_total error_text repr_str d Hnum _ _ Es Em)
        as [(raw & Hraw & Hn)|[e He]].
      * destruct (calculate_metric_of_value name d spec raw Es Em Hraw Hn)
          as (v & used & _ & _ & E).
        eexists. exact E.
      * rewrite (calculate_metric_of_raise name d spec e Es Em He). eauto.
    + rewrite (calculate_metric_missing name d spec Es); [eauto|].
      rewrite Em. discriminate.
  - unfold calculate_metric. rewrite (dict_contains_None _ _ Es). cbn [negb]. eauto.
Qed.

Lemma calculate_all_lookup error_text repr_str d :
  numeric_data d ->
  forall requested results,
    exists results',
      @calculate_all (cpython error_text repr_str) d requested results = Val results'
      /\ (forall m, In m requested ->
            exists r, @calculate_metric (cpython error_text repr_str) m d = Val r
                      /\ results' !! m = Some r)
      /\ (forall m, ~ In m requested -> results' !! m = results !! m).
Proof.
  intros Hnum. induction requested as [|m0 rest IH]; intros results.
  - exists results. split; [reflexivity|]. split; [intros m []|reflexivity].
  - cbn [calculate_all].
    destruct (calculate_metric_returns error_text repr_str m0 d Hnum) as [r0 E0].
    rewrite E0. cbn [mbind outcome_bind].
    destruct (IH (<[m0 := r0]> results)) as (res & E & Hin & Hout).
    exists res. split; [exact E|]. split.
    + intros m [<-|Hm].
      * destruct (in_dec string_dec m0 rest) as [Hr|Hr]; [apply Hin, Hr|].
        exists r0. split; [exact E0|].
        rewrite (Hout m0 Hr). apply lookup_insert_eq.
      * apply Hin, Hm.
    + intros m Hm. rewrite Hout by (intros C; apply Hm; right; exact C).
      apply lookup_insert_ne. intros ->. apply Hm. left. reflexivity.
Qed.

Lemma any_success_spec (results : gmap string CalcResult) :
  any_success results = true <->
  exists m r, results !! m = Some r /\ success r = true.
Proof.
  unfold any_success. rewrite existsb_exists. split.
  - intros ([m r] & Hin & Hs). exists m, r. split; [|exact Hs].
    apply elem_of_map_to_list, list_elem_of_In, Hin.
  - intros (m & r & Hl & Hs). exists (m, r). split; [|exact Hs].
    apply list_elem_of_In, elem_of_map_to_list, Hl.
Qed.

(** On a query of ASCII the function over [str_lower] is the one over
    [PyText.lower]. *)
Lemma interpret_metric_request_ascii_with `{R : PyRuntime} query ticker data :
  PyText.is_ascii query = true ->
  interpret_metric_request query ticker data
  = interpret_metric_request_with PyText.lower query ticker data.
Proof.
  intros H. unfold interpret_metric_request, interpret_metric_request_with.
  rewrite (identify_metrics_ascii_with query H). reflexivity.
Qed.

(** X16.  For every query in which a metric is identified, with a dataset
    of numbers that is not empty: every identified metric is calculated
    and filed under its name, nothing else is filed, and the request
    succeeds as soon as one metric does: failures of the others (missing
    inputs, evaluation errors) do not fail the request. *)
Theorem request_with_data_calculates_each_metric
    (error_text : interp_error -> string) (repr_str : string -> string)
    (str_lower : string -> string)
    (query ticker : string) (d : gmap string pyval) :
  identify_metrics_with str_lower query <> [] ->
  numeric_data d ->
  d <> ∅ ->
  exists results,
    @interpret_metric_request_with str_lower (cpython error_text repr_str)
      query ticker (Some d)
      = Val (WithResults (any_success results) query ticker
               (identify_metrics_with str_lower query) results)
    /\ (forall m, In m (identify_metrics_with str_lower query) ->
          exists r, @calculate_metric (cpython error_text repr_str) m d = Val r
                    /\ results !! m = Some r)
    /\ (forall m, ~ In m (identify_metrics_with str_lower query) -> results !! m = None)
    /\ (any_success results = true <->
        exists m r, In m (identify_metrics_with str_lower query)
                    /\ @calculate_metric (cpython error_text repr_str) m d = Val r
                    /\ success r = true).
Proof.
  generalize (identify_metrics_with_NoDup str_lower query).
  unfold interpret_metric_request_with. cbv zeta.
  generalize (identify_metrics_with str_lower query). intros ms _ Hne Hnum Hd.
  destruct (calculate_all_lookup error_text repr_str d Hnum ms ∅)
    as (results & E & Hin & Hout).
  exists results. split; [|split; [exact Hin|split]].
  - destruct ms as [|m ms]; [congruence|]. cbn [length Nat.eqb].
    assert (size d <> 0) as Hs by (intros C; apply Hd, map_size_empty_iff, C).
    destruct (size d) as [|n]; [congruence|]. cbn [Nat.eqb negb].
    rewrite E. reflexivity.
  - intros m Hm. rewrite (Hout m Hm). apply lookup_empty.
  - rewrite any_success_spec. split.
    + intros (m & r & Hl & Hs). exists m, r.
      destruct (in_dec string_dec m ms) as [Hm|Hm].
      * destruct (Hin m Hm) as (r' & Er & Hl'). rewrite Hl in Hl'.
        injection Hl' as <-. auto.
      * rewrite (Hout m Hm), lookup_empty in Hl. discriminate.
    + intros (m & r & Hm & Er & Hs). exists m, r. split; [|exact Hs].
      destruct (Hin m Hm) as (r' & Er' & Hl). rewrite Er in Er'.
      apply Val_inj in Er'. subst r'. exact Hl.
Qed.

Lemma request_with_data_calculates_each_metric_witness :
  exists results,
    @interpret_metric_request_with PyText.lower cpython312 fcf_query "AAPL"
      (Some cash_flows)
      = Val (WithResults (any_success results) fcf_query "AAPL"
               (identify_metrics_with PyText.lower fcf_query) results)
    /\ (forall m, In m (identify_metrics_with PyText.lower fcf_query) ->
          exists r, @calculate_metric cpython312 m cash_flows = Val r
                    /\ results !! m = Some r)
    /\ (forall m, ~ In m (identify_metrics_with PyText.lower fcf_query) ->
          results !! m = None)
    /\ (any_success results = true <->
        exists m r, In m (identify_metrics_with PyText.lower fcf_query)
                    /\ @calculate_metric cpython312 m cash_flows = Val r
                    /\ success r = true).
Proof.
  apply (request_with_data_calculates_each_metric CPython312.error_text
           CPython312.repr_str PyText.lower fcf_query "AAPL" cash_flows).
  - vm_compute. discriminate.
  - apply numeric_data_decide. vm_compute. reflexivity.
  - intros C. apply (f_equal (fun m : gmap string pyval => m !! "cfo")) in C.
    vm_compute in C. discriminate C.
Defined.

(** ** The keyword search and the categories *)

Lemma prefix_app p :
  forall s, String.prefix p s = true <-> exists post, s = p +:+ post.
Proof.
  induction p as [|c p IH]; intros s.
  - rewrite prefix_empty. split; [intros _; exists s; reflexivity | reflexivity].
  - destruct s as [|c' s]; cbn.
    + split; [discriminate | intros [post H]; discriminate H].
    + destruct (ascii_dec c c') as [->|Hne].
      * rewrite IH. split; intros [post H]; exists post.
        -- rewrite H. reflexivity.
        -- injection H as ->. reflexivity.
      * split; [discriminate | intros [post H]; injection H as -> _; congruence].
Qed.

Lemma contains_app s :
  forall sub, PyStr.contains s sub = true <-> exists pre post, s = pre +:+ sub +:+ post.
Proof.
  induction s as [|c s IH]; intros sub; cbn [PyStr.contains];
    rewrite orb_true_iff, prefix_app.
  - split.
    + intros [[post H]|H]; [|discriminate]. exists "", post. exact H.
    + intros (pre & post & H). left.
      destruct pre; [exists post; exact H | discriminate H].
  - rewrite IH. split.
    + intros [[post H]|(pre & post & H)].
      * exists "", post. exact H.
      * exists (String c pre), post. rewrite H. reflexivity.
    + intros (pre & post & H). destruct pre as [|c' pre].
      * left. exists post. exact H.
      * right. exists pre, post.
        change (String c s = String c' (pre +:+ sub +:+ post)) in H.
        injection H as _ ->. reflexivity.
Qed.

Lemma string_app_nil_r s : s +:+ "" = s.
Proof.
  induction s as [|c s IH]; [reflexivity|].
  change (String c (s +:+ "") = String c s). rewrite IH. reflexivity.
Qed.

Lemma string_app_assoc a b c : a +:+ (b +:+ c) = (a +:+ b) +:+ c.
Proof.
  induction a as [|x a IH]; [reflexivity|].
  change (String x (a +:+ (b +:+ c)) = String x ((a +:+ b) +:+ c)).
  rewrite IH. reflexivity.
Qed.

Lemma contains_refl s : PyStr.contains s s = true.
Proof. apply contains_app. exists "", "". symmetry. apply string_app_nil_r. Qed.

Lemma contains_empty s : PyStr.contains s "" = true.
Proof. apply contains_app. exists "", s. reflexivity. Qed.

Lemma contains_trans s b a :
  PyStr.contains s b = true -> PyStr.contains b a = true -> PyStr.contains s a = true.
Proof.
  rewrite !contains_app. intros (p1 & q1 & ->) (p2 & q2 & ->).
  exists (p1 +:+ p2), (q2 +:+ q1). rewrite !string_app_assoc. reflexivity.
Qed.

Lemma matching_summaries_In keyword items s :
  In s (matching_summaries keyword items) <->
  exists item, In item items /\ keyword_matches keyword item = true
               /\ s = summary_of item.
Proof.
  induction items as [|i rest IH]; cbn [matching_summaries].
  - split; [intros [] | intros (item & [] & _)].
  - destruct (keyword_matches keyword i) eqn:E.
    + cbn [In]. rewrite IH. split.
      * intros [<-|(item & Hin & Hk & ->)].
        -- exists i. split; [left; reflexivity|]. split; [exact E | reflexivity].
        -- exists item. split; [right; exact Hin|]. split; [exact Hk | reflexivity].
      * intros (item & [<-|Hin] & Hk & ->); [left; reflexivity|].
        right. exists item. split; [exact Hin|]. split; [exact Hk | reflexivity].
    + rewrite IH. split.
      * intros (item & Hin & Hk & ->).
        exists item. split; [right; exact Hin|]. split; [exact Hk | reflexivity].
      * intros (item & [<-|Hin] & Hk & ->); [congruence|].
        exists item. split; [exact Hin|]. split; [exact Hk | reflexivity].
Qed.

Lemma matching_summaries_all items :
  matching_summaries "" items = map summary_of items.
Proof.
  induction items as [|i rest IH]; cbn [matching_summaries map]; [reflexivity|].
  assert (keyword_matches "" i = true) as ->
    by (unfold keyword_matches; rewrite contains_empty; reflexivity).
  rewrite IH. reflexivity.
Qed.

Lemma keyword_matches_narrower k1 k2 item :
  PyStr.contains k2 k1 = true ->
  keyword_matches k2 item = true -> keyword_matches k1 item = true.
Proof.
  intros Hk. unfold keyword_matches. rewrite !orb_true_iff, !existsb_exists.
  intros [[H|H]|(inp & Hin & H)].
  - left. left. exact (contains_trans _ _ _ H Hk).
  - left. right. exact (contains_trans _ _ _ H Hk).
  - right. exists inp. split; [exact Hin | exact (contains_trans _ _ _ H Hk)].
Qed.

Lemma matching_summaries_sublist k1 k2 items :
  (forall item, keyword_matches k2 item = true -> keyword_matches k1 item = true) ->
  sublist (matching_summaries k2 items) (matching_summaries k1 items).
Proof.
  intros Himp. induction items as [|i rest IH]; cbn [matching_summaries].
  - apply sublist_nil.
  - destruct (keyword_matches k2 i) eqn:E2.
    + rewrite (Himp i E2). apply sublist_skip, IH.
    + destruct (keyword_matches k1 i); [apply sublist_cons, IH | exact IH].
Qed.

Lemma matching_summaries_available k items :
  sublist (matching_summaries k items) (map summary_of items).
Proof.
  rewrite <- matching_summaries_all. apply matching_summaries_sublist.
  intros item _. unfold keyword_matches. rewrite contains_empty. reflexivity.
Qed.

Lemma summary_names (items : list (string * MetricSpec)) :
  map summary_name (map summary_of items) = items.*1.
Proof.
  induction items as [|i rest IH]; [reflexivity|].
  cbn [map fmap list_fmap]. f_equal. exact IH.
Qed.

Lemma matching_summaries_NoDup k (items : list (string * MetricSpec)) :
  NoDup (items.*1) -> NoDup (map summary_name (matching_summaries k items)).
Proof.
  intros H.
  apply (sublist_NoDup _ (map summary_name (map summary_of items))).
  - rewrite summary_names. exact H.
  - apply fmap_sublist, matching_summaries_available.
Qed.

Lemma find_metrics_by_keyword_Val keyword results :
  find_metrics_by_keyword keyword = Val results ->
  results = matching_summaries (PyText.lower keyword) METRICS_items.
Proof.
  unfold find_metrics_by_keyword. destruct (PyText.is_ascii keyword); [|discriminate].
  intros H. apply Val_inj in H. congruence.
Qed.

(** X17.  The empty keyword matches everything: the search returns all
    metrics, as [get_available_metrics] lists them. *)
Theorem empty_keyword_finds_all_metrics :
  find_metrics_by_keyword "" = Val get_available_metrics.
Proof.
  unfold find_metrics_by_keyword, get_available_metrics.
  cbn [PyText.is_ascii list_ascii_of_string forallb PyText.lower].
  rewrite matching_summaries_all. reflexivity.
Qed.

(** X18.  Searching for the name of a registered metric, or for one of
    its input identifiers, in any letter case, finds the metric. *)
Theorem search_finds_metric_by_name_or_input (keyword name : string)
    (spec : MetricSpec) :
  METRICS !! name = Some spec ->
  PyText.is_ascii keyword = true ->
  PyText.lower keyword = PyText.lower name
  \/ (exists inp, In inp (inputs spec) /\ PyText.lower keyword = PyText.lower inp) ->
  exists results,
    find_metrics_by_keyword keyword = Val results
    /\ In (summary_of (name, spec)) results.
Proof.
  intros Hs Ha Hk. unfold find_metrics_by_keyword. rewrite Ha.
  eexists. split; [reflexivity|]. apply matching_summaries_In.
  exists (name, spec). split; [|split; [|reflexivity]].
  - apply list_elem_of_In, METRICS_lookup, Hs.
  - unfold keyword_matches. cbn [fst snd].
    destruct Hk as [->|(inp & Hin & ->)].
    + rewrite contains_refl. reflexivity.
    + apply orb_true_iff. right. apply existsb_exists.
      exists inp. split; [exact Hin | apply contains_refl].
Qed.

Lemma search_finds_metric_by_name_or_input_witness :
  exists results,
    find_metrics_by_keyword "CF.CapEx" = Val results
    /\ In (summary_of ("capex", {| inputs := ["cf.CapEx"]; formula := "cf.CapEx";
                                   desc := "Capital expenditures" |})) results.
Proof.
  apply (search_finds_metric_by_name_or_input "CF.CapEx" "capex").
  - vm_compute. reflexivity.
  - reflexivity.
  - right. exists "cf.CapEx". split; [left; reflexivity | reflexivity].
Defined.

(** On a keyword of ASCII the function over [str_lower] is the one over
    [PyText.lower]. *)
Lemma find_metrics_by_keyword_ascii_with keyword :
  PyText.is_ascii keyword = true ->
  find_metrics_by_keyword keyword
  = Val (find_metrics_by_keyword_with PyText.lower keyword).
Proof.
  intros H. unfold find_metrics_by_keyword, find_metrics_by_keyword_with.
  rewrite H. reflexivity.
Qed.

(** X19.  For every keyword, whatever its characters: the search returns
    available metrics in the order of the registry, each at most once,
    and a longer keyword narrows it: when one keyword contains another,
    apart from letter case, its results are among those of the other, in
    the same order. *)
Theorem longer_keyword_narrows_search (str_lower : string -> string)
    (k1 k2 : string) :
  PyStr.contains (str_lower k2) (str_lower k1) = true ->
  sublist (find_metrics_by_keyword_with str_lower k2)
          (find_metrics_by_keyword_with str_lower k1)
  /\ sublist (find_metrics_by_keyword_with str_lower k1) get_available_metrics
  /\ NoDup (map summary_name (find_metrics_by_keyword_with str_lower k1))
  /\ (forall r1, find_metrics_by_keyword k1 = Val r1 ->
        r1 = find_metrics_by_keyword_with PyText.lower k1).
Proof.
  intros Hk. unfold find_metrics_by_keyword_with. split; [|split; [|split]].
  - apply matching_summaries_sublist. intros item.
    apply keyword_matches_narrower, Hk.
  - apply matching_summaries_available.
  - apply matching_summaries_NoDup, METRICS_keys_NoDup.
  - intros r1 H. apply find_metrics_by_keyword_Val in H. exact H.
Qed.

Lemma longer_keyword_narrows_search_witness :
  map summary_name (find_metrics_by_keyword_with PyText.lower times_keyword)
    = ["market_cap"]
  /\ sublist (find_metrics_by_keyword_with PyText.lower price_times_keyword)
             (find_metrics_by_keyword_with PyText.lower times_keyword)
  /\ sublist (find_metrics_by_keyword_with PyText.lower times_keyword)
             get_available_metrics.
Proof.
  split; [vm_compute; reflexivity|].
  destruct (longer_keyword_narrows_search PyText.lower times_keyword
              price_times_keyword) as (H1 & H2 & _).
  - vm_compute. reflexivity.
  - split; [exact H1 | exact H2].
Defined.

Lemma pct_name_shadowed name :
  mem_string name ["roa_pct"; "roe_pct"; "roce_pct"] = true ->
  PyStr.endswith name "_pct" = true.
Proof.
  intros H. apply mem_string_In in H.
  destruct H as [<-|[<-|[<-|[]]]]; reflexivity.
Qed.

(** X20.  In [_determine_category] the test for a name ending in [_pct]
    comes before the tests for growth, per-share and return metrics: a
    name that ends in [_pct] is never put in one of these three categories
    nor in the last one, and only a name that contains [return] is ever a
    return metric - the three names listed in that test are decided
    earlier. *)
Theorem pct_names_are_never_return_metrics (name : string) (info : MetricSpec) :
  (PyStr.endswith name "_pct" = true ->
     In (_determine_category name info)
        ["Income Statement"; "Balance Sheet"; "Cash Flow"; "Ratios & Margins"])
  /\ (_determine_category name info = "Return Metrics" ->
        PyStr.contains name "return" = true /\ PyStr.endswith name "_pct" = false).
Proof.
  unfold _determine_category.
  destruct (existsb _ (inputs info) || mem_string name _);
    [split; [intros _; cbn; auto | discriminate]|].
  destruct (existsb _ (inputs info) || mem_string name _);
    [split; [intros _; cbn; auto | discriminate]|].
  destruct (existsb _ (inputs info) || mem_string name _);
    [split; [intros _; cbn; auto | discriminate]|].
  destruct (PyStr.endswith name "_pct") eqn:Ep; cbn [orb];
    [split; [intros _; cbn; auto | discriminate]|].
  split; [discriminate|].
  destruct (PyStr.contains name "margin" || PyStr.contains name "ratio");
    [discriminate|].
  destruct (PyStr.contains name "growth"); [discriminate|].
  destruct (PyStr.contains name "per_share" || mem_string name _); [discriminate|].
  destruct (PyStr.contains name "return") eqn:Er; [auto|]. cbn [orb].
  destruct (mem_string name ["roa_pct"; "roe_pct"; "roce_pct"]) eqn:Em;
    [|discriminate].
  rewrite (pct_name_shadowed name Em) in Ep. discriminate Ep.
Qed.

Lemma pct_names_are_never_return_metrics_witness :
  In (_determine_category "roce_pct"
        {| inputs := ["ebit"; "capital_employed"]; formula := "ebit / capital_employed";
           desc := "" |})
     ["Income Statement"; "Balance Sheet"; "Cash Flow"; "Ratios & Margins"].
Proof.
  apply (proj1 (pct_names_are_never_return_metrics "roce_pct"
                  {| inputs := ["ebit"; "capital_employed"];
                     formula := "ebit / capital_employed"; desc := "" |})).
  reflexivity.
Defined.

(** X21.  For the metrics of the registry only five of the eight
    categories occur: no metric is a growth, per-share or return metric.
    The growth and return percentages are ratios, and the two
    earnings-per-share metrics read the income statement. *)
Theorem registry_categories (name : string) (spec : MetricSpec) :
  METRICS !! name = Some spec ->
  In (_determine_category name spec)
     ["Income Statement"; "Balance Sheet"; "Cash Flow"; "Ratios & Margins";
      "Other Metrics"]
  /\ (PyStr.contains name "growth" = true \/ In name ["roe_pct"; "roa_pct"; "roic_pct"] ->
        _determine_category name spec = "Ratios & Margins")
  /\ (In name ["eps_basic"; "eps_diluted"] ->
        _determine_category name spec = "Income Statement").
Proof.
  intros Hs.
  pose proof (METRICS_forall
    (fun n s =>
       mem_string (_determine_category n s)
         ["Income Statement"; "Balance Sheet"; "Cash Flow"; "Ratios & Margins";
          "Other Metrics"]
       && implb (PyStr.contains n "growth" || mem_string n ["roe_pct"; "roa_pct"; "roic_pct"])
            (String.eqb (_determine_category n s) "Ratios & Margins")
       && implb (mem_string n ["eps_basic"; "eps_diluted"])
            (String.eqb (_determine_category n s) "Income Statement"))
    ltac:(vm_compute; reflexivity) name spec Hs) as H.
  cbv beta in H. apply andb_true_iff in H as [H H3]. apply andb_true_iff in H as [H1 H2].
  split; [apply mem_string_In, H1|]. split.
  - intros Hc. apply String.eqb_eq.
    destruct (PyStr.contains name "growth" || mem_string name ["roe_pct"; "roa_pct"; "roic_pct"])
      eqn:E; [exact H2|].
    apply orb_false_iff in E as [E1 E2]. destruct Hc as [Hc|Hc]; [congruence|].
    apply mem_string_In in Hc. congruence.
  - intros Hc. apply String.eqb_eq. apply mem_string_In in Hc.
    rewrite Hc in H3. exact H3.
Qed.

Lemma registry_categories_witness :
  In (_determine_category "revenue_growth_pct"
        {| inputs := ["revenue_t"; "revenue_t-1"];
           formula := "(revenue_t/revenue_t-1) - 1";
           desc := "YoY top-line growth" |})
     ["Income Statement"; "Balance Sheet"; "Cash Flow"; "Ratios & Margins";
      "Other Metrics"]
  /\ _determine_category "revenue_growth_pct"
       {| inputs := ["revenue_t"; "revenue_t-1"];
          formula := "(revenue_t/revenue_t-1) - 1";
          desc := "YoY top-line growth" |} = "Ratios & Margins".
Proof.
  destruct (registry_categories "revenue_growth_pct"
              {| inputs := ["revenue_t"; "revenue_t-1"];
                 formula := "(revenue_t/revenue_t-1) - 1";
                 desc := "YoY top-line growth" |}) as (H1 & H2 & _).
  - vm_compute. reflexivity.
  - split; [exact H1|]. apply H2. left. reflexivity.
Defined.

(** ** Longer queries *)

Lemma lower_app a b : PyText.lower (a +:+ b) = PyText.lower a +:+ PyText.lower b.
Proof.
  induction a as [|c a IH]; [reflexivity|].
  change (String (PyText.lower_char c) (PyText.lower (a +:+ b))
          = String (PyText.lower_char c) (PyText.lower a +:+ PyText.lower b)).
  rewrite IH. reflexivity.
Qed.

Lemma blank_punctuation_app a b :
  PyText.blank_punctuation (a +:+ b)
  = PyText.blank_punctuation a +:+ PyText.blank_punctuation b.
Proof.
  induction a as [|c a IH]; [reflexivity|].
  change (String (if PyText.is_punctuation c then " "%char else c)
            (PyText.blank_punctuation (a +:+ b))
          = String (if PyText.is_punctuation c then " "%char else c)
              (PyText.blank_punctuation a +:+ PyText.blank_punctuation b)).
  rewrite IH. reflexivity.
Qed.

Lemma drop_apostrophes_app a b :
  PyText.drop_apostrophes (a +:+ b)
  = PyText.drop_apostrophes a +:+ PyText.drop_apostrophes b.
Proof.
  induction a as [|c a IH]; [reflexivity|].
  change (PyText.drop_apostrophes (String c (a +:+ b))
          = PyText.drop_apostrophes (String c a) +:+ PyText.drop_apostrophes b).
  cbn [PyText.drop_apostrophes]. destruct (Ascii.eqb c PyStr.squote); [exact IH|].
  rewrite IH. reflexivity.
Qed.

Lemma clean_query_app a b :
  clean_query_of (a +:+ b) = clean_query_of a +:+ clean_query_of b.
Proof.
  unfold clean_query_of.
  rewrite lower_app, blank_punctuation_app, drop_apostrophes_app. reflexivity.
Qed.

Lemma is_ascii_app a b :
  PyText.is_ascii (a +:+ b) = PyText.is_ascii a && PyText.is_ascii b.
Proof.
  unfold PyText.is_ascii. fold (chars (a +:+ b)). rewrite chars_app.
  apply forallb_app.
Qed.

Lemma matches_directly_longer clean1 clean2 m :
  PyStr.contains clean2 clean1 = true ->
  matches_directly clean1 m = true -> matches_directly clean2 m = true.
Proof.
  intros Hc. unfold matches_directly, mentions_percent.
  rewrite !orb_true_iff, !andb_true_iff, !orb_true_iff.
  intros [H|[[Hp H] [[H'|H']|H']]].
  - left. exact (contains_trans _ _ _ Hc H).
  - right. split; [split; [exact Hp | exact (contains_trans _ _ _ Hc H)]|].
    left. left. exact (contains_trans _ _ _ Hc H').
  - right. split; [split; [exact Hp | exact (contains_trans _ _ _ Hc H)]|].
    left. right. exact (contains_trans _ _ _ Hc H').
  - right. split; [split; [exact Hp | exact (contains_trans _ _ _ Hc H)]|].
    right. exact (contains_trans _ _ _ Hc H').
Qed.

(** X23.  Text around a query never loses a metric: every metric
    identified in a query is identified in any query that contains it. *)
Theorem longer_query_identifies_more (pre query post : string) (ms : list string) :
  PyText.is_ascii (pre +:+ query +:+ post) = true ->
  identify_metrics query = Val ms ->
  exists ms',
    identify_metrics (pre +:+ query +:+ post) = Val ms'
    /\ forall m, In m ms -> In m ms'.
Proof.
  intros Ha H. destruct (identify_metrics_ascii _ Ha) as [ms' H'].
  exists ms'. split; [exact H'|]. intros m Hm.
  assert (PyStr.contains (clean_query_of (pre +:+ query +:+ post))
            (clean_query_of query) = true) as Hc.
  { rewrite !clean_query_app. apply contains_app. eexists. eexists. reflexivity. }
  apply (identify_metrics_In _ _ H') .
  apply (identify_metrics_In _ _ H) in Hm.
  destruct Hm as [[Hs Hd]|(a & Hl & Hk)].
  - left. split; [exact Hs | exact (matches_directly_longer _ _ _ Hc Hd)].
  - right. exists a. split; [exact Hl | exact (contains_trans _ _ _ Hc Hk)].
Qed.

Lemma longer_query_identifies_more_witness :
  exists ms',
    identify_metrics ("Compare " +:+ "fcf" +:+ " with EBITDA.") = Val ms'
    /\ forall m, In m ["free_cash_flow"] -> In m ms'.
Proof.
  apply (longer_query_identifies_more "Compare " "fcf" " with EBITDA."
           ["free_cash_flow"]).
  - vm_compute. reflexivity.
  - vm_compute. reflexivity.
Defined.
